(** * Conclave debate engine: belief revision, verification and persistence

    Shallow embedding of [server/lib/debate-engine.ts], the mock verification
    adapter, the [verify_plan] tool and the [handleRun] request handler.

    Modelling conventions.
    - A JavaScript [number] holding a probability, weight, confidence or
      reliability is an exact rational in lowest terms ([Qc]), so that equal
      numbers are equal terms.  Rounding of IEEE doubles is not modelled, nor
      are NaN and the infinities: a statement that holds only without
      rounding says so, and the numbers a statement ranges over are the
      finite ones of the data model (probabilities, weights, confidences and
      reliabilities in [0,1] where the statement asks for it).
    - A text is a string of characters of the ASCII range, where a character
      is one UTF-16 code unit and [toLowerCase] maps A-Z only.
    - A timestamp is the integer number of milliseconds since the epoch
      ([Date.getTime]); [toISOString] is an order-preserving rendering of it.
    - Every call to an external capability (language model, verification
      endpoint) is a field of the environment record [Env]; a call that throws
      returns [Err message].
    - Fields of the session that only carry display text (transcript, belief
      statements, uncertainty summary, final diff) are not modelled.
    - [runDebate] also returns the requests it passed to the verification
      endpoint, so that statements can speak about what was sent: the call
      to the endpoint records its request ([callVerifyPlan]), and the list
      returned is what the calls made have recorded.
    - The [verify_plan] tool is embedded with its key check and with the
      lookup of its mock table as a plain object, which finds the names
      inherited from [Object.prototype]; its output holds summary and logs
      as optional fields, since such a lookup leaves them undefined.
    - Module [Binary64] repeats the arithmetic of [normalizeEntries],
      [dampAndNormalize] and the weighted mean on IEEE doubles, to evaluate
      concrete lists bit for bit and to show where rounding matters.
    - Module [LlmAdapter] embeds the language-model adapter (configuration,
      prompt settings, validation and retry loops), module [RealAdapter] the
      Daytona verification adapter; [buildTranscriptFromProposals] is
      embedded on its own, the session record not holding the transcript. *)

From Stdlib Require Import QArith Qcanon Qabs ZArith List String Ascii Bool.
From Stdlib Require Import Lia Lqa DecimalString Sorted Qround.
From Corelib Require Import PrimFloat.
Import ListNotations.

Open Scope list_scope.
Open Scope string_scope.
Open Scope Qc_scope.

(** ** Data model *)

Inductive AgentRole : Type :=
| planner | skeptic | security | cost | synthesizer.

Definition AgentRole_eqb (a b : AgentRole) : bool :=
  match a, b with
  | planner, planner | skeptic, skeptic | security, security
  | cost, cost | synthesizer, synthesizer => true
  | _, _ => false
  end.

Definition roleName (r : AgentRole) : string :=
  match r with
  | planner => "planner"
  | skeptic => "skeptic"
  | security => "security"
  | cost => "cost"
  | synthesizer => "synthesizer"
  end.

Record DebatePlan : Type := mkPlan {
  plan_id : string;
  plan_title : string;
  plan_summary : string;
  plan_steps : list string;
  plan_risks : list string
}.

Record ProbabilityEntry : Type := mkEntry {
  planId : string;
  probability : Qc;
  updatedBy : AgentRole;
  rationale : string;
  timestamp : Z
}.

Record ProbabilitySnapshot : Type := mkSnapshot {
  snap_timestamp : Z;
  snap_note : string;
  snap_entries : list ProbabilityEntry
}.

Record DebateWeights : Type := mkWeights {
  w_planner : Qc;
  w_skeptic : Qc;
  w_security : Qc;
  w_cost : Qc;
  w_synthesizer : Qc
}.

(** ** Belief revision *)

(** The number [n / d]. *)
Definition ratio (n : Z) (d : positive) : Qc := Q2Qc (Qmake n d).

(** [Math.min(a, b)] and [Math.max(a, b)] *)
Definition mathMin (a b : Qc) : Qc := if Qle_bool a b then a else b.

Definition mathMax (a b : Qc) : Qc := if Qle_bool a b then b else a.

Definition DAMPING_FACTOR : Qc := ratio 8 100.

Definition clampUnit (value : Qc) : Qc := mathMin 1 (mathMax 0 value).

Definition clampWeight (value : Qc) : Qc := mathMin 1 (mathMax 0 value).

Definition setProbability (entry : ProbabilityEntry) (p : Qc) : ProbabilityEntry :=
  mkEntry (planId entry) p (updatedBy entry) (rationale entry) (timestamp entry).

Definition setTimestamp (entry : ProbabilityEntry) (ts : Z) : ProbabilityEntry :=
  mkEntry (planId entry) (probability entry) (updatedBy entry) (rationale entry) ts.

(** [entries.reduce((sum, entry) => sum + entry.probability, 0)] *)
Definition totalProbability (entries : list ProbabilityEntry) : Qc :=
  fold_left (fun sum entry => sum + probability entry) entries 0.

(** [entries.length] as a number. *)
Definition count (n : nat) : Qc := Q2Qc (inject_Z (Z.of_nat n)).

(** [1 / entries.length]; on the empty list JavaScript yields [Infinity] and
    the model yields [0], but the value is then never used (the map is empty). *)
Definition uniformShare (entries : list ProbabilityEntry) : Qc :=
  1 / count (List.length entries).

Definition normalizeEntries (entries : list ProbabilityEntry) : list ProbabilityEntry :=
  let total := totalProbability entries in
  if Qeq_bool total 0 then
    let uniform := uniformShare entries in
    map (fun entry => setProbability entry uniform) entries
  else
    map (fun entry => setProbability entry (probability entry / total)) entries.

Definition dampAndNormalize (entries : list ProbabilityEntry) : list ProbabilityEntry :=
  let normalized := normalizeEntries entries in
  let uniform := uniformShare normalized in
  map (fun entry =>
         setProbability entry
           ((1 - DAMPING_FACTOR) * probability entry + DAMPING_FACTOR * uniform))
      normalized.

Definition toTimestamp (base : Z) (offsetMinutes : Z) : Z :=
  (base + offsetMinutes * 60000)%Z.

Definition recordSnapshot (ts : Z) (note : string) (entries : list ProbabilityEntry)
  : ProbabilitySnapshot :=
  mkSnapshot ts note entries.

Record Update : Type := mkUpdate {
  upd_planId : string;
  upd_probability : Qc;
  upd_updatedBy : AgentRole;
  upd_rationale : string
}.

Definition applyWeightedUpdate (previous : list ProbabilityEntry) (update : Update)
           (ts : Z) (weight : Qc) : list ProbabilityEntry :=
  map (fun entry =>
         if negb (String.eqb (planId entry) (upd_planId update)) then entry
         else
           let weighted :=
             probability entry * (1 - weight) + upd_probability update * weight in
           mkEntry (planId entry) (clampUnit weighted) (upd_updatedBy update)
                   (upd_rationale update) ts)
      previous.

(** ** Helpers standing for JavaScript built-ins *)

Inductive Result (A : Type) : Type :=
| Ok (value : A)
| Err (message : string).

Arguments Ok {A} value.
Arguments Err {A} message.

Definition newline : string := String (ascii_of_nat 10) EmptyString.

Definition dquote : string := String (ascii_of_nat 34) EmptyString.

(** [lines.join("\n")] *)
Definition joinLines (lines : list string) : string := String.concat newline lines.

Definition natToString (n : nat) : string := NilZero.string_of_uint (Nat.to_uint n).

Definition intToString (z : Z) : string := NilZero.string_of_int (Z.to_int z).

(** [String.prototype.toLowerCase], on the ASCII range. *)
Definition lowerAscii (c : ascii) : ascii :=
  let n := nat_of_ascii c in
  if (65 <=? n)%nat && (n <=? 90)%nat then ascii_of_nat (n + 32) else c.

Fixpoint toLowerCase (s : string) : string :=
  match s with
  | EmptyString => EmptyString
  | String c rest => String (lowerAscii c) (toLowerCase rest)
  end.

(** [text.includes(word)] *)
Fixpoint includes (text word : string) : bool :=
  prefix word text ||
  match text with
  | EmptyString => false
  | String _ rest => includes rest word
  end.

(** [array.push(item)] *)
Definition push {A : Type} (array : list A) (item : A) : list A := app array [item].

(** [o ?? default] *)
Definition orElse {A : Type} (o : option A) (default : A) : A :=
  match o with
  | Some a => a
  | None => default
  end.

(** Truthiness of a text that may be undefined: defined and not empty. *)
Definition isTruthy (value : option string) : bool :=
  match value with
  | Some text => negb (String.eqb text EmptyString)
  | None => false
  end.

(** [value.slice(0, max)] *)
Definition sliceTo (value : string) (max : nat) : string := substring 0 max value.

Definition Qltb (a b : Qc) : bool := negb (Qle_bool b a).

(** [Array.prototype.map] with the index passed to the callback. *)
Fixpoint mapiFrom {A B : Type} (f : A -> nat -> B) (start : nat) (l : list A) : list B :=
  match l with
  | [] => []
  | x :: rest => f x start :: mapiFrom f (S start) rest
  end.

Definition mapi {A B : Type} (f : A -> nat -> B) (l : list A) : list B :=
  mapiFrom f 0 l.

(** [Array.prototype.sort(compare)]: the sort is stable, and [a] is placed
    before [b] exactly when [compare(a, b) < 0] or they compare equal and [a]
    came first.  Modelled as a stable insertion sort. *)
Fixpoint insertBy {A : Type} (compare : A -> A -> Qc) (x : A) (sorted : list A) : list A :=
  match sorted with
  | [] => [x]
  | y :: rest =>
      if Qltb (compare y x) 0 then y :: insertBy compare x rest
      else x :: y :: rest
  end.

(** The comparator [(a, b) => key(b) - key(a)]: larger keys first. *)
Definition descendingBy {A : Type} (key : A -> Qc) (a b : A) : Qc := key b - key a.

Definition sortBy {A : Type} (compare : A -> A -> Qc) (l : list A) : list A :=
  fold_right (insertBy compare) [] l.

(** ** Agents, weights, proposals and plans *)

Record DebateAgent : Type := mkAgent {
  agent_id : string;
  agent_name : string;
  agent_role : AgentRole;
  agent_goal : string
}.

Definition agents : list DebateAgent :=
  [ mkAgent "agent-planner" "Planner" planner
      "Propose concrete recovery plans for the scenario.";
    mkAgent "agent-skeptic" "Skeptic" skeptic
      "Challenge assumptions and stress-test plans.";
    mkAgent "agent-security" "Security" security
      "Identify security risks and validation gaps.";
    mkAgent "agent-cost" "Cost" cost
      "Estimate effort and operational impact.";
    mkAgent "agent-synthesizer" "Synthesizer" synthesizer
      "Converge on the most likely fix with evidence." ].

Definition defaultScenario : string := "Fix failing test".

Definition defaultWeights : DebateWeights :=
  mkWeights (ratio 35 100) (ratio 45 100) (ratio 5 10) (ratio 4 10) (ratio 6 10).

(** The [weights] of a request: any of the five roles may be missing. *)
Record WeightOverrides : Type := mkOverrides {
  o_planner : option Qc;
  o_skeptic : option Qc;
  o_security : option Qc;
  o_cost : option Qc;
  o_synthesizer : option Qc
}.

(** [clampWeight(overrides?.role ?? defaultWeights.role)] for each role. *)
Definition resolveWeights (overrides : option WeightOverrides) : DebateWeights :=
  let pick (given : WeightOverrides -> option Qc) (default : DebateWeights -> Qc) :=
    clampWeight
      (match overrides with
       | Some o => orElse (given o) (default defaultWeights)
       | None => default defaultWeights
       end) in
  mkWeights (pick o_planner w_planner) (pick o_skeptic w_skeptic)
            (pick o_security w_security) (pick o_cost w_cost)
            (pick o_synthesizer w_synthesizer).

(** [weights[role]] *)
Definition weightOf (weights : DebateWeights) (role : AgentRole) : Qc :=
  match role with
  | planner => w_planner weights
  | skeptic => w_skeptic weights
  | security => w_security weights
  | cost => w_cost weights
  | synthesizer => w_synthesizer weights
  end.

(** The structured answer of the proposal capability. *)
Record Draft : Type := mkDraft {
  d_proposal : string;
  d_summary : string;
  d_risk : string;
  d_riskSeverity : Z;
  d_rationale : list string;
  d_confidence : Qc
}.

Record Proposal : Type := mkProposal {
  p_agent : AgentRole;
  p_proposal : string;
  p_summary : string;
  p_risk : string;
  p_riskSeverity : Z;
  p_rationale : list string;
  p_confidence : Qc
}.

(** [proposals.find((item) => item.agent === role)] *)
Definition findProposal (proposals : list Proposal) (role : AgentRole) : option Proposal :=
  find (fun item => AgentRole_eqb (p_agent item) role) proposals.

Definition proposalOrder : list AgentRole := [planner; skeptic; security; cost].

Definition plansFromProposals (proposals : list Proposal) : list DebatePlan :=
  mapi (fun role index =>
          let proposal := findProposal proposals role in
          mkPlan
            ("plan-" ++ String (ascii_of_nat (97 + index)) EmptyString)
            (match proposal with
             | Some _ => roleName role ++ " proposal"
             | None => "Plan " ++ natToString (index + 1)
             end)
            (match proposal with
             | Some p => p_proposal p
             | None => "No proposal available."
             end)
            (match proposal with
             | Some p =>
                 match p_rationale p with
                 | [] => ["Gather details"; "Draft approach"; "Validate outcome"]
                 | _ => p_rationale p
                 end
             | None => ["Gather details"; "Draft approach"; "Validate outcome"]
             end)
            ["Requires validation against real-world constraints."])
       proposalOrder.

(** [proposalPlanMap.get(role)] *)
Definition proposalPlanMap (role : AgentRole) : option string :=
  match role with
  | planner => Some "plan-a"
  | skeptic => Some "plan-b"
  | security => Some "plan-c"
  | cost => Some "plan-d"
  | synthesizer => None
  end.

Definition basePlans : list DebatePlan :=
  [ mkPlan "plan-a" "Backfill role default in userService"
      "Add a default role when user role is missing."
      [ "Inspect userService mapping for undefined role cases.";
        "Add fallback to " ++ dquote ++ "viewer" ++ dquote ++ " when role is undefined.";
        "Update unit tests to reflect default role behavior." ]
      [ "May mask upstream data issues if role is missing." ];
    mkPlan "plan-b" "Fix role mapping from auth payload"
      "Ensure auth payload is normalized before mapping roles."
      [ "Normalize auth payload into consistent structure.";
        "Map missing roles to default values in mapper.";
        "Add regression test for empty role list." ]
      [ "Requires touching shared auth parsing logic." ];
    mkPlan "plan-c" "Update mocks to include role fixture"
      "Adjust fixtures so tests include expected role values."
      [ "Inspect failing test fixtures for role omissions.";
        "Update mock payloads to include role field.";
        "Re-run test suite to confirm stability." ]
      [ "If production code is wrong, mocks may hide issue." ];
    mkPlan "plan-d" "Adjust validation for legacy role values"
      "Allow legacy role values in validation logic."
      [ "Check validation rules for role enum.";
        "Add legacy alias mapping for " ++ dquote ++ "guest" ++ dquote ++ " role.";
        "Update snapshot tests for legacy role support." ]
      [ "Could introduce inconsistent role semantics." ] ].

Definition initialProbabilitiesForPlans (baseTime : Z) (plans : list DebatePlan)
  : list ProbabilityEntry :=
  let ts := toTimestamp baseTime 1 in
  map (fun plan =>
         mkEntry (plan_id plan) (ratio 25 100) planner
                 "Initial prior assigned by Planner." ts)
      plans.

(** ** Verification results and the mock adapter *)

Record VerificationResult : Type := mkVerification {
  passed : bool;
  output : string;
  durationMs : Z;
  v_summary : string;
  reliability : option Qc;
  warning : option string;
  adapterName : option string;
  v_startedAt : option Z;
  v_finishedAt : option Z
}.

Record MockOutput : Type := mkMockOutput {
  mo_planId : string;
  mo_passed : bool;
  mo_summary : string;
  mo_output : string
}.

(** [outputs[0]] *)
Definition firstOutput : MockOutput :=
  mkMockOutput "plan-a" false "Two tests still failing after change."
    (joinLines
       [ " RUNS  test/userService.test.ts";
         " FAIL  test/userService.test.ts";
         "  ● UserService › returns default role";
         "    Expected: " ++ dquote ++ "viewer" ++ dquote;
         "    Received: undefined";
         "  ● UserService › maps roles";
         "    TypeError: cannot read properties of undefined (reading 'role')";
         "";
         "Test Suites: 1 failed, 4 passed, 5 total";
         "Tests:       2 failed, 18 passed, 20 total";
         "Snapshots:   0 total";
         "Time:        4.21 s" ]).

Definition outputs : list MockOutput :=
  [ firstOutput;
    mkMockOutput "plan-b" true "All tests passing after role fallback fix."
      (joinLines
         [ " RUNS  test/userService.test.ts";
           " PASS  test/userService.test.ts";
           " PASS  test/roles.test.ts";
           "";
           "Test Suites: 5 passed, 5 total";
           "Tests:       20 passed, 20 total";
           "Snapshots:   0 total";
           "Time:        3.97 s" ]);
    mkMockOutput "plan-c" false "Mocks updated but integration still failing."
      (joinLines
         [ " RUNS  test/userService.test.ts";
           " FAIL  test/userService.test.ts";
           "  ● UserService › maps roles";
           "    Expected: " ++ dquote ++ "admin" ++ dquote;
           "    Received: " ++ dquote ++ "viewer" ++ dquote;
           "";
           "Test Suites: 1 failed, 4 passed, 5 total";
           "Tests:       1 failed, 19 passed, 20 total";
           "Snapshots:   0 total";
           "Time:        4.02 s" ]);
    mkMockOutput "plan-d" false "Input validation changed but tests still failing."
      (joinLines
         [ " RUNS  test/userService.test.ts";
           " FAIL  test/userService.test.ts";
           "  ● UserService › returns default role";
           "    Expected: " ++ dquote ++ "viewer" ++ dquote;
           "    Received: " ++ dquote ++ "guest" ++ dquote;
           "";
           "Test Suites: 1 failed, 4 passed, 5 total";
           "Tests:       1 failed, 19 passed, 20 total";
           "Snapshots:   0 total";
           "Time:        4.08 s" ]) ].

(** [selectOutput(request)]; [jitter] is [Math.floor(Math.random() * 900)]. *)
Definition selectOutput (jitter : Z) (plan : DebatePlan) : VerificationResult :=
  let matched :=
    orElse (find (fun item => String.eqb (mo_planId item) (plan_id plan)) outputs)
           firstOutput in
  mkVerification (mo_passed matched) (mo_output matched) (3500 + jitter)%Z
                 (mo_summary matched)
                 (Some (if mo_passed matched then ratio 9 10 else ratio 75 100))
                 None (Some "mock") None None.

(** [mockAdapter.runVerification({ scenario, plan })].  Reading [request.plan.id]
    of an undefined plan throws a [TypeError]. *)
Definition mockRunVerification (jitter : Z) (plan : option DebatePlan)
  : Result VerificationResult :=
  match plan with
  | Some p => Ok (selectOutput jitter p)
  | None => Err "Cannot read properties of undefined (reading 'id')"
  end.

(** ** The [verify_plan] tool of the conclave-tools service *)

Inductive McpStatus : Type := StatusPass | StatusFail | StatusSkipped | StatusError.

Inductive VerifyMode : Type := ModeMock | ModeReal.

Record McpRequest : Type := mkMcpRequest {
  req_sessionId : string;
  req_planId : string;
  req_mode : VerifyMode;
  req_fixturePath : option string;
  req_command : option string
}.

Record McpToolResult : Type := mkMcpResult {
  r_status : McpStatus;
  r_summary : string;
  r_logs : list string;
  r_exitCode : option Z;
  r_startedAt : Z;
  r_finishedAt : Z;
  r_reliability : Qc
}.

(** The input of the tool ([VerifyPlanInput]): the five arguments the engine
    passes, and the key the client adds to them when it has one. *)
Record VerifyPlanInput : Type := mkVerifyPlanInput {
  in_args : McpRequest;
  in_apiKey : option string
}.

(** What the tool returns ([VerifyOutput]).  [summary] and [logs] are declared
    as a text and a list of texts; they are [None] when the value the tool
    puts there is undefined. *)
Record VerifyOutput : Type := mkVerifyOutput {
  vo_status : McpStatus;
  vo_summary : option string;
  vo_logs : option (list string);
  vo_exitCode : option Z;
  vo_startedAt : Z;
  vo_finishedAt : Z;
  vo_reliability : Qc
}.

(** [requireApiKey(inputKey)], [expected] being [process.env.MCP_API_KEY] of
    the tool's host; [Err] when it throws. *)
Definition requireApiKey (expected inputKey : option string) : Result unit :=
  if negb (isTruthy expected) then Ok tt
  else if negb (isTruthy inputKey)
          || negb (String.eqb (orElse inputKey EmptyString)
                              (orElse expected EmptyString))
       then Err "Unauthorized"
       else Ok tt.

Record MockLog : Type := mkMockLog {
  ml_passed : bool;
  ml_summary : string;
  ml_logs : list string
}.

(** The table [outputs] of [buildMockLogs]. *)
Definition mockOutputs : list (string * MockLog) :=
  [ ("plan-a",
     mkMockLog false "Two tests still failing after change."
       [ " RUNS  test/userService.test.ts";
         " FAIL  test/userService.test.ts";
         "  ● UserService › returns default role";
         "    Expected: " ++ dquote ++ "viewer" ++ dquote;
         "    Received: undefined";
         "";
         "Test Suites: 1 failed, 4 passed, 5 total";
         "Tests:       2 failed, 18 passed, 20 total" ]);
    ("plan-b",
     mkMockLog true "All tests passing after role fallback fix."
       [ " RUNS  test/userService.test.ts";
         " PASS  test/userService.test.ts";
         " PASS  test/roles.test.ts";
         "";
         "Test Suites: 5 passed, 5 total";
         "Tests:       20 passed, 20 total" ]);
    ("plan-c",
     mkMockLog false "Mocks updated but integration still failing."
       [ " RUNS  test/userService.test.ts";
         " FAIL  test/userService.test.ts";
         "  ● UserService › maps roles";
         "    Expected: " ++ dquote ++ "admin" ++ dquote;
         "    Received: " ++ dquote ++ "viewer" ++ dquote ]);
    ("plan-d",
     mkMockLog false "Input validation changed but tests still failing."
       [ " RUNS  test/userService.test.ts";
         " FAIL  test/userService.test.ts";
         "  ● UserService › returns default role";
         "    Expected: " ++ dquote ++ "viewer" ++ dquote;
         "    Received: " ++ dquote ++ "guest" ++ dquote ]) ].

(** The property names every object inherits from [Object.prototype]. *)
Definition objectPrototypeKeys : list string :=
  [ "constructor"; "__defineGetter__"; "__defineSetter__"; "hasOwnProperty";
    "__lookupGetter__"; "__lookupSetter__"; "isPrototypeOf";
    "propertyIsEnumerable"; "toString"; "valueOf"; "__proto__";
    "toLocaleString" ].

(** [outputs[planId] ?? outputs["plan-a"]].  [outputs] is a plain object: the
    lookup finds the entry of the table, or else, for a name inherited from
    [Object.prototype], the inherited value, which is not nullish and has none
    of the three fields ([None] here); only for any other name is the result
    undefined and the entry of plan-a taken. *)
Definition buildMockLogs (planId : string) : option MockLog :=
  match find (fun entry => String.eqb (fst entry) planId) mockOutputs with
  | Some entry => Some (snd entry)
  | None =>
      if existsb (String.eqb planId) objectPrototypeKeys then None
      else option_map snd
             (find (fun entry => String.eqb (fst entry) "plan-a") mockOutputs)
  end.

(** What [runCommand] resolves to. *)
Record CommandRun : Type := mkCommandRun {
  cr_stdout : string;
  cr_stderr : string;
  cr_exitCode : Z;
  cr_startedAt : Z;
  cr_finishedAt : Z;
  cr_timedOut : bool
}.

(** The host on which the tool runs: its clock, whether the fixture path can
    be accessed, the defaults from its process environment, what running the
    command there yields, and its [MCP_API_KEY]. *)
Record ToolHost : Type := mkToolHost {
  th_now : Z;
  th_fixtureAccessible : string -> bool;
  th_defaultFixturePath : option string;
  th_defaultCommand : option string;
  th_runCommand : string -> string -> CommandRun;
  th_apiKey : option string
}.

Definition nonEmptyLog (header text : string) : list string :=
  if String.eqb text "" then [] else [header ++ newline ++ text].

Definition verify_plan (host : ToolHost) (input : VerifyPlanInput)
  : Result VerifyOutput :=
  match requireApiKey (th_apiKey host) (in_apiKey input) with
  | Err message => Err message
  | Ok _ =>
      let args := in_args input in
      let startedAt := th_now host in
      match req_mode args with
      | ModeReal =>
          let fixturePath :=
            orElse (req_fixturePath args)
                   (orElse (th_defaultFixturePath host)
                           "./fixtures/daytona-fixture") in
          let command :=
            orElse (req_command args)
                   (orElse (th_defaultCommand host) "npm test") in
          if negb (th_fixtureAccessible host fixturePath) then
            Ok (mkVerifyOutput StatusError
                  (Some "Fixture path not found for real verification.")
                  (Some [ "Fixture path is missing or unreadable.";
                          "fixturePath=" ++ fixturePath;
                          "command=" ++ command ])
                  (Some 1%Z) startedAt (th_now host) (ratio 2 10))
          else
            let result := th_runCommand host fixturePath command in
            let status :=
              if cr_timedOut result then StatusError
              else if (cr_exitCode result =? 0)%Z then StatusPass
                   else StatusFail in
            let summary :=
              if cr_timedOut result then "Verification timed out."
              else if (cr_exitCode result =? 0)%Z then "Verification passed."
                   else "Verification failed." in
            Ok (mkVerifyOutput status (Some summary)
                  (Some (("[daytona] fixturePath=" ++ fixturePath)
                           :: ("[daytona] command=" ++ command)
                           :: (nonEmptyLog "--- stdout ---" (cr_stdout result)
                                 ++ nonEmptyLog "--- stderr ---"
                                                (cr_stderr result))%list))
                  (Some (cr_exitCode result)) (cr_startedAt result)
                  (cr_finishedAt result)
                  (match status with
                   | StatusPass => ratio 9 10
                   | StatusFail => ratio 75 100
                   | _ => ratio 2 10
                   end))
      | ModeMock =>
          let mock := buildMockLogs (req_planId args) in
          let mockPassed :=
            match mock with
            | Some found => ml_passed found
            | None => false
            end in
          Ok (mkVerifyOutput (if mockPassed then StatusPass else StatusFail)
                (option_map ml_summary mock) (option_map ml_logs mock)
                (Some (if mockPassed then 0 else 1)%Z)
                startedAt (th_now host)
                (if mockPassed then ratio 9 10 else ratio 75 100))
      end
  end.

(** The value of a result, if there is one. *)
Definition resultValue {A : Type} (r : Result A) : option A :=
  match r with
  | Ok value => Some value
  | Err _ => None
  end.

(** The output as a result of the declared type [McpToolResult], which it is
    when summary and logs are there. *)
Definition declaredResult (output : VerifyOutput) : option McpToolResult :=
  match vo_summary output, vo_logs output with
  | Some summary, Some logs =>
      Some (mkMcpResult (vo_status output) summary logs (vo_exitCode output)
                        (vo_startedAt output) (vo_finishedAt output)
                        (vo_reliability output))
  | _, _ => None
  end.

(** ** Revision steps *)

(** [verification.reliability ?? (verification.passed ? 0.9 : 0.75)] *)
Definition reliabilityOf (verification : VerificationResult) : Qc :=
  orElse (reliability verification)
         (if passed verification then ratio 9 10 else ratio 75 100).

Definition effectiveWeightOf (verification : VerificationResult) (weight : Qc) : Qc :=
  clampWeight (weight * reliabilityOf verification).

Definition targetProbabilityOf (verification : VerificationResult) : Qc :=
  if passed verification then ratio 82 100 else ratio 18 100.

Definition evaluateVerification (previous : list ProbabilityEntry)
           (verification : VerificationResult) (planId : string) (baseTime : Z)
           (weight : Qc) : list ProbabilityEntry :=
  let ts := toTimestamp baseTime 16 in
  let effectiveWeight := effectiveWeightOf verification weight in
  let targetProbability := targetProbabilityOf verification in
  let updated :=
    applyWeightedUpdate previous
      (mkUpdate planId targetProbability synthesizer
         (if passed verification
          then "Verification passed; confidence boosted with damping."
          else "Verification failed; confidence reduced with damping."))
      ts effectiveWeight in
  dampAndNormalize (map (fun entry => setTimestamp entry ts) updated).

Record AgentUpdate : Type := mkAgentUpdate {
  au_planId : string;
  au_probability : Qc;
  au_rationale : string
}.

(** [reviseFromAgent]; every call in the engine passes [weight], so its default
    value 0.4 plays no part. *)
Definition reviseFromAgent (previous : list ProbabilityEntry) (agent : AgentRole)
           (updates : list AgentUpdate) (baseTime : Z) (offset : Z) (weight : Qc)
  : list ProbabilityEntry :=
  let ts := toTimestamp baseTime offset in
  let result :=
    fold_left
      (fun result update =>
         applyWeightedUpdate result
           (mkUpdate (au_planId update) (au_probability update) agent
                     (au_rationale update))
           ts weight)
      updates previous in
  dampAndNormalize (map (fun entry => setTimestamp entry ts) result).

(** [[...entries].sort((a, b) => b.probability - a.probability)[0]?.planId ?? "plan-a"] *)
Definition pickFinalPlanId (verified : list ProbabilityEntry) : string :=
  match sortBy (descendingBy probability) verified with
  | first :: _ => planId first
  | [] => "plan-a"
  end.

(** ** Timeline and evidence *)

Record DebateTimelineEvent : Type := mkEvent {
  ev_id : string;
  ev_label : string;
  ev_timestamp : Z;
  ev_details : string
}.

Definition buildTimeline (baseTime : Z) (adapter : string) (runVerification : bool)
  : list DebateTimelineEvent :=
  [ mkEvent "timeline-plans" "Plans proposed" (toTimestamp baseTime 0)
      "Planner proposed four candidate plans.";
    mkEvent "timeline-debate" "Debate round" (toTimestamp baseTime 9)
      "Skeptic, Security, and Cost reviewed the plan set.";
    mkEvent "timeline-verification" "Verification run" (toTimestamp baseTime 15)
      (if runVerification
       then "Verification run executed via " ++ adapter ++ " adapter."
       else "Verification skipped for this run; evidence based on debate only.");
    mkEvent "timeline-synthesis" "Synthesized outcome" (toTimestamp baseTime 18)
      "Synthesizer produced final recommendation and patch." ].

Inductive EvidenceType : Type := EvTest | EvLog | EvAnalysis | EvPatch.

Record EvidenceLedgerEntry : Type := mkEvidence {
  e_id : string;
  e_planId : string;
  e_agent : AgentRole;
  e_type : EvidenceType;
  e_summary : string;
  e_details : string;
  e_reliability : Qc;
  e_timestamp : Z
}.

(** [buildDiff().diff] *)
Definition buildDiff : string :=
  joinLines
    [ "diff --git a/src/services/userService.ts b/src/services/userService.ts";
      "index 1b233d1..56c92fa 100644";
      "--- a/src/services/userService.ts";
      "+++ b/src/services/userService.ts";
      "@@ -14,7 +14,12 @@ export const mapUser = (payload: AuthPayload): User => {";
      "-  const role = payload.role;";
      "+  const role = payload.role ?? " ++ dquote ++ "viewer" ++ dquote ++ ";";
      "   return {";
      "     id: payload.id,";
      "-    role,";
      "+    role,";
      "     name: payload.name,";
      "   };";
      " };" ].

Definition buildEvidence (baseTime : Z) (verification : VerificationResult)
           (planId : string) (runVerification : bool)
           (generationWarnings : list string) (plans : list DebatePlan)
           (includePatch : bool) : list EvidenceLedgerEntry :=
  let selectedPlan := find (fun plan => String.eqb (plan_id plan) planId) plans in
  let selectedSummary :=
    match selectedPlan with
    | Some plan => plan_summary plan
    | None => "Selected plan summary unavailable."
    end in
  let selectedRisk :=
    match selectedPlan with
    | Some plan => hd "Primary risk not specified." (plan_risks plan)
    | None => "Primary risk not specified."
    end in
  let verificationEntry :=
    if runVerification then
      mkEvidence "evidence-verification" planId synthesizer EvTest
                 (v_summary verification) (output verification)
                 (reliabilityOf verification) (toTimestamp baseTime 16)
    else
      mkEvidence "evidence-verification" planId synthesizer EvAnalysis
                 "Verification skipped."
                 "Verification was skipped for this run; evidence relies on agent debate."
                 (ratio 55 100) (toTimestamp baseTime 16) in
  let warningEntries :=
    mapi (fun warningText index =>
            mkEvidence ("evidence-generation-warning-" ++ natToString index) planId
                       synthesizer EvLog "Generation warning" warningText (ratio 35 100)
                       (toTimestamp baseTime (5 + Z.of_nat index)))
         generationWarnings in
  let verificationWarning :=
    match warning verification with
    | Some text =>
        if String.eqb text "" then []
        else [ mkEvidence "evidence-warning" planId synthesizer EvLog
                          "Verification warning" text (ratio 4 10)
                          (toTimestamp baseTime 17) ]
    | None => []
    end in
  let entries :=
    ([ mkEvidence "evidence-planner" planId planner EvAnalysis
                  "Planner rationale captured for selected plan." selectedSummary
                  (ratio 62 100) (toTimestamp baseTime 2);
       mkEvidence "evidence-security" planId security EvAnalysis
                  "Security flagged key risk for selected plan." selectedRisk
                  (ratio 7 10) (toTimestamp baseTime 7) ]
       ++ warningEntries ++ [verificationEntry] ++ verificationWarning)%list in
  if includePatch then
    (entries ++ [ mkEvidence "evidence-patch" planId synthesizer EvPatch
                             "Example patch output." buildDiff (ratio 8 10)
                             (toTimestamp baseTime 18) ])%list
  else entries.

(** ** The run: environment, options and session *)

Record LlmConfig : Type := mkLlmConfig {
  llm_enabled : bool;
  llm_model : option string;
  llm_promptVersion : string
}.

Record EvidenceForAgents : Type := mkEvidenceForAgents {
  efa_summary : string;
  efa_output : string
}.

Record FinalSolution : Type := mkFinalSolution {
  fs_summary : string;
  fs_steps : list string;
  fs_risks : list string;
  fs_assumptions : list string
}.

(** Everything a run reads from outside: the language-model capabilities, the
    verification endpoint and the process environment. *)
Record Env : Type := mkEnv {
  getLlmConfig : LlmConfig;
  classifyPrompt : string -> Result string;
  generateAgentProposal :
    DebateAgent -> string -> DebateWeights -> string -> Result Draft;
  generateFinalSolution :
    string -> list Proposal -> option EvidenceForAgents -> Result FinalSolution;
  generateFinalResponse :
    string -> string -> FinalSolution -> list Proposal ->
    option EvidenceForAgents -> bool -> Result string;
  callMcpTool : McpRequest -> Result McpToolResult;
  VERIFICATION_MODE : option string;
  VERIFICATION_FIXTURE_PATH : option string;
  VERIFICATION_COMMAND : option string;
  mockJitter : Z
}.

Record RunOptions : Type := mkOptions {
  opt_weights : option WeightOverrides;
  opt_runVerification : option bool
}.

Inductive Variance : Type := VarLow | VarMedium | VarHigh.

Record DebateSession : Type := mkSession {
  s_id : string;
  s_scenario : string;
  s_createdAt : Z;
  s_agents : list DebateAgent;
  s_plans : list DebatePlan;
  s_probabilities : list ProbabilitySnapshot;
  s_evidenceLedger : list EvidenceLedgerEntry;
  s_timeline : list DebateTimelineEvent;
  s_finalPlanId : string;
  s_adapter : string;
  s_weights : DebateWeights;
  s_runVerification : bool;
  s_model : option string;
  s_promptVersion : string;
  s_generationWarnings : list string;
  s_proposals : list Proposal;
  s_finalSolution : option FinalSolution;
  s_promptCategory : string;
  s_winningAgent : option AgentRole;
  s_codeScenario : bool;
  s_daytonaOutput : option string;
  s_beliefProbability : Qc;
  s_beliefVariance : Variance;
  s_actionResponse : string
}.

Definition codeKeywords : list string :=
  [ "code"; "bug"; "error"; "stack"; "test"; "build"; "deploy"; "api"; "repo";
    "typescript"; "javascript"; "python"; "rust"; "java"; "compile"; "runtime";
    "exception" ].

Definition isCodeScenario (text : string) : bool :=
  let lowered := toLowerCase text in
  existsb (fun word => includes lowered word) codeKeywords.

(** [codeScenario ? (runVerificationRequested || codeScenario) : false] *)
Definition decideRunVerification (codeScenario runVerificationRequested : bool) : bool :=
  if codeScenario then runVerificationRequested || codeScenario else false.

(** The [try]/[catch] around [classifyPrompt]. *)
Definition classifyPhase (env : Env) (scenarioText : string)
           (generationWarnings : list string) : string * list string :=
  match classifyPrompt env scenarioText with
  | Ok category => (category, generationWarnings)
  | Err message =>
      ("reasoning-analysis",
       push generationWarnings
            ("Prompt classification failed; defaulting to reasoning-analysis. "
               ++ message))
  end.

(** [if (codeScenario && !runVerificationRequested) generationWarnings.push(...)] *)
Definition overrideWarningPhase (codeScenario runVerificationRequested : bool)
           (generationWarnings : list string) : list string :=
  if codeScenario && negb runVerificationRequested then
    push generationWarnings
         "Verification was auto-enabled for code-related scenarios."
  else generationWarnings.

(** The loop [for (const agent of agents)] that collects the proposals. *)
Definition collectProposals (env : Env) (scenarioText : string)
           (weights : DebateWeights) (promptCategory : string)
           (generationWarnings : list string) : list Proposal * list string :=
  fold_left
    (fun (state : list Proposal * list string) agent =>
       let (proposals, warnings) := state in
       if AgentRole_eqb (agent_role agent) synthesizer then (proposals, warnings)
       else
         match generateAgentProposal env agent scenarioText weights promptCategory with
         | Ok draft =>
             (push proposals
                   (mkProposal (agent_role agent) (d_proposal draft) (d_summary draft)
                               (d_risk draft) (d_riskSeverity draft)
                               (d_rationale draft) (d_confidence draft)),
              warnings)
         | Err message =>
             (proposals,
              push warnings
                   ("[" ++ roleName (agent_role agent)
                        ++ "] Proposal generation failed. " ++ message))
         end)
    agents ([], generationWarnings).

(** The verification result a run starts from ([adapter.name] is ["mock"]). *)
Definition skippedVerification : VerificationResult :=
  mkVerification true "Verification skipped." 0 "Verification skipped."
                 None None (Some "mock") None None.

(** [proposals.map(...).sort((a, b) => b.confidence - a.confidence)] *)
Definition ranked (proposals : list Proposal) : list (string * Qc) :=
  sortBy (descendingBy snd)
         (map (fun proposal =>
                 (orElse (proposalPlanMap (p_agent proposal)) "plan-a",
                  p_confidence proposal))
              proposals).

(** [ranked[0]?.planId ?? plans[0]?.id ?? "plan-a"] *)
Definition verificationTargetPlanId (proposals : list Proposal)
           (plans : list DebatePlan) : string :=
  match ranked proposals with
  | first :: _ => fst first
  | [] =>
      match plans with
      | plan :: _ => plan_id plan
      | [] => "plan-a"
      end
  end.

Definition verificationModeOf (env : Env) (codeScenario : bool) : VerifyMode :=
  let verificationMode := toLowerCase (orElse (VERIFICATION_MODE env) "auto") in
  if String.eqb verificationMode "real" then ModeReal
  else if String.eqb verificationMode "mock" then ModeMock
  else if codeScenario then ModeReal else ModeMock.

(** The arguments of [callMcpTool("verify_plan", ...)]. *)
Definition verificationRequest (env : Env) (baseTime : Z) (codeScenario : bool)
           (proposals : list Proposal) (plans : list DebatePlan) : McpRequest :=
  mkMcpRequest ("session-" ++ intToString baseTime)
               (verificationTargetPlanId proposals plans)
               (verificationModeOf env codeScenario)
               (VERIFICATION_FIXTURE_PATH env) (VERIFICATION_COMMAND env).

(** [{ ...fallback, warning: "MCP verification failed; fell back to mock.",
       adapterName: "mock" }] *)
Definition fellBackToMock (fallback : VerificationResult) : VerificationResult :=
  mkVerification (passed fallback) (output fallback) (durationMs fallback)
                 (v_summary fallback) (reliability fallback)
                 (Some "MCP verification failed; fell back to mock.")
                 (Some "mock") (v_startedAt fallback) (v_finishedAt fallback).

Definition isErrorStatus (status : McpStatus) : bool :=
  match status with
  | StatusError => true
  | _ => false
  end.

Definition isPassStatus (status : McpStatus) : bool :=
  match status with
  | StatusPass => true
  | _ => false
  end.

(** [await callMcpTool("verify_plan", request)]: the answer of the endpoint,
    and the request as a request that was sent. *)
Definition callVerifyPlan (env : Env) (request : McpRequest)
  : Result McpToolResult * list McpRequest :=
  (callMcpTool env request, [request]).

(** The body of the [try] block of the verification step: its outcome, and
    the requests it sent to the endpoint. *)
Definition tryVerificationTraced (env : Env) (baseTime : Z) (codeScenario : bool)
           (proposals : list Proposal) (plans : list DebatePlan)
  : Result VerificationResult * list McpRequest :=
  let targetPlanId := verificationTargetPlanId proposals plans in
  let targetPlan :=
    match find (fun plan => String.eqb (plan_id plan) targetPlanId) plans with
    | Some plan => Some plan
    | None => nth_error plans 0
    end in
  let called :=
    callVerifyPlan env
      (verificationRequest env baseTime codeScenario proposals plans) in
  (match fst called with
   | Err message => Err message
   | Ok result =>
       let verification :=
         mkVerification (isPassStatus (r_status result)) (joinLines (r_logs result))
                        (r_finishedAt result - r_startedAt result)%Z
                        (r_summary result) (Some (r_reliability result))
                        (if isErrorStatus (r_status result)
                         then Some "MCP verification error; falling back to mock."
                         else None)
                        (Some "mcp") (Some (r_startedAt result))
                        (Some (r_finishedAt result)) in
       if isErrorStatus (r_status result) then
         match mockRunVerification (mockJitter env)
                 (match targetPlan with
                  | Some plan => Some plan
                  | None => nth_error plans 1
                  end) with
         | Ok fallback => Ok (fellBackToMock fallback)
         | Err message => Err message
         end
       else Ok verification
   end,
   snd called).

(** The outcome of the [try] block alone. *)
Definition tryVerification (env : Env) (baseTime : Z) (codeScenario : bool)
           (proposals : list Proposal) (plans : list DebatePlan)
  : Result VerificationResult :=
  fst (tryVerificationTraced env baseTime codeScenario proposals plans).

(** The whole verification step, [try] and [catch]: the verification result
    and the warnings, or the error that escapes the [catch] block; and the
    requests that were sent. *)
Definition verificationPhaseTraced (env : Env) (baseTime : Z) (codeScenario : bool)
           (proposals : list Proposal) (plans : list DebatePlan)
           (generationWarnings : list string)
  : Result (VerificationResult * list string) * list McpRequest :=
  let tried := tryVerificationTraced env baseTime codeScenario proposals plans in
  (match fst tried with
   | Ok verification => Ok (verification, generationWarnings)
   | Err message =>
       let warnings :=
         push generationWarnings
              ("MCP verification failed; fell back to mock. " ++ message) in
       match mockRunVerification (mockJitter env) (nth_error plans 1) with
       | Ok fallback => Ok (fellBackToMock fallback, warnings)
       | Err fatal => Err fatal
       end
   end,
   snd tried).

(** The outcome of the verification step alone. *)
Definition verificationPhase (env : Env) (baseTime : Z) (codeScenario : bool)
           (proposals : list Proposal) (plans : list DebatePlan)
           (generationWarnings : list string)
  : Result (VerificationResult * list string) :=
  fst (verificationPhaseTraced env baseTime codeScenario proposals plans
                               generationWarnings).

(** The two [try] blocks that ask for the final solution and response, and the
    defaults applied after them. *)
Definition finalSolutionPhase (env : Env) (scenarioText : string)
           (proposals : list Proposal) (evidence : option EvidenceForAgents)
           (generationWarnings : list string)
  : option FinalSolution * list string :=
  match proposals with
  | [] => (None, generationWarnings)
  | _ =>
      match generateFinalSolution env scenarioText proposals evidence with
      | Ok solution => (Some solution, generationWarnings)
      | Err message =>
          (None, push generationWarnings
                      ("Final solution generation failed. " ++ message))
      end
  end.

Definition finalResponsePhase (env : Env) (scenarioText promptCategory : string)
           (finalSolution : option FinalSolution) (proposals : list Proposal)
           (evidence : option EvidenceForAgents) (codeScenario : bool)
           (generationWarnings : list string)
  : option string * list string :=
  match finalSolution, proposals with
  | Some solution, _ :: _ =>
      match generateFinalResponse env scenarioText promptCategory solution
                                  proposals evidence codeScenario with
      | Ok response => (Some response, generationWarnings)
      | Err message =>
          (None, push generationWarnings
                      ("Final response generation failed. " ++ message))
      end
  | _, _ => (None, generationWarnings)
  end.

Definition defaultFinalSolution (finalSolution : option FinalSolution)
           (plans : list DebatePlan) : option FinalSolution :=
  match finalSolution, nth_error plans 1 with
  | None, Some plan =>
      Some (mkFinalSolution (plan_summary plan) (plan_steps plan) (plan_risks plan)
              ["Assumptions not explicitly generated; use caution."])
  | _, _ => finalSolution
  end.

Definition defaultFinalResponse (finalResponse : option string)
           (finalSolution : option FinalSolution) (plans : list DebatePlan) : string :=
  let fallback :=
    match finalSolution with
    | Some solution => fs_summary solution
    | None =>
        match nth_error plans 1 with
        | Some plan => plan_summary plan
        | None => "No response generated."
        end
    end in
  match finalResponse with
  | Some response => if String.eqb response "" then fallback else response
  | None => fallback
  end.

(** ** Belief phase of a run *)

(** The [proposalOrder.forEach((role, index) => ...)] loop: one revision and one
    snapshot for every role that has a proposal. *)
Definition agentRevisionStep (baseTime : Z) (weights : DebateWeights)
           (proposals : list Proposal)
           (state : list ProbabilityEntry * list ProbabilitySnapshot)
           (item : AgentRole * nat)
  : list ProbabilityEntry * list ProbabilitySnapshot :=
  let (current, probabilities) := state in
  let (role, index) := item in
  match findProposal proposals role with
  | None => (current, probabilities)
  | Some proposal =>
      let planId := orElse (proposalPlanMap role) "plan-a" in
      let agentWeight := weightOf weights role in
      let offset := (2 + Z.of_nat index * 2)%Z in
      let revised :=
        reviseFromAgent current role
          [mkAgentUpdate planId (p_confidence proposal)
                         (hd "Agent proposal applied." (p_rationale proposal))]
          baseTime offset agentWeight in
      (revised,
       push probabilities
            (recordSnapshot (toTimestamp baseTime offset)
                            (roleName role ++ " proposal applied.") revised))
  end.

Definition agentRevisions (baseTime : Z) (weights : DebateWeights)
           (proposals : list Proposal)
           (state : list ProbabilityEntry * list ProbabilitySnapshot)
  : list ProbabilityEntry * list ProbabilitySnapshot :=
  match proposals with
  | [] => state
  | _ =>
      fold_left (agentRevisionStep baseTime weights proposals)
                (mapi (fun role index => (role, index)) proposalOrder) state
  end.

(** The last revision: verification when it ran, the synthesizer's nudge
    otherwise. *)
Definition finalRevision (baseTime : Z) (weights : DebateWeights)
           (runVerification : bool) (verification : VerificationResult)
           (proposals : list Proposal)
           (state : list ProbabilityEntry * list ProbabilitySnapshot)
  : list ProbabilityEntry * list ProbabilitySnapshot :=
  let (current, probabilities) := state in
  if runVerification then
    let targetPlanId := pickFinalPlanId current in
    let verified :=
      evaluateVerification current verification targetPlanId baseTime
                           (w_synthesizer weights) in
    (verified,
     push probabilities
          (recordSnapshot (toTimestamp baseTime 16)
                          "Verification results applied." verified))
  else
    match proposals with
    | [] => (current, probabilities)
    | _ =>
        let targetPlanId := pickFinalPlanId current in
        let leading :=
          match find (fun entry => String.eqb (planId entry) targetPlanId) current with
          | Some entry => probability entry
          | None => ratio 1 2
          end in
        let skipped :=
          reviseFromAgent current synthesizer
            [mkAgentUpdate targetPlanId (mathMin (ratio 7 10) (leading + (ratio 5 100)))
                           "Synthesizer tempered confidence without verification."]
            baseTime 16 (w_synthesizer weights) in
        (skipped,
         push probabilities
              (recordSnapshot (toTimestamp baseTime 16)
                 "Verification skipped; synthesizer adjusted confidence." skipped))
    end.

(** Everything from [const probabilities = []] to the last snapshot. *)
Definition beliefPhase (baseTime : Z) (weights : DebateWeights)
           (runVerification : bool) (verification : VerificationResult)
           (proposals : list Proposal) (plans : list DebatePlan)
  : list ProbabilityEntry * list ProbabilitySnapshot :=
  let initial := dampAndNormalize (initialProbabilitiesForPlans baseTime plans) in
  let probabilities :=
    push [] (recordSnapshot (toTimestamp baseTime 1) "Initial priors." initial) in
  finalRevision baseTime weights runVerification verification proposals
    (agentRevisions baseTime weights proposals (initial, probabilities)).

Definition varianceOf (p : Qc) : Variance :=
  if Qle_bool (ratio 66 100) p then VarLow
  else if Qle_bool (ratio 5 10) p then VarMedium else VarHigh.

(** ** [runDebate] *)

Record RunOutcome : Type := mkOutcome {
  out_result : Result DebateSession;
  out_mcpCalls : list McpRequest
}.

(** The part of [runDebate] after the verification step: final solution and
    response, belief phase, evidence and the session object. *)
Definition assembleSession (env : Env) (baseTime : Z) (scenarioText : string)
           (weights : DebateWeights) (codeScenario runVerification : bool)
           (promptCategory : string) (proposals : list Proposal)
           (plans : list DebatePlan) (verification : VerificationResult)
           (warnings : list string) : DebateSession :=
  let llmConfig := getLlmConfig env in
  let evidenceForAgents :=
    if runVerification && codeScenario
    then Some (mkEvidenceForAgents (v_summary verification) (output verification))
    else None in
  let generated :=
    finalSolutionPhase env scenarioText proposals evidenceForAgents warnings in
  let responded :=
    finalResponsePhase env scenarioText promptCategory (fst generated) proposals
                       evidenceForAgents codeScenario (snd generated) in
  let generationWarnings := snd responded in
  let finalSolution := defaultFinalSolution (fst generated) plans in
  let finalResponse := defaultFinalResponse (fst responded) finalSolution plans in
  let belief :=
    beliefPhase baseTime weights runVerification verification proposals plans in
  let verified := fst belief in
  let probabilities := snd belief in
  let adapter := orElse (adapterName verification) "mock" in
  let finalPlanId := pickFinalPlanId verified in
  let timeline := buildTimeline baseTime adapter runVerification in
  let evidenceLedger :=
    if runVerification && codeScenario
    then buildEvidence baseTime verification finalPlanId runVerification
                       generationWarnings plans true
    else [] in
  let finalEntry :=
    find (fun entry => String.eqb (planId entry) finalPlanId) verified in
  let p :=
    match finalEntry with
    | Some entry => probability entry
    | None => 0
    end in
  mkSession
    ("session-" ++ intToString baseTime) scenarioText baseTime agents plans
    probabilities evidenceLedger timeline finalPlanId adapter weights
    runVerification (llm_model llmConfig) (llm_promptVersion llmConfig)
    generationWarnings proposals finalSolution promptCategory
    (find (fun role =>
             match proposalPlanMap role with
             | Some id => String.eqb id finalPlanId
             | None => false
             end)
          proposalOrder)
    codeScenario
    (if runVerification && codeScenario then Some (output verification) else None)
    p (varianceOf p) finalResponse.

Definition runDebate (env : Env) (baseTime : Z) (scenario : option string)
           (options : RunOptions) : RunOutcome :=
  let weights := resolveWeights (opt_weights options) in
  let scenarioText := orElse scenario defaultScenario in
  let runVerificationRequested := orElse (opt_runVerification options) true in
  let codeScenario := isCodeScenario scenarioText in
  let runVerification := decideRunVerification codeScenario runVerificationRequested in
  let llmConfig := getLlmConfig env in
  if negb (llm_enabled llmConfig) then
    mkOutcome
      (Err "LLM provider is not configured. Check GROQ_API_KEY/GROQ_MODEL or OLLAMA_URL/OLLAMA_MODEL.")
      []
  else
    let classified := classifyPhase env scenarioText [] in
    let promptCategory := fst classified in
    let warnings :=
      overrideWarningPhase codeScenario runVerificationRequested (snd classified) in
    let collected :=
      collectProposals env scenarioText weights promptCategory warnings in
    let proposals := fst collected in
    match proposals with
    | [] => mkOutcome (Err "LLM proposal generation failed for all agents.") []
    | _ =>
        let plans := plansFromProposals proposals in
        let verified :=
          if runVerification
          then verificationPhaseTraced env baseTime codeScenario proposals plans
                                       (snd collected)
          else (Ok (skippedVerification, snd collected), []) in
        match fst verified with
        | Err fatal => mkOutcome (Err fatal) (snd verified)
        | Ok (verification, afterVerification) =>
            mkOutcome
              (Ok (assembleSession env baseTime scenarioText weights codeScenario
                                   runVerification promptCategory proposals plans
                                   verification afterVerification))
              (snd verified)
        end
    end.

(** ** The request handler and the persisted session list *)

Record DebateRunRequest : Type := mkRunRequest {
  rq_scenario : option string;
  rq_weights : option WeightOverrides;
  rq_runVerification : option bool
}.

(** The request body after [readBody]: empty, not JSON, or a parsed request. *)
Inductive RequestBody : Type :=
| BodyEmpty
| BodyInvalid
| BodyJson (request : DebateRunRequest).

(** The content of [server/data/sessions.json]. *)
Inductive DataFile : Type :=
| FileMissing
| FileCorrupt
| FileSessions (sessions : list DebateSession).

Inductive ResponsePayload : Type :=
| ErrorPayload (message : string)
| SessionPayload (session : DebateSession).

Record HttpResponse : Type := mkResponse {
  res_status : Z;
  res_payload : ResponsePayload
}.

(** [ensureDataFile] then [JSON.parse], with [[]] when parsing fails. *)
Definition readSessions (file : DataFile) : list DebateSession :=
  match file with
  | FileSessions sessions => sessions
  | FileMissing | FileCorrupt => []
  end.

Definition writeSessions (sessions : list DebateSession) : DataFile :=
  FileSessions sessions.

Definition truncate (value : string) (max : nat) : string :=
  if (max <? String.length value)%nat then sliceTo value max ++ "..." else value.

Definition trimSession (session : DebateSession) : DebateSession :=
  mkSession
    (s_id session) (s_scenario session) (s_createdAt session) (s_agents session)
    (s_plans session) (s_probabilities session)
    (map (fun entry =>
            mkEvidence (e_id entry) (e_planId entry) (e_agent entry) (e_type entry)
                       (e_summary entry) (truncate (e_details entry) 1000)
                       (e_reliability entry) (e_timestamp entry))
         (s_evidenceLedger session))
    (s_timeline session) (s_finalPlanId session) (s_adapter session)
    (s_weights session) (s_runVerification session) (s_model session)
    (s_promptVersion session)
    (map (fun warningText => truncate warningText 1000)
         (s_generationWarnings session))
    (s_proposals session) (s_finalSolution session) (s_promptCategory session)
    (s_winningAgent session) (s_codeScenario session) (s_daytonaOutput session)
    (s_beliefProbability session) (s_beliefVariance session)
    (s_actionResponse session).

(** [sessions.slice(0, 25)] *)
Definition SESSION_CAP : nat := 25.

Record Handled : Type := mkHandled {
  h_file : DataFile;
  h_response : HttpResponse
}.

(** [handleRun]: the data file after the request and the response sent.  The
    provider named in the request is installed in the process environment for
    the duration of the run; here it is part of [env]. *)
Definition handleRun (env : Env) (baseTime : Z) (file : DataFile)
           (raw : RequestBody) : Handled :=
  match raw with
  | BodyInvalid => mkHandled file (mkResponse 400 (ErrorPayload "Invalid JSON payload."))
  | _ =>
      let body :=
        match raw with
        | BodyJson request => request
        | _ => mkRunRequest None None None
        end in
      match out_result
              (runDebate env baseTime (rq_scenario body)
                         (mkOptions (rq_weights body) (rq_runVerification body))) with
      | Ok session =>
          let sessions := trimSession session :: readSessions file in
          mkHandled (writeSessions (firstn SESSION_CAP sessions))
                    (mkResponse 200 (SessionPayload session))
      | Err message => mkHandled file (mkResponse 400 (ErrorPayload message))
      end
  end.

(** Requests served one after the other (single writer), oldest first, each
    with the world it ran in. *)
Record Served : Type := mkServed {
  sv_env : Env;
  sv_baseTime : Z;
  sv_body : RequestBody
}.

Definition serve (file : DataFile) (requests : list Served) : DataFile :=
  fold_left
    (fun current request =>
       h_file (handleRun (sv_env request) (sv_baseTime request) current
                         (sv_body request)))
    requests file.

(** The sessions of the requests whose run completed, oldest first. *)
Definition completedSessions (requests : list Served) : list DebateSession :=
  flat_map
    (fun request =>
       match res_payload
               (h_response (handleRun (sv_env request) (sv_baseTime request)
                                      FileMissing (sv_body request))) with
       | SessionPayload session => [session]
       | ErrorPayload _ => []
       end)
    requests.

(** ** The arithmetic of [dampAndNormalize] on IEEE doubles

    The same two functions on the bare probabilities, with the binary64
    operations JavaScript uses; for evaluating concrete lists only. *)

Module Binary64.

(** The double nearest to 0.08. *)
Definition DAMPING_FACTOR : float := 0x1.47ae147ae147bp-4%float.

(** [probabilities.length] as a double (exact for every length in reach). *)
Definition lengthOf (probabilities : list float) : float :=
  fold_left (fun n _ => PrimFloat.add n 1%float) probabilities 0%float.

Definition totalProbability (probabilities : list float) : float :=
  fold_left PrimFloat.add probabilities 0%float.

Definition normalizeEntries (probabilities : list float) : list float :=
  let total := totalProbability probabilities in
  if PrimFloat.eqb total 0%float then
    let uniform := PrimFloat.div 1%float (lengthOf probabilities) in
    map (fun _ => uniform) probabilities
  else map (fun p => PrimFloat.div p total) probabilities.

Definition dampAndNormalize (probabilities : list float) : list float :=
  let normalized := normalizeEntries probabilities in
  let uniform := PrimFloat.div 1%float (lengthOf normalized) in
  map (fun p =>
         PrimFloat.add
           (PrimFloat.mul (PrimFloat.sub 1%float DAMPING_FACTOR) p)
           (PrimFloat.mul DAMPING_FACTOR uniform))
      normalized.

(** [entry.probability * (1 - weight) + update.probability * weight] *)
Definition weighted (old asserted weight : float) : float :=
  PrimFloat.add (PrimFloat.mul old (PrimFloat.sub 1%float weight))
                (PrimFloat.mul asserted weight).

(** Whether two lists hold the same numbers, position by position. *)
Fixpoint sameValues (a b : list float) : bool :=
  match a, b with
  | [], [] => true
  | x :: a', y :: b' => PrimFloat.eqb x y && sameValues a' b'
  | _, _ => false
  end.

End Binary64.

(** ** Vocabulary of the statements *)

Definition TOLERANCE : Qc := ratio 1 1000000000.

(** [|x - 1| <= 1e-9] *)
Definition withinTolerance (x : Qc) : Prop :=
  - TOLERANCE <= x - 1 /\ x - 1 <= TOLERANCE.

(** [x] sits at position [i] of [l], no element has a larger key, and every
    element before it has a strictly smaller key: the first maximum. *)
Definition firstMaxAt {A : Type} (key : A -> Qc) (l : list A) (i : nat) (x : A) : Prop :=
  nth_error l i = Some x /\
  (forall j y, nth_error l j = Some y -> key y <= key x) /\
  (forall j y, (j < i)%nat -> nth_error l j = Some y -> key y < key x).

(** A snapshot over the plans [ids]: one entry per plan, in plan order, with
    probabilities summing to 1. *)
Definition snapshotWellFormed (ids : list string) (s : ProbabilitySnapshot) : Prop :=
  map planId (snap_entries s) = ids /\
  totalProbability (snap_entries s) = 1 /\
  withinTolerance (totalProbability (snap_entries s)).

(** [after] is [before] with elements appended and nothing else changed. *)
Definition extends {A : Type} (before after : list A) : Prop :=
  exists added, after = (before ++ added)%list.

(** The state of the belief phase is sound for the plans [ids], and every
    snapshot recorded so far is older than [bound]. *)
Definition beliefInvariant (ids : list string) (bound : Z)
           (state : list ProbabilityEntry * list ProbabilitySnapshot) : Prop :=
  ids <> [] /\
  map planId (fst state) = ids /\
  Forall (snapshotWellFormed ids) (snd state) /\
  Sorted.StronglySorted Z.lt (map snap_timestamp (snd state)) /\
  Forall (fun s => (snap_timestamp s < bound)%Z) (snd state).

(** ** Sample worlds *)

Definition sampleConfidence (role : AgentRole) : Qc :=
  match role with
  | planner => ratio 9 10
  | skeptic => ratio 85 100
  | security => ratio 6 10
  | _ => ratio 1 2
  end.

Definition sampleDraft (role : AgentRole) : Draft :=
  mkDraft "Patch the role mapper." "Mapper fix" "Regression in auth" 3
          ["Covers the failing case"; "Small change"] (sampleConfidence role).

Definition sampleSolution : FinalSolution :=
  mkFinalSolution "Apply the mapper fix." ["Patch"; "Re-run tests"]
                  ["Hidden callers"] ["Fixture is current"].

(** A world in which every language-model call succeeds; the verification
    endpoint is a parameter. *)
Definition worldWith (endpoint : McpRequest -> Result McpToolResult) : Env :=
  mkEnv (mkLlmConfig true (Some "llama3") "v1")
        (fun _ => Ok "coding")
        (fun agent _ _ _ => Ok (sampleDraft (agent_role agent)))
        (fun _ _ _ => Ok sampleSolution)
        (fun _ _ _ _ _ _ => Ok "Apply the mapper fix and re-run the tests.")
        endpoint None None None 120.

Definition worldUnreachable : Env :=
  worldWith (fun _ => Err "MCP_URL is not configured.").

(** A tool host on which the fixture path is missing. *)
Definition hostWithoutFixture : ToolHost :=
  mkToolHost 5000 (fun _ => false) None None
             (fun _ _ => mkCommandRun "" "" 1 5000 5000 false) None.

(** A tool host on which the command runs and exits with status 0. *)
Definition hostPassing : ToolHost :=
  mkToolHost 5000 (fun _ => true) None None
             (fun _ _ => mkCommandRun "ok" "" 0 5000 9000 false) None.


(** The endpoint a tool host makes for a client that holds [clientKey]: the
    client adds its key to the arguments when it has one; an error of the
    tool is an error of the call; an output without logs makes the engine's
    [result.logs.join] throw inside the same [try] block, which the engine
    cannot tell from an error of the call. *)
Definition toolEndpoint (host : ToolHost) (clientKey : option string)
           (request : McpRequest) : Result McpToolResult :=
  match verify_plan host
          (mkVerifyPlanInput request
             (if isTruthy clientKey then clientKey else None)) with
  | Err message => Err message
  | Ok output =>
      match declaredResult output with
      | Some result => Ok result
      | None => Err "Cannot read properties of undefined (reading 'join')"
      end
  end.

Definition worldTool (host : ToolHost) : Env :=
  worldWith (toolEndpoint host None).

(** A world in which every proposal call fails. *)
Definition worldNoProposals : Env :=
  mkEnv (mkLlmConfig true (Some "llama3") "v1")
        (fun _ => Ok "coding")
        (fun _ _ _ _ => Err "Model returned no JSON.")
        (fun _ _ _ => Ok sampleSolution)
        (fun _ _ _ _ _ _ => Ok "unused")
        (fun _ => Err "MCP_URL is not configured.") None None None 120.

Definition codeRequest : RequestBody :=
  BodyJson (mkRunRequest (Some "Fix failing test") None (Some true)).

Definition proseScenario : string := "Plan a team offsite for forty people".

(** Twenty-six requests, one per minute. *)
Definition manyRequests : list Served :=
  map (fun k => mkServed worldUnreachable (Z.of_nat k * 60000) codeRequest)
      (seq 0 26).

(** ** Vocabulary of the further statements *)

(** Every entry holds at least the floor 0.02 and at most the ceiling 0.94 that
    damping over four plans leaves. *)
Definition withinFloorAndCeiling (entries : list ProbabilityEntry) : Prop :=
  forall e, In e entries ->
            ratio 2 100 <= probability e /\ probability e <= ratio 94 100.

(** The belief state holds four entries, all within floor and ceiling, and so
    does every snapshot recorded so far. *)
Definition rangeInvariant
           (state : list ProbabilityEntry * list ProbabilitySnapshot) : Prop :=
  List.length (fst state) = 4%nat /\
  withinFloorAndCeiling (fst state) /\
  Forall (fun s => withinFloorAndCeiling (snap_entries s)) (snd state).

(** The warning recorded when verification is switched on against the
    caller's wish. *)
Definition AUTO_ENABLED_WARNING : string :=
  "Verification was auto-enabled for code-related scenarios.".

(** A warning that does not start like [AUTO_ENABLED_WARNING]. *)
Definition otherWarning (text : string) : Prop :=
  String.get 0 text <> Some "V"%char.

(** [after] is [before] followed by warnings of other kinds. *)
Definition addsOtherWarnings (before after : list string) : Prop :=
  exists added, after = (before ++ added)%list /\ Forall otherWarning added.

(** [draft] as the proposal the engine stores for [role]. *)
Definition proposalOf (role : AgentRole) (draft : Draft) : Proposal :=
  mkProposal role (d_proposal draft) (d_summary draft) (d_risk draft)
             (d_riskSeverity draft) (d_rationale draft) (d_confidence draft).

(** The agents that are asked for a proposal. *)
Definition proposers : list DebateAgent :=
  filter (fun agent => negb (AgentRole_eqb (agent_role agent) synthesizer)) agents.

Definition isOk {A : Type} (r : Result A) : bool :=
  match r with
  | Ok _ => true
  | Err _ => false
  end.

(** The warning recorded for a role whose proposal call failed. *)
Definition failureWarning (role : AgentRole) (message : string) : string :=
  "[" ++ roleName role ++ "] Proposal generation failed. " ++ message.

(** The steps of a plan that has no rationale to show. *)
Definition placeholderSteps : list string :=
  ["Gather details"; "Draft approach"; "Validate outcome"].

(** ** [handleLatest] *)

(** The response to [GET /api/debate/latest]. *)
Definition handleLatest (file : DataFile) : HttpResponse :=
  match readSessions file with
  | latest :: _ => mkResponse 200 (SessionPayload latest)
  | [] => mkResponse 404 (ErrorPayload "No sessions available.")
  end.



(** A plan id is a name every object inherits. *)
Definition inheritedName (planId : string) : bool :=
  existsb (String.eqb planId) objectPrototypeKeys.

(** Whether the mock table of the tool passes a plan id. *)
Definition mockPasses (planId : string) : bool :=
  match buildMockLogs planId with
  | Some found => ml_passed found
  | None => false
  end.


Definition isLogOf (summary : string) (entry : EvidenceLedgerEntry) : bool :=
  match e_type entry with
  | EvLog => String.eqb (e_summary entry) summary
  | _ => false
  end.

Definition isTestEntry (entry : EvidenceLedgerEntry) : bool :=
  match e_type entry with
  | EvTest => true
  | _ => false
  end.


(** * The language-model adapter

    Shallow embedding of the adapter behind [generateAgentProposal],
    [generateFinalSolution] and [classifyPrompt].  The HTTP call ([postChat])
    and [JSON.parse] are capabilities passed to the functions; of a request
    only whether the retry instruction was appended is kept, and the numeric
    settings of the configuration are left out.  Texts are taken on the ASCII
    range, where a character is its own UTF-16 code unit. *)

Module LlmAdapter.

Inductive LlmProvider : Type := groq | ollama.

Definition providerName (p : LlmProvider) : string :=
  match p with
  | groq => "groq"
  | ollama => "ollama"
  end.

(** The variables of [process.env] that the configuration reads. *)
Record ProcessEnv : Type := mkProcessEnv {
  LLM_PROVIDER : option string;
  OLLAMA_URL : option string;
  GROQ_URL : option string;
  LLM_URL : option string;
  GROQ_API_KEY : option string;
  LLM_API_KEY : option string;
  OLLAMA_MODEL : option string;
  GROQ_MODEL : option string;
  LLM_MODEL : option string;
  LLM_PROMPT_VERSION : option string
}.

Record LlmConfig : Type := mkLlmConfig {
  enabled : bool;
  url : option string;
  apiKey : option string;
  model : option string;
  provider : LlmProvider;
  promptVersion : string
}.

(** [a ?? b] where [b] may be undefined as well. *)
Definition coalesce {A : Type} (a b : option A) : option A :=
  match a with
  | Some _ => a
  | None => b
  end.

(** Truthiness of a text that may be undefined. *)
Definition truthy (value : option string) : bool :=
  match value with
  | Some text => negb (String.eqb text EmptyString)
  | None => false
  end.

Definition getLlmConfig (providerOverride : option LlmProvider) (env : ProcessEnv)
  : LlmConfig :=
  let providerRaw :=
    match providerOverride with
    | Some p => providerName p
    | None => orElse (LLM_PROVIDER env) "groq"
    end in
  let provider := if String.eqb providerRaw "ollama" then ollama else groq in
  let url :=
    match provider with
    | ollama => coalesce (OLLAMA_URL env) (LLM_URL env)
    | groq =>
        Some (orElse (coalesce (GROQ_URL env) (LLM_URL env))
                     "https://api.groq.com/openai/v1/chat/completions")
    end in
  let apiKey :=
    match provider with
    | groq => coalesce (GROQ_API_KEY env) (LLM_API_KEY env)
    | ollama => LLM_API_KEY env
    end in
  let model :=
    match provider with
    | ollama => coalesce (OLLAMA_MODEL env) (LLM_MODEL env)
    | groq =>
        Some (orElse (coalesce (GROQ_MODEL env) (LLM_MODEL env))
                     "llama-3.1-70b-versatile")
    end in
  mkLlmConfig
    (truthy model &&
     match provider with
     | ollama => truthy (Some (orElse url "http://localhost:11434"))
     | groq => truthy url && truthy apiKey
     end)
    (if truthy url then url
     else match provider with
          | ollama => Some "http://localhost:11434"
          | groq => None
          end)
    apiKey model provider (orElse (LLM_PROMPT_VERSION env) "v1").

(** [!config.enabled || !config.url || !config.model] *)
Definition notConfigured (config : LlmConfig) : bool :=
  negb (enabled config) || negb (truthy (url config)) || negb (truthy (model config)).

(** ** Detail level, rationale target and focus areas *)

Inductive DetailTier : Type := high | medium | low.

(** [weight >= bound] *)
Definition atLeast (weight bound : Qc) : bool := Qle_bool bound weight.

Definition detailTier (weight : Qc) : DetailTier :=
  if atLeast weight (ratio 7 10) then high
  else if atLeast weight (ratio 45 100) then medium
  else low.

Definition reasonsTarget (weight : Qc) : nat :=
  if atLeast weight (ratio 7 10) then 4
  else if atLeast weight (ratio 5 10) then 3
  else if atLeast weight (ratio 3 10) then 2
  else 1.

(** [ToInt32]: the value reduced to the signed 32-bit range. *)
Definition toInt32 (z : Z) : Z := ((z + 2 ^ 31) mod 2 ^ 32 - 2 ^ 31)%Z.

(** [value.charCodeAt(i)] for every [i]. *)
Definition charCodes (value : string) : list Z :=
  map (fun c => Z.of_nat (nat_of_ascii c)) (list_ascii_of_string value).

(** One round of the loop: [hash = (hash << 5) - hash + code; hash |= 0]. *)
Definition hashStep (hash code : Z) : Z :=
  toInt32 (toInt32 (Z.shiftl hash 5) - hash + code).

Definition hashString (value : string) : Z :=
  Z.abs (fold_left hashStep (charCodes value) 0%Z).

Definition styles : list string :=
  [ "concise and structured";
    "pragmatic and action-oriented";
    "analytical and risk-aware";
    "creative but grounded";
    "skeptical with counterexamples" ].

(** [styles[index]]; [None] stands for [undefined]. *)
Definition pickStyleCue (scenario : string) (role : AgentRole) : option string :=
  let index :=
    (hashString (scenario ++ ":" ++ roleName role) mod Z.of_nat (List.length styles))%Z in
  nth_error styles (Z.to_nat index).

Definition focusAreasForRole (role : AgentRole) : list string :=
  match role with
  | planner => ["steps"; "dependencies"; "milestones"; "resources"; "risks"]
  | skeptic =>
      ["assumptions"; "edge cases"; "failure modes"; "counterexamples"; "trade-offs"]
  | security =>
      ["attack surface"; "data handling"; "privilege"; "compliance"; "abuse cases"]
  | cost =>
      ["engineering effort"; "operational cost"; "timeline"; "maintenance"; "scope"]
  | synthesizer => ["decision"; "trade-offs"; "next step"; "constraints"; "confidence"]
  end.

Definition focusCount (weight : Qc) : nat :=
  if atLeast weight (ratio 7 10) then 3
  else if atLeast weight (ratio 4 10) then 2
  else 1.

(** [Array.from({ length: count }, (_, idx) => pool[(start + idx) % pool.length])] *)
Definition pickFocusAreas (scenario : string) (role : AgentRole) (weight : Qc)
  : list (option string) :=
  let pool := focusAreasForRole role in
  match pool with
  | [] => []
  | _ =>
      let count := focusCount weight in
      let start :=
        (hashString (scenario ++ ":" ++ roleName role ++ ":focus")
           mod Z.of_nat (List.length pool))%Z in
      map (fun idx =>
             nth_error pool
               (Z.to_nat ((start + Z.of_nat idx) mod Z.of_nat (List.length pool))))
          (seq 0 count)
  end.

(** ** Validation of what the model returned *)

(** A parsed proposal before validation: a field that is missing (or [null])
    is [None]; [rationale] is [None] when it is not an array, and an item of
    it is [None] when it is not a string. *)
Record RawProposal : Type := mkRawProposal {
  raw_proposal : option string;
  raw_summary : option string;
  raw_risk : option string;
  raw_riskSeverity : option Qc;
  raw_rationale : option (list (option string));
  raw_confidence : option Qc
}.

Definition ensureArray (value : option (list (option string))) : list string :=
  match value with
  | None => []
  | Some items =>
      flat_map (fun item =>
                  match item with
                  | Some text => [text]
                  | None => []
                  end)
               items
  end.

(** [Math.round]: the nearest integer, a half rounded up. *)
Definition mathRound (value : Qc) : Z := Qfloor (this (value + ratio 1 2)).

Definition validateProposal (draft : RawProposal) (minReasons : nat) : Result Draft :=
  if negb (truthy (raw_proposal draft)) || negb (truthy (raw_summary draft))
     || negb (truthy (raw_risk draft))
  then Err "Proposal missing."
  else
    let rationale := ensureArray (raw_rationale draft) in
    if (List.length rationale <? minReasons)%nat
    then Err "Proposal missing required rationale."
    else
      let riskSeverity := orElse (raw_riskSeverity draft) (ratio 3 1) in
      Ok (mkDraft (orElse (raw_proposal draft) EmptyString)
                  (orElse (raw_summary draft) EmptyString)
                  (orElse (raw_risk draft) EmptyString)
                  (Z.min 5 (Z.max 1 (mathRound riskSeverity)))
                  rationale
                  (clampUnit (orElse (raw_confidence draft) (ratio 5 10)))).

(** A validated draft read again as a parsed proposal. *)
Definition rawOfDraft (draft : Draft) : RawProposal :=
  mkRawProposal (Some (d_proposal draft)) (Some (d_summary draft))
                (Some (d_risk draft)) (Some (ratio (d_riskSeverity draft) 1))
                (Some (map Some (d_rationale draft))) (Some (d_confidence draft)).

Record RawSolution : Type := mkRawSolution {
  raw_fs_summary : option string;
  raw_fs_steps : option (list (option string));
  raw_fs_risks : option (list (option string));
  raw_fs_assumptions : option (list (option string))
}.

Definition validateFinalSolution (draft : RawSolution) : Result FinalSolution :=
  if negb (truthy (raw_fs_summary draft))
  then Err "Final solution missing summary."
  else
    let steps := ensureArray (raw_fs_steps draft) in
    let risks := ensureArray (raw_fs_risks draft) in
    let assumptions := ensureArray (raw_fs_assumptions draft) in
    if (List.length steps <? 2)%nat then Err "Final solution missing steps."
    else if (List.length risks <? 1)%nat then Err "Final solution missing risks."
    else if (List.length assumptions <? 1)%nat
         then Err "Final solution missing assumptions."
         else Ok (mkFinalSolution (orElse (raw_fs_summary draft) EmptyString)
                                  steps risks assumptions).

(** ** The calls to the model *)

(** What [parseJsonWithRepair] gives: it throws, or returns [null], a falsy
    primitive ([false], [0], the empty text), or a value whose fields can be
    read (for a truthy primitive every field is missing). *)
Inductive Parsed (A : Type) : Type :=
| ParseError
| ParsedNull
| ParsedFalsy
| ParsedValue (fields : A).

Arguments ParseError {A}.
Arguments ParsedNull {A}.
Arguments ParsedFalsy {A}.
Arguments ParsedValue {A} fields.

Definition noFields : RawProposal := mkRawProposal None None None None None None.

(** The body of the loop of [generateAgentProposal], for the attempts that
    are left; [calls] records, for every [postChat] so far, whether the retry
    instruction was appended. *)
Fixpoint proposalAttempts (postChat : bool -> Result string)
         (parseJsonWithRepair : string -> Parsed RawProposal) (minReasons : nat)
         (attempts : list nat) (calls : list bool) : Result Draft * list bool :=
  match attempts with
  | [] => (Err "LLM proposal failed validation.", calls)
  | attempt :: later =>
      let retry := negb (attempt =? 1)%nat in
      let made := push calls retry in
      match postChat retry with
      | Err message => (Err message, made)
      | Ok content =>
          let validated :=
            match parseJsonWithRepair content with
            | ParseError => None
            | ParsedNull =>
                Some (Err "Cannot read properties of null (reading 'proposal')")
            | ParsedFalsy => Some (validateProposal noFields minReasons)
            | ParsedValue parsed => Some (validateProposal parsed minReasons)
            end in
          match validated with
          | None =>
              if (attempt <? 2)%nat
              then proposalAttempts postChat parseJsonWithRepair minReasons later made
              else (Err "LLM proposal response was not valid JSON.", made)
          | Some (Ok draft) => (Ok draft, made)
          | Some (Err message) =>
              if (attempt <? 2)%nat
              then proposalAttempts postChat parseJsonWithRepair minReasons later made
              else (Err message, made)
          end
      end
  end.

Definition generateAgentProposal (config : LlmConfig)
           (postChat : bool -> Result string)
           (parseJsonWithRepair : string -> Parsed RawProposal)
           (agent : DebateAgent) (weights : DebateWeights)
  : Result Draft * list bool :=
  if notConfigured config then (Err "LLM is not configured.", [])
  else
    let weight := weightOf weights (agent_role agent) in
    let minReasons := reasonsTarget weight in
    proposalAttempts postChat parseJsonWithRepair minReasons [1; 2]%nat [].

(** The loop of [generateFinalSolution]: it stops at the first content that
    parses. *)
Fixpoint solutionAttempts (postChat : bool -> Result string)
         (parseJsonWithRepair : string -> Parsed RawSolution)
         (attempts : list nat) (calls : list bool)
  : Result (Parsed RawSolution) * list bool :=
  match attempts with
  | [] => (Ok ParseError, calls)
  | attempt :: later =>
      let retry := negb (attempt =? 1)%nat in
      let made := push calls retry in
      match postChat retry with
      | Err message => (Err message, made)
      | Ok content =>
          match parseJsonWithRepair content with
          | ParseError =>
              if (2 <=? attempt)%nat
              then (Err "LLM final solution response was not valid JSON.", made)
              else solutionAttempts postChat parseJsonWithRepair later made
          | parsed => (Ok parsed, made)
          end
      end
  end.

Definition generateFinalSolution (config : LlmConfig)
           (postChat : bool -> Result string)
           (parseJsonWithRepair : string -> Parsed RawSolution)
  : Result FinalSolution * list bool :=
  if notConfigured config then (Err "LLM is not configured.", [])
  else
    match solutionAttempts postChat parseJsonWithRepair [1; 2]%nat [] with
    | (Err message, calls) => (Err message, calls)
    | (Ok (ParsedValue parsed), calls) => (validateFinalSolution parsed, calls)
    | (Ok _, calls) =>
        (Err "LLM final solution response was not valid JSON.", calls)
    end.

Definition categories : list string :=
  [ "information-seeking"; "reasoning-analysis"; "instruction-following";
    "creative-generation"; "transformation"; "decision-support";
    "exploratory-ideation"; "critique-adversarial"; "meta-prompt";
    "simulation-roleplay"; "tool-using-agentic"; "alignment-constraint";
    "learning-tutoring"; "reflective-sensemaking" ].

(** [categories.includes(category)] *)
Definition isCategory (category : string) : bool :=
  existsb (String.eqb category) categories.

(** [classifyPrompt]; the parsed value is its [category] field, [None] when
    the field is missing or not a text. *)
Definition classifyPrompt (config : LlmConfig) (postChat : Result string)
           (parseJsonWithRepair : string -> Parsed (option string))
  : Result string :=
  if notConfigured config then Err "LLM is not configured."
  else
    match postChat with
    | Err message => Err message
    | Ok content =>
        match parseJsonWithRepair content with
        | ParseError => Err "Prompt category response was not valid JSON."
        | ParsedNull => Err "Cannot read properties of null (reading 'category')"
        | ParsedFalsy => Err "Prompt category is invalid."
        | ParsedValue None => Err "Prompt category is invalid."
        | ParsedValue (Some category) =>
            if negb (String.eqb category EmptyString) && isCategory category
            then Ok category
            else Err "Prompt category is invalid."
        end
    end.

(** ** Vocabulary of the statements about the adapter *)

(** What one response of the model gives [generateAgentProposal]: the parsed
    and validated draft, or the error of that attempt. *)
Definition readProposal (parseJsonWithRepair : string -> Parsed RawProposal)
           (minReasons : nat) (content : string) : Result Draft :=
  match parseJsonWithRepair content with
  | ParseError => Err "LLM proposal response was not valid JSON."
  | ParsedNull => Err "Cannot read properties of null (reading 'proposal')"
  | ParsedFalsy => validateProposal noFields minReasons
  | ParsedValue parsed => validateProposal parsed minReasons
  end.

(** A draft as validation leaves it. *)
Definition validDraft (minReasons : nat) (draft : Draft) : Prop :=
  d_proposal draft <> EmptyString /\ d_summary draft <> EmptyString /\
  d_risk draft <> EmptyString /\
  (minReasons <= List.length (d_rationale draft))%nat /\
  (1 <= d_riskSeverity draft <= 5)%Z /\
  0 <= d_confidence draft /\ d_confidence draft <= 1.

(** A final solution as validation leaves it. *)
Definition validSolution (solution : FinalSolution) : Prop :=
  fs_summary solution <> EmptyString /\
  (2 <= List.length (fs_steps solution))%nat /\
  (1 <= List.length (fs_risks solution))%nat /\
  (1 <= List.length (fs_assumptions solution))%nat.

End LlmAdapter.

(** ** A world served by the adapter *)

Definition adapterConfig : LlmAdapter.LlmConfig :=
  LlmAdapter.getLlmConfig
    (Some LlmAdapter.ollama)
    (LlmAdapter.mkProcessEnv None None None None None None (Some "llama3") None
                             None None).

(** What the model answers to every proposal request: a severity of 2.7, a
    confidence of 1.2 and a rationale with one item that is not a text. *)
Definition cannedProposal : LlmAdapter.RawProposal :=
  LlmAdapter.mkRawProposal
    (Some "Patch the role mapper.") (Some "Mapper fix") (Some "Regression in auth")
    (Some (ratio 27 10))
    (Some [Some "Covers the failing case"; None; Some "Small change";
           Some "Reviewed by two"])
    (Some (ratio 12 10)).

(** A world whose proposals come from the adapter. *)
Definition worldThroughAdapter : Env :=
  mkEnv (mkLlmConfig true (Some "llama3") "v1")
        (fun _ => Ok "coding")
        (fun agent _ weights _ =>
           fst (LlmAdapter.generateAgentProposal
                  adapterConfig (fun _ => Ok "{...}")
                  (fun _ => LlmAdapter.ParsedValue cannedProposal) agent weights))
        (fun _ _ _ => Ok sampleSolution)
        (fun _ _ _ _ _ _ => Ok "Apply the mapper fix and re-run the tests.")
        (fun _ => Err "MCP_URL is not configured.") None None None 120.

(** * The transcript *)

Record DebateMessage : Type := mkMessage {
  m_id : string;
  m_agent : AgentRole;
  m_content : string;
  m_preferredPlanId : string;
  m_confidence : Qc;
  m_reasons : list string;
  m_disconfirmingTest : string;
  m_references : list string;
  m_timestamp : Z
}.

Definition planForRole (role : AgentRole) : string :=
  match role with
  | planner => "plan-a"
  | skeptic => "plan-b"
  | security => "plan-c"
  | cost => "plan-d"
  | synthesizer => "plan-b"
  end.

(** [new Map(proposals.map((proposal) => [proposal.agent, proposal])).get(role)]:
    of several proposals of one role the last one is kept. *)
Definition byAgent (proposals : list Proposal) (role : AgentRole) : option Proposal :=
  find (fun proposal => AgentRole_eqb (p_agent proposal) role) (rev proposals).

(** The message pushed for [agent], if any. *)
Definition transcriptMessage (baseTimestamp : Z) (scenario : string)
           (proposals : list Proposal) (finalSolution : option FinalSolution)
           (agent : DebateAgent) (index : nat) : list DebateMessage :=
  let timestamp := (baseTimestamp + Z.of_nat index * 180000)%Z in
  match agent_role agent with
  | synthesizer =>
      match finalSolution with
      | None => []
      | Some solution =>
          [ mkMessage "msg-synthesizer" synthesizer
              ("Final recommendation for " ++ dquote ++ scenario ++ dquote ++ ": "
                 ++ fs_summary solution)
              (planForRole synthesizer) (ratio 7 10)
              (match fs_steps solution with
               | [] => ["Synthesized from agent proposals."]
               | steps => map (fun step => "Step: " ++ step) (firstn 3 steps)
               end)
              (match fs_risks solution with
               | risk :: _ =>
                   if String.eqb risk EmptyString
                   then "Key risk invalidates the recommended path."
                   else risk
               | [] => "Key risk invalidates the recommended path."
               end)
              [] timestamp ]
      end
  | role =>
      match byAgent proposals role with
      | None => []
      | Some proposal =>
          [ mkMessage ("msg-" ++ roleName role) role
              (p_summary proposal ++ newline ++ p_proposal proposal ++ newline
                 ++ "Risk: " ++ p_risk proposal ++ " (severity "
                 ++ intToString (p_riskSeverity proposal) ++ ")")
              (planForRole role) (p_confidence proposal) (p_rationale proposal)
              ("Validate this proposal for " ++ dquote ++ scenario ++ dquote
                 ++ " with a targeted test.")
              [] timestamp ]
      end
  end.

Definition buildTranscriptFromProposals (baseTime : Z) (scenario : string)
           (proposals : list Proposal) (finalSolution : option FinalSolution)
  : list DebateMessage :=
  List.concat
    (mapi (transcriptMessage baseTime scenario proposals finalSolution) agents).

(** The transcript a run stores: it is built right after the proposals were
    collected, when [finalSolution] is not assigned yet. *)
Definition transcriptOfRun (env : Env) (baseTime : Z) (scenario : option string)
           (options : RunOptions) : list DebateMessage :=
  let scenarioText := orElse scenario defaultScenario in
  let codeScenario := isCodeScenario scenarioText in
  let requested := orElse (opt_runVerification options) true in
  let classified := classifyPhase env scenarioText [] in
  let collected :=
    collectProposals env scenarioText (resolveWeights (opt_weights options))
                     (fst classified)
                     (overrideWarningPhase codeScenario requested (snd classified)) in
  buildTranscriptFromProposals baseTime scenarioText (fst collected) None.

(** * The real verification adapter

    Shallow embedding of the adapter that runs a plan through the Daytona
    tool.  The HTTP exchange and the clock are passed in; the numeric limits
    sent with the request are left out. *)

(** The duration a verification result reports. *)
Definition durationOf (verification : VerificationResult) : Z :=
  durationMs verification.

Module RealAdapter.

(** The result of a tool call.  [content] holds the [text] of each item
    ([None] for an item without one) and is [None] when it is not an array. *)
Record McpCallResult : Type := mkCallResult {
  content : option (list (option string));
  stdout : option string;
  stderr : option string;
  exitCode : option Z;
  durationMs : option Z;
  startedAt : option string;
  finishedAt : option string;
  sandboxId : option string
}.

Definition emptyResult : McpCallResult :=
  mkCallResult None None None None None None None None.

Definition onlyStdout (text : string) : McpCallResult :=
  mkCallResult None (Some text) None None None None None None.

(** What [parseToolResult] may be given. *)
Inductive RawResult : Type :=
| RawUndefined
| RawText (text : string)
| RawObject (result : McpCallResult).

(** [content.map((item) => item.text).filter(Boolean).join("\n")] *)
Definition contentText (items : list (option string)) : string :=
  String.concat newline
    (flat_map (fun item =>
                 match item with
                 | Some text => if String.eqb text EmptyString then [] else [text]
                 | None => []
                 end)
              items).

Definition parseToolResult (result : RawResult) : McpCallResult :=
  match result with
  | RawUndefined => emptyResult
  | RawText text =>
      if String.eqb text EmptyString then emptyResult else onlyStdout text
  | RawObject r =>
      match content r with
      | Some items =>
          let text := contentText items in
          if String.eqb text EmptyString then r else onlyStdout text
      | None => r
      end
  end.

(** The variables of [process.env] that the adapter reads. *)
Record DaytonaEnv : Type := mkDaytonaEnv {
  MCP_URL : option string;
  DAYTONA_API_KEY : option string;
  DAYTONA_TOOL : option string;
  DAYTONA_FIXTURE_PATH : option string;
  DAYTONA_COMMAND : option string
}.

Definition requireEnv (key : string) (value : option string) : Result string :=
  match value with
  | Some text =>
      if String.eqb text EmptyString
      then Err ("Missing required env var: " ++ key)
      else Ok text
  | None => Err ("Missing required env var: " ++ key)
  end.

(** [value || default] *)
Definition orDefault (value : option string) (default : string) : string :=
  match value with
  | Some text => if String.eqb text EmptyString then default else text
  | None => default
  end.

(** The answer of the endpoint: [error] is [Some None] for an error object
    without a message. *)
Record HttpReply : Type := mkReply {
  reply_ok : bool;
  reply_status : Z;
  reply_text : string;
  reply_error : option (option string);
  reply_result : RawResult
}.

(** [fetch] is the outcome of the HTTP request, [Err] when it throws. *)
Definition callMcpTool (env : DaytonaEnv) (fetch : Result HttpReply)
  : Result RawResult :=
  match requireEnv "MCP_URL" (MCP_URL env) with
  | Err message => Err message
  | Ok _ =>
      match requireEnv "DAYTONA_API_KEY" (DAYTONA_API_KEY env) with
      | Err message => Err message
      | Ok _ =>
          match fetch with
          | Err message => Err message
          | Ok response =>
              if negb (reply_ok response)
              then Err ("MCP request failed (" ++ intToString (reply_status response)
                          ++ "): " ++ reply_text response)
              else
                match reply_error response with
                | Some message => Err (orDefault message "MCP tool call failed.")
                | None =>
                    Ok (match reply_result response with
                        | RawUndefined => RawObject emptyResult
                        | given => given
                        end)
                end
          end
      end
  end.

Definition buildOutput (toolName command repoPath startedAt finishedAt : string)
           (sandbox out err : option string) (code : Z) : string :=
  let lines :=
    [ "[daytona] tool=" ++ toolName;
      "repo: " ++ repoPath;
      "command: " ++ command;
      "startedAt: " ++ startedAt;
      "finishedAt: " ++ finishedAt;
      "exitCode: " ++ intToString code ] in
  let sandboxLine :=
    if LlmAdapter.truthy sandbox
    then ["sandboxId: " ++ orElse sandbox EmptyString] else [] in
  let stdoutBlock :=
    if LlmAdapter.truthy out
    then [newline ++ "--- stdout ---" ++ newline ++ orElse out EmptyString]
    else [] in
  let stderrBlock :=
    if LlmAdapter.truthy err
    then [newline ++ "--- stderr ---" ++ newline ++ orElse err EmptyString]
    else [] in
  joinLines (lines ++ sandboxLine ++ stdoutBlock ++ stderrBlock)%list.

(** [startedAt] and [startedMs] are the clock before the call, [nowAt] and
    [nowMs] the clock after it. *)
Definition runDaytonaVerification (env : DaytonaEnv) (fetch : Result HttpReply)
           (startedAt nowAt : string) (startedMs nowMs : Z)
  : Result VerificationResult :=
  let toolName := orDefault (DAYTONA_TOOL env) "daytona.run" in
  let repoPath := orDefault (DAYTONA_FIXTURE_PATH env) "./fixtures/daytona-fixture" in
  let command := orDefault (DAYTONA_COMMAND env) "npm test" in
  match callMcpTool env fetch with
  | Err message => Err message
  | Ok rawResult =>
      let parsed := parseToolResult rawResult in
      let finished := orDefault (finishedAt parsed) nowAt in
      let duration := orElse (durationMs parsed) (nowMs - startedMs)%Z in
      let code :=
        orElse (exitCode parsed)
               (if LlmAdapter.truthy (stderr parsed) then 1 else 0)%Z in
      let isPassed := (code =? 0)%Z in
      Ok (mkVerification
            isPassed
            (buildOutput toolName command repoPath startedAt finished
                         (sandboxId parsed) (stdout parsed) (stderr parsed) code)
            duration
            (if isPassed then "Daytona verification succeeded."
             else "Daytona verification failed.")
            (Some (if isPassed then ratio 9 10 else ratio 75 100))
            None (Some "real") None None)
  end.

(** [realAdapter.runVerification(request)] for the plan of the request. *)
Definition runVerification (env : DaytonaEnv) (fetch : Result HttpReply)
           (startedAt nowAt : string) (startedMs nowMs : Z) (jitter : Z)
           (plan : DebatePlan) : VerificationResult :=
  match runDaytonaVerification env fetch startedAt nowAt startedMs nowMs with
  | Ok result => result
  | Err message =>
      let fallback := selectOutput jitter plan in
      mkVerification (passed fallback) (output fallback)
                     (durationOf fallback)
                     (v_summary fallback) (reliability fallback)
                     (Some ("Real adapter failed; fell back to mock. " ++ message))
                     (Some "mock") (v_startedAt fallback) (v_finishedAt fallback)
  end.

End RealAdapter.

(** * Properties *)

(** ** Arithmetic on canonical rationals *)

Section RationalFacts.

Lemma this_Q2Qc (q : Q) : (this (Q2Qc q) == q)%Q.
Proof. unfold Q2Qc; cbn [this]; apply Qred_correct. Qed.

Lemma this_ratio (n : Z) (d : positive) : (this (ratio n d) == Qmake n d)%Q.
Proof. apply this_Q2Qc. Qed.

Lemma this_plus (a b : Qc) : (this (a + b) == this a + this b)%Q.
Proof. apply this_Q2Qc. Qed.

Lemma this_mult (a b : Qc) : (this (a * b) == this a * this b)%Q.
Proof. apply this_Q2Qc. Qed.

Lemma this_opp (a : Qc) : (this (- a) == - this a)%Q.
Proof. apply this_Q2Qc. Qed.

Lemma this_inv (a : Qc) : (this (/ a) == / this a)%Q.
Proof. apply this_Q2Qc. Qed.

Lemma this_minus (a b : Qc) : (this (a - b) == this a - this b)%Q.
Proof. unfold Qcminus; rewrite this_plus, this_opp; reflexivity. Qed.

Lemma this_zero : (this 0 == 0)%Q.
Proof. reflexivity. Qed.

Lemma this_one : (this 1 == 1)%Q.
Proof. reflexivity. Qed.

Lemma Qle_bool_Qcle (a b : Qc) : Qle_bool a b = true <-> a <= b.
Proof. unfold Qcle; apply Qle_bool_iff. Qed.

Lemma Qle_bool_false_Qclt (a b : Qc) : Qle_bool a b = false -> b < a.
Proof.
  intros H; apply Qcnot_le_lt; intros Hle.
  apply Qle_bool_Qcle in Hle; congruence.
Qed.

Lemma Qltb_Qclt (a b : Qc) : Qltb a b = true <-> a < b.
Proof.
  unfold Qltb; split.
  - intros H; apply negb_true_iff in H; now apply Qle_bool_false_Qclt.
  - intros H; apply negb_true_iff.
    destruct (Qle_bool b a) eqn:E; [|reflexivity].
    apply Qle_bool_Qcle in E; exfalso; revert E; now apply Qclt_not_le.
Qed.

Lemma Qeq_bool_Qc (a b : Qc) : Qeq_bool a b = true <-> a = b.
Proof.
  split.
  - intros H; apply Qc_is_canon; now apply Qeq_bool_iff.
  - intros ->; apply Qeq_bool_iff; reflexivity.
Qed.

Lemma Qeq_bool_zero (a : Qc) : Qeq_bool a 0%Q = true <-> a = 0.
Proof.
  split.
  - intros H; apply Qc_is_canon; apply Qeq_bool_iff in H; rewrite H; reflexivity.
  - intros ->; reflexivity.
Qed.

Lemma clampUnit_id (v : Qc) : 0 <= v -> v <= 1 -> clampUnit v = v.
Proof.
  intros H0 H1; unfold clampUnit, mathMin, mathMax.
  apply Qle_bool_Qcle in H0; rewrite H0; cbv iota.
  destruct (Qle_bool (this 1) (this v)) eqn:E; [|reflexivity].
  apply Qle_bool_Qcle in E; now apply Qcle_antisym.
Qed.

Lemma clampUnit_bounds (v : Qc) : 0 <= clampUnit v /\ clampUnit v <= 1.
Proof.
  unfold clampUnit, mathMin, mathMax.
  destruct (Qle_bool (this 0) (this v)) eqn:E0; cbv iota;
    match goal with |- context [if ?c then _ else _] => destruct c eqn:E1 end;
    try apply Qle_bool_Qcle in E0; try apply Qle_bool_Qcle in E1;
    try apply Qle_bool_false_Qclt in E1;
    repeat split; try (apply Qclt_le_weak; assumption); try assumption;
    try apply Qcle_refl; unfold Qcle; cbn; lra.
Qed.

Lemma count_succ (n : nat) : count (S n) = count n + 1.
Proof.
  unfold count; apply Qc_is_canon.
  rewrite this_plus, !this_Q2Qc, Nat2Z.inj_succ; unfold Z.succ.
  rewrite inject_Z_plus; reflexivity.
Qed.

Lemma count_nonneg (n : nat) : 0 <= count n.
Proof.
  unfold count, Qcle; rewrite !this_Q2Qc.
  change 0%Q with (inject_Z 0); rewrite <- Zle_Qle; lia.
Qed.

Lemma count_pos (n : nat) : 0 < count (S n).
Proof.
  unfold count, Qclt; rewrite !this_Q2Qc.
  change 0%Q with (inject_Z 0); rewrite <- Zlt_Qlt; lia.
Qed.

Lemma count_succ_neq_0 (n : nat) : count (S n) <> 0.
Proof. intros H; symmetry in H; revert H; apply Qclt_not_eq, count_pos. Qed.

End RationalFacts.

(** ** Normalisation and damping *)

Ltac case_if E :=
  match goal with
  | |- context [if ?c then _ else _] => destruct c eqn:E
  end.

Ltac to_Q :=
  unfold Qcle, Qclt in *;
  repeat match goal with
         | |- _ =>
             first [ rewrite this_plus | rewrite this_minus | rewrite this_mult
                   | rewrite this_opp | rewrite this_ratio
                   | rewrite this_zero | rewrite this_one ]
         | H : _ |- _ =>
             first [ rewrite this_plus in H | rewrite this_minus in H
                   | rewrite this_mult in H | rewrite this_opp in H
                   | rewrite this_ratio in H
                   | rewrite this_zero in H | rewrite this_one in H ]
         end.

Section Normalisation.

Lemma count_zero : count 0 = 0.
Proof. apply Qc_is_canon; reflexivity. Qed.

Lemma totalProbability_nil : totalProbability [] = 0.
Proof. reflexivity. Qed.

Lemma fold_sum_shift (l : list ProbabilityEntry) (a : Qc) :
  fold_left (fun sum entry => sum + probability entry) l a
  = a + totalProbability l.
Proof.
  unfold totalProbability; revert a.
  induction l as [|e l IH]; intros a; simpl.
  - ring.
  - rewrite IH, (IH (0 + probability e)); ring.
Qed.

Lemma totalProbability_cons (e : ProbabilityEntry) (l : list ProbabilityEntry) :
  totalProbability (e :: l) = probability e + totalProbability l.
Proof.
  unfold totalProbability at 1; simpl.
  rewrite fold_sum_shift; ring.
Qed.

Lemma totalProbability_affine (a b : Qc) (l : list ProbabilityEntry) :
  totalProbability
    (map (fun e => setProbability e (a * probability e + b)) l)
  = a * totalProbability l + count (List.length l) * b.
Proof.
  induction l as [|e l IH].
  - cbn [map List.length]; rewrite count_zero, totalProbability_nil; ring.
  - cbn [map List.length]; rewrite !totalProbability_cons, IH, count_succ.
    cbn [setProbability probability]; ring.
Qed.

Lemma totalProbability_const (u : Qc) (l : list ProbabilityEntry) :
  (forall e, In e l -> probability e = u) ->
  totalProbability l = count (List.length l) * u.
Proof.
  induction l as [|e l IH]; intros H.
  - cbn [List.length]; rewrite count_zero, totalProbability_nil; ring.
  - cbn [List.length]; rewrite totalProbability_cons, count_succ, IH.
    + rewrite (H e (or_introl eq_refl)); ring.
    + intros e' He'; apply H; now right.
Qed.

Lemma totalProbability_nonneg (l : list ProbabilityEntry) :
  (forall e, In e l -> 0 <= probability e) -> 0 <= totalProbability l.
Proof.
  induction l as [|e l IH]; intros H.
  - apply Qcle_refl.
  - rewrite totalProbability_cons.
    assert (H1 := H e (or_introl eq_refl)).
    assert (H2 : 0 <= totalProbability l) by (apply IH; intros; apply H; now right).
    to_Q; lra.
Qed.

Lemma probability_le_total (l : list ProbabilityEntry) (e : ProbabilityEntry) :
  (forall x, In x l -> 0 <= probability x) -> In e l ->
  probability e <= totalProbability l.
Proof.
  induction l as [|x l IH]; intros H Hin; [contradiction|].
  rewrite totalProbability_cons.
  assert (Hx := H x (or_introl eq_refl)).
  assert (Hl : 0 <= totalProbability l)
    by (apply totalProbability_nonneg; intros; apply H; now right).
  destruct Hin as [->|Hin].
  - to_Q; lra.
  - assert (He : probability e <= totalProbability l)
      by (apply IH; [intros; apply H; now right|assumption]).
    to_Q; lra.
Qed.

Lemma normalizeEntries_length (l : list ProbabilityEntry) :
  List.length (normalizeEntries l) = List.length l.
Proof. unfold normalizeEntries; destruct (Qeq_bool _ _); apply length_map. Qed.

Lemma normalizeEntries_planIds (l : list ProbabilityEntry) :
  map planId (normalizeEntries l) = map planId l.
Proof.
  unfold normalizeEntries; destruct (Qeq_bool _ _);
    rewrite map_map; apply map_ext; reflexivity.
Qed.

Lemma normalizeEntries_total (l : list ProbabilityEntry) :
  l <> [] -> totalProbability (normalizeEntries l) = 1.
Proof.
  intros Hne; unfold normalizeEntries; cbv zeta.
  case_if E.
  - rewrite (map_ext _ (fun e => setProbability e
                                   (0 * probability e + uniformShare l)))
      by (intros; f_equal; ring).
    rewrite totalProbability_affine; unfold uniformShare.
    destruct l as [|e l]; [congruence|].
    cbn [List.length]; field; apply count_succ_neq_0.
  - assert (Ht : totalProbability l <> 0)
      by (intros H; apply Qeq_bool_zero in H; congruence).
    rewrite (map_ext _ (fun e => setProbability e
                                   (/ totalProbability l * probability e + 0)))
      by (intros; f_equal; field; assumption).
    rewrite totalProbability_affine; field; assumption.
Qed.

Lemma inv_nonneg (t : Qc) : 0 < t -> 0 <= / t.
Proof.
  unfold Qclt, Qcle; rewrite this_inv; intros H.
  apply Qlt_le_weak, Qinv_lt_0_compat; exact H.
Qed.

Lemma normalizeEntries_bounds (l : list ProbabilityEntry) (e : ProbabilityEntry) :
  (forall x, In x l -> 0 <= probability x) -> In e (normalizeEntries l) ->
  0 <= probability e /\ probability e <= 1.
Proof.
  intros Hpos; unfold normalizeEntries; cbv zeta.
  case_if E; intros Hin;
    apply in_map_iff in Hin; destruct Hin as (x & <- & Hx);
    cbn [setProbability probability].
  - unfold uniformShare; destruct l as [|y l]; [contradiction|].
    cbn [List.length].
    assert (Hc := count_pos (List.length l)).
    assert (Hn := count_nonneg (List.length l)).
    rewrite count_succ in *.
    set (n := count (List.length l)) in *.
    assert (Hi := inv_nonneg _ Hc).
    unfold Qcdiv; rewrite Qcmult_1_l; split; [assumption|].
    assert (Hone : (n + 1) * / (n + 1) = 1)
      by (apply Qcmult_inv_r; intros H; rewrite H in Hc; revert Hc;
          apply Qcle_not_lt, Qcle_refl).
    rewrite <- Hone at 2.
    rewrite <- (Qcmult_1_l (/ (n + 1))) at 1.
    apply Qcmult_le_compat_r; [|assumption].
    to_Q; lra.
  - assert (Ht : totalProbability l <> 0)
      by (intros H; apply Qeq_bool_zero in H; congruence).
    assert (Hge := totalProbability_nonneg l Hpos).
    assert (Hlt : 0 < totalProbability l).
    { apply Qcle_lt_or_eq in Hge; destruct Hge as [H|H]; [exact H|congruence]. }
    assert (Hi := inv_nonneg _ Hlt).
    assert (Hle := probability_le_total l x Hpos Hx).
    unfold Qcdiv; split.
    + rewrite <- (Qcmult_0_l (/ totalProbability l)).
      apply Qcmult_le_compat_r; [apply Hpos; exact Hx|assumption].
    + rewrite <- (Qcmult_inv_r (totalProbability l) Ht).
      apply Qcmult_le_compat_r; assumption.
Qed.

Lemma dampAndNormalize_length (l : list ProbabilityEntry) :
  List.length (dampAndNormalize l) = List.length l.
Proof. unfold dampAndNormalize; rewrite length_map; apply normalizeEntries_length. Qed.

Lemma dampAndNormalize_planIds (l : list ProbabilityEntry) :
  map planId (dampAndNormalize l) = map planId l.
Proof.
  unfold dampAndNormalize; rewrite map_map.
  rewrite <- (normalizeEntries_planIds l); apply map_ext; reflexivity.
Qed.

Lemma dampAndNormalize_total (l : list ProbabilityEntry) :
  l <> [] -> totalProbability (dampAndNormalize l) = 1.
Proof.
  intros Hne; unfold dampAndNormalize.
  rewrite totalProbability_affine, normalizeEntries_total by assumption.
  unfold uniformShare; rewrite normalizeEntries_length.
  destruct l as [|e l]; [congruence|].
  cbn [List.length]; field; apply count_succ_neq_0.
Qed.

Lemma dampAndNormalize_bounds (l : list ProbabilityEntry) (e : ProbabilityEntry) :
  (forall x, In x l -> 0 <= probability x) -> In e (dampAndNormalize l) ->
  DAMPING_FACTOR / count (List.length l) <= probability e /\
  probability e
  <= 1 - DAMPING_FACTOR * (count (List.length l) - 1) / count (List.length l).
Proof.
  intros Hpos; unfold dampAndNormalize; intros Hin.
  apply in_map_iff in Hin; destruct Hin as (x & <- & Hx).
  cbn [setProbability probability].
  destruct (normalizeEntries_bounds l x Hpos Hx) as [H0 H1].
  unfold uniformShare; rewrite normalizeEntries_length.
  destruct l as [|y l]; [contradiction|].
  cbn [List.length].
  assert (Hc := count_succ_neq_0 (List.length l)).
  set (n := count (S (List.length l))) in *.
  replace (DAMPING_FACTOR / n) with (DAMPING_FACTOR * (1 / n))
    by (field; assumption).
  replace (1 - DAMPING_FACTOR * (n - 1) / n)
    with ((1 - DAMPING_FACTOR) + DAMPING_FACTOR * (1 / n))
    by (field; assumption).
  set (u := DAMPING_FACTOR * (1 / n)).
  unfold DAMPING_FACTOR; split; to_Q; lra.
Qed.

End Normalisation.

(** ** Properties of [dampAndNormalize] and [applyWeightedUpdate] *)

Lemma withinTolerance_one : withinTolerance 1.
Proof. unfold withinTolerance, TOLERANCE; split; to_Q; lra. Qed.

(** On the empty list [dampAndNormalize] returns the empty list, whose
    probabilities sum to 0: the statements below are about non-empty lists. *)
Lemma dampAndNormalize_empty_total :
  (forall e, In e [] -> 0 <= probability e) /\
  dampAndNormalize [] = [] /\
  totalProbability (dampAndNormalize []) = 0 /\
  ~ withinTolerance (totalProbability (dampAndNormalize [])).
Proof.
  repeat split; try reflexivity.
  - intros e [].
  - intros [H _]; revert H; vm_compute; intros H; apply H; reflexivity.
Qed.

(** C1, as stated, fails on the doubles the code computes with.  For the
    distribution 1, 0, 0, 0 the first probability returned is
    0.9400000000000001, above the ceiling 1 - 0.08 * 3 / 4 = 0.94 (the literal
    and the value computed in doubles alike), the other three being exactly
    0.02; and the sum of two entries of 1e308 overflows, so that both
    probabilities returned are 0.04 and sum to 0.08. *)
Lemma dampAndNormalize_binary64_leaves_bounds :
  let returned := Binary64.dampAndNormalize [1; 0; 0; 0]%float in
  let ceiling :=
    PrimFloat.sub 1 (PrimFloat.div (PrimFloat.mul Binary64.DAMPING_FACTOR 3) 4) in
  returned
  = [0x1.e147ae147ae15p-1; 0x1.47ae147ae147bp-6; 0x1.47ae147ae147bp-6;
     0x1.47ae147ae147bp-6]%float /\
  ceiling = 0x1.e147ae147ae14p-1%float /\
  PrimFloat.ltb ceiling (hd 0%float returned) = true /\
  Binary64.dampAndNormalize [0x1.1ccf385ebc8a0p+1023; 0x1.1ccf385ebc8a0p+1023]%float
  = [0x1.47ae147ae147bp-5; 0x1.47ae147ae147bp-5]%float /\
  Binary64.totalProbability
    (Binary64.dampAndNormalize
       [0x1.1ccf385ebc8a0p+1023; 0x1.1ccf385ebc8a0p+1023]%float)
  = 0x1.47ae147ae147bp-4%float.
Proof. vm_compute; repeat split; reflexivity. Qed.

(** C1 (amended: in exact arithmetic, on non-empty lists): computed without
    rounding, for every non-empty list of entries with non-negative
    probabilities the probabilities returned by [dampAndNormalize] sum to 1
    (hence within 1e-9 of 1), one entry is returned per input entry, and with
    N entries every returned probability is at least d/N and at most
    1 - d(N-1)/N for d = 0.08; for N = 4 the floor is 0.02. *)
Theorem dampAndNormalize_distribution :
  forall entries : list ProbabilityEntry,
    entries <> [] ->
    (forall e, In e entries -> 0 <= probability e) ->
    let N := count (List.length entries) in
    let d := ratio 8 100 in
    totalProbability (dampAndNormalize entries) = 1 /\
    withinTolerance (totalProbability (dampAndNormalize entries)) /\
    map planId (dampAndNormalize entries) = map planId entries /\
    (forall e, In e (dampAndNormalize entries) ->
       d / N <= probability e /\ probability e <= 1 - d * (N - 1) / N) /\
    (List.length entries = 4%nat ->
     forall e, In e (dampAndNormalize entries) -> ratio 2 100 <= probability e).
Proof.
  intros entries Hne Hpos N d.
  assert (Hsum := dampAndNormalize_total entries Hne).
  repeat split.
  - exact Hsum.
  - rewrite Hsum; apply withinTolerance_one.
  - rewrite Hsum; apply withinTolerance_one.
  - apply dampAndNormalize_planIds.
  - apply (dampAndNormalize_bounds entries e Hpos H).
  - apply (dampAndNormalize_bounds entries e Hpos H).
  - intros H4 e He.
    destruct (dampAndNormalize_bounds entries e Hpos He) as [Hlow _].
    rewrite H4 in Hlow.
    replace (ratio 2 100) with (DAMPING_FACTOR / count 4); [exact Hlow|].
    apply Qc_is_canon; reflexivity.
Qed.

Lemma dampAndNormalize_distribution_witness :
  let entries :=
    [ mkEntry "plan-a" (ratio 3 10) planner "r" 0;
      mkEntry "plan-b" 0 skeptic "r" 0;
      mkEntry "plan-c" (ratio 9 10) security "r" 0;
      mkEntry "plan-d" (ratio 1 2) cost "r" 0 ] in
  totalProbability (dampAndNormalize entries) = 1 /\
  forall e, In e (dampAndNormalize entries) -> ratio 2 100 <= probability e.
Proof.
  intros entries.
  assert (Hne : entries <> []) by discriminate.
  assert (Hpos : forall e, In e entries -> 0 <= probability e).
  { intros e He; simpl in He.
    destruct He as [<-|[<-|[<-|[<-|[]]]]]; vm_compute; discriminate. }
  destruct (dampAndNormalize_distribution entries Hne Hpos)
    as (Hsum & _ & _ & _ & Hfloor).
  split; [exact Hsum|apply Hfloor; reflexivity].
Defined.

Lemma setProbability_same (e : ProbabilityEntry) :
  setProbability e (probability e) = e.
Proof. destruct e; reflexivity. Qed.

Lemma map_fixes {A : Type} (f : A -> A) (l : list A) :
  (forall x, In x l -> f x = x) -> map f l = l.
Proof.
  induction l as [|x l IH]; intros H; [reflexivity|].
  cbn [map]; rewrite (H x (or_introl eq_refl)), IH; [reflexivity|].
  intros y Hy; apply H; now right.
Qed.

(** A list whose entries all hold 1/N is returned unchanged. *)
Lemma dampAndNormalize_uniform (entries : list ProbabilityEntry) :
  (forall e, In e entries -> probability e = 1 / count (List.length entries)) ->
  dampAndNormalize entries = entries.
Proof.
  intros Hu.
  destruct entries as [|x l]; [reflexivity|].
  set (entries := x :: l) in *.
  assert (Hc : count (List.length entries) <> 0) by apply count_succ_neq_0.
  assert (Ht : totalProbability entries = 1).
  { rewrite (totalProbability_const _ _ Hu); field; exact Hc. }
  assert (Hn : normalizeEntries entries = entries).
  { unfold normalizeEntries; cbv zeta; rewrite Ht.
    change (Qeq_bool (this 1) 0%Q) with false; cbv iota.
    apply map_fixes; intros e He.
    transitivity (setProbability e (probability e));
      [f_equal; field; discriminate|apply setProbability_same]. }
  unfold dampAndNormalize; cbv zeta; rewrite Hn.
  apply map_fixes; intros e He.
  transitivity (setProbability e (probability e));
    [f_equal|apply setProbability_same].
  unfold uniformShare; rewrite (Hu e He); field; exact Hc.
Qed.

Lemma nth_error_applyWeightedUpdate (previous : list ProbabilityEntry)
      (update : Update) (ts : Z) (weight : Qc) (i : nat) :
  nth_error (applyWeightedUpdate previous update ts weight) i
  = option_map
      (fun entry =>
         if negb (String.eqb (planId entry) (upd_planId update)) then entry
         else mkEntry (planId entry)
                      (clampUnit (probability entry * (1 - weight)
                                  + upd_probability update * weight))
                      (upd_updatedBy update) (upd_rationale update) ts)
      (nth_error previous i).
Proof. unfold applyWeightedUpdate; apply nth_error_map. Qed.

(** C7: on entries with probabilities in [0,1] and an asserted probability in
    [0,1], [applyWeightedUpdate] with weight 0 keeps the probability of every
    entry (the targeted plan's included) and with weight 1 gives the targeted
    plan exactly the asserted probability; in both cases every entry of
    another plan is returned as it was, at the same position. *)
Theorem applyWeightedUpdate_extreme_weights :
  forall (previous : list ProbabilityEntry) (update : Update) (ts : Z),
    (forall e, In e previous -> 0 <= probability e /\ probability e <= 1) ->
    0 <= upd_probability update /\ upd_probability update <= 1 ->
    forall (i : nat) (e : ProbabilityEntry),
      nth_error previous i = Some e ->
      (exists e0,
          nth_error (applyWeightedUpdate previous update ts 0) i = Some e0 /\
          planId e0 = planId e /\
          probability e0 = probability e /\
          (planId e <> upd_planId update -> e0 = e)) /\
      (exists e1,
          nth_error (applyWeightedUpdate previous update ts 1) i = Some e1 /\
          planId e1 = planId e /\
          (planId e = upd_planId update ->
           probability e1 = upd_probability update) /\
          (planId e <> upd_planId update -> e1 = e)).
Proof.
  intros previous update ts Hrange Hasserted i e Hnth.
  assert (Hin : In e previous) by (eapply nth_error_In; exact Hnth).
  destruct (Hrange e Hin) as [He0 He1]; destruct Hasserted as [Ha0 Ha1].
  split; eexists; rewrite nth_error_applyWeightedUpdate, Hnth; cbn [option_map];
    (split; [reflexivity|]);
    destruct (String.eqb (planId e) (upd_planId update)) eqn:E;
    cbn [negb planId probability].
  - repeat split.
    + replace (probability e * (1 - 0) + upd_probability update * 0)
        with (probability e) by ring.
      apply clampUnit_id; assumption.
    + apply String.eqb_eq in E; congruence.
  - repeat split.
  - repeat split.
    + intros _.
      replace (probability e * (1 - 1) + upd_probability update * 1)
        with (upd_probability update) by ring.
      apply clampUnit_id; assumption.
    + apply String.eqb_eq in E; congruence.
  - repeat split.
    apply String.eqb_neq in E; congruence.
Qed.

Lemma applyWeightedUpdate_extreme_weights_witness :
  let previous :=
    [ mkEntry "plan-a" (ratio 1 4) planner "prior" 0;
      mkEntry "plan-b" (ratio 3 4) planner "prior" 0 ] in
  let update := mkUpdate "plan-b" (ratio 9 10) skeptic "evidence" in
  exists e1,
    nth_error (applyWeightedUpdate previous update 5 1) 1 = Some e1 /\
    probability e1 = ratio 9 10.
Proof.
  intros previous update.
  assert (Hrange : forall e, In e previous ->
                             0 <= probability e /\ probability e <= 1).
  { intros e He; simpl in He.
    destruct He as [<-|[<-|[]]]; split; vm_compute; discriminate. }
  assert (Hasserted : 0 <= upd_probability update /\ upd_probability update <= 1)
    by (split; vm_compute; discriminate).
  destruct (applyWeightedUpdate_extreme_weights previous update 5 Hrange Hasserted
              1%nat (mkEntry "plan-b" (ratio 3 4) planner "prior" 0) eq_refl)
    as [_ (e1 & Hnth & _ & Hp & _)].
  exists e1; split; [exact Hnth|apply Hp; reflexivity].
Defined.

(** ** The stable descending sort and its first element *)

Section FirstMaximum.

Context {A : Type} (key : A -> Qc).

Lemma descending_before (x y : A) :
  Qltb (descendingBy key y x) 0 = true <-> key x < key y.
Proof.
  unfold descendingBy; rewrite Qltb_Qclt; split; intros H; to_Q; lra.
Qed.

Lemma hd_insertBy (x : A) (sorted : list A) :
  hd_error (insertBy (descendingBy key) x sorted)
  = match hd_error sorted with
    | None => Some x
    | Some y => if Qltb (descendingBy key y x) 0 then Some y else Some x
    end.
Proof.
  destruct sorted as [|y rest]; [reflexivity|].
  cbn [insertBy hd_error]; destruct (Qltb (descendingBy key y x) 0); reflexivity.
Qed.

Lemma firstMaxAt_keep (x : A) (l : list A) (i : nat) (y : A) :
  firstMaxAt key l i y -> key x < key y -> firstMaxAt key (x :: l) (S i) y.
Proof.
  intros (Hnth & Hmax & Hbefore) Hlt; repeat split.
  - exact Hnth.
  - intros [|j] z Hz; cbn in Hz.
    + injection Hz as <-; now apply Qclt_le_weak.
    + eapply Hmax; exact Hz.
  - intros [|j] z Hj Hz; cbn in Hz.
    + injection Hz as <-; exact Hlt.
    + eapply Hbefore; [|exact Hz]; lia.
Qed.

Lemma firstMaxAt_new (x : A) (l : list A) (i : nat) (y : A) :
  firstMaxAt key l i y -> ~ key x < key y -> firstMaxAt key (x :: l) 0 x.
Proof.
  intros (Hnth & Hmax & Hbefore) Hge; apply Qcnot_lt_le in Hge; repeat split.
  - intros [|j] z Hz; cbn in Hz.
    + injection Hz as <-; apply Qcle_refl.
    + eapply Qcle_trans; [eapply Hmax; exact Hz|exact Hge].
  - intros j z Hj; lia.
Qed.

Lemma firstMaxAt_single (x : A) : firstMaxAt key [x] 0 x.
Proof.
  repeat split.
  - intros [|[|j]] z Hz; cbn in Hz; try discriminate.
    injection Hz as <-; apply Qcle_refl.
  - intros j z Hj; lia.
Qed.

(** The first element of the sorted array is the first maximum of the
    original one. *)
Lemma sortBy_head (l : list A) :
  l <> [] ->
  exists i x, hd_error (sortBy (descendingBy key) l) = Some x /\ firstMaxAt key l i x.
Proof.
  induction l as [|x l IH]; intros Hne; [congruence|].
  unfold sortBy; cbn [fold_right]; fold (sortBy (descendingBy key) l).
  rewrite hd_insertBy.
  destruct l as [|x' l'].
  - exists 0%nat, x; split; [reflexivity|apply firstMaxAt_single].
  - destruct IH as (i & y & Hhd & Hmax); [discriminate|].
    rewrite Hhd.
    destruct (Qltb (descendingBy key y x) 0) eqn:E.
    + exists (S i), y; split; [reflexivity|].
      apply firstMaxAt_keep; [exact Hmax|now apply descending_before].
    + exists 0%nat, x; split; [reflexivity|].
      eapply firstMaxAt_new; [exact Hmax|].
      intros H; apply descending_before in H; congruence.
Qed.

Lemma firstMaxAt_unique (l : list A) (i j : nat) (x y : A) :
  firstMaxAt key l i x -> firstMaxAt key l j y -> i = j /\ x = y.
Proof.
  intros (Hx & Hxmax & Hxbefore) (Hy & Hymax & Hybefore).
  assert (Hij : i = j).
  { destruct (Nat.lt_trichotomy i j) as [H|[H|H]]; [|exact H|].
    - exfalso; generalize (Hybefore i x H Hx); apply Qcle_not_lt.
      eapply Hxmax; exact Hy.
    - exfalso; generalize (Hxbefore j y H Hy); apply Qcle_not_lt.
      eapply Hymax; exact Hx. }
  subst j; split; [reflexivity|congruence].
Qed.

End FirstMaximum.

Lemma firstMaxAt_map {A B : Type} (f : A -> B) (key : B -> Qc) (l : list A)
      (i : nat) (y : B) :
  firstMaxAt key (map f l) i y ->
  exists x, y = f x /\ firstMaxAt (fun a => key (f a)) l i x.
Proof.
  intros (Hnth & Hmax & Hbefore).
  rewrite nth_error_map in Hnth.
  destruct (nth_error l i) as [x|] eqn:E; [|discriminate].
  cbn in Hnth; injection Hnth as <-.
  exists x; split; [reflexivity|]; repeat split.
  - exact E.
  - intros j z Hz; apply (Hmax j (f z)); rewrite nth_error_map, Hz; reflexivity.
  - intros j z Hj Hz; apply (Hbefore j (f z) Hj).
    rewrite nth_error_map, Hz; reflexivity.
Qed.

(** [pickFinalPlanId] names the first entry of maximal probability. *)
Lemma pickFinalPlanId_firstMax (entries : list ProbabilityEntry) :
  entries <> [] ->
  exists i e, firstMaxAt probability entries i e /\ pickFinalPlanId entries = planId e.
Proof.
  intros Hne; destruct (sortBy_head probability entries Hne) as (i & e & Hhd & Hmax).
  exists i, e; split; [exact Hmax|].
  unfold pickFinalPlanId.
  destruct (sortBy _ entries) as [|first rest]; [discriminate|].
  cbn in Hhd; congruence.
Qed.

(** ** The shape of a completed run *)

Lemma plansFromProposals_ids (proposals : list Proposal) :
  map plan_id (plansFromProposals proposals)
  = ["plan-a"; "plan-b"; "plan-c"; "plan-d"].
Proof. reflexivity. Qed.

(** The verification step sends exactly one request, the one
    [verificationRequest] describes, whatever the endpoint answers. *)
Lemma verificationPhaseTraced_sent (env : Env) (baseTime : Z) (codeScenario : bool)
      (proposals : list Proposal) (plans : list DebatePlan) (given : list string) :
  snd (verificationPhaseTraced env baseTime codeScenario proposals plans given)
  = [verificationRequest env baseTime codeScenario proposals plans].
Proof. reflexivity. Qed.

(** The outcome of the [try] block, by the answer of the endpoint. *)
Lemma tryVerification_unfold (env : Env) (baseTime : Z) (codeScenario : bool)
      (proposals : list Proposal) (plans : list DebatePlan) :
  tryVerification env baseTime codeScenario proposals plans
  = match callMcpTool env
            (verificationRequest env baseTime codeScenario proposals plans) with
    | Err message => Err message
    | Ok result =>
        if isErrorStatus (r_status result) then
          match mockRunVerification (mockJitter env)
                  (match
                      match find (fun plan =>
                                    String.eqb (plan_id plan)
                                      (verificationTargetPlanId proposals plans))
                                 plans with
                      | Some plan => Some plan
                      | None => nth_error plans 0
                      end
                    with
                    | Some plan => Some plan
                    | None => nth_error plans 1
                    end) with
          | Ok fallback => Ok (fellBackToMock fallback)
          | Err message => Err message
          end
        else
          Ok (mkVerification (isPassStatus (r_status result))
                (joinLines (r_logs result))
                (r_finishedAt result - r_startedAt result)%Z
                (r_summary result) (Some (r_reliability result))
                None (Some "mcp") (Some (r_startedAt result))
                (Some (r_finishedAt result)))
    end.
Proof.
  unfold tryVerification, tryVerificationTraced, callVerifyPlan; cbn [fst snd].
  destruct (callMcpTool env _) as [result|message]; [|reflexivity].
  destruct (isErrorStatus (r_status result)); reflexivity.
Qed.

(** The outcome of the whole step, by the outcome of the [try] block. *)
Lemma verificationPhase_unfold (env : Env) (baseTime : Z) (codeScenario : bool)
      (proposals : list Proposal) (plans : list DebatePlan) (given : list string) :
  verificationPhase env baseTime codeScenario proposals plans given
  = match tryVerification env baseTime codeScenario proposals plans with
    | Ok verification => Ok (verification, given)
    | Err message =>
        match mockRunVerification (mockJitter env) (nth_error plans 1) with
        | Ok fallback =>
            Ok (fellBackToMock fallback,
                push given ("MCP verification failed; fell back to mock. "
                              ++ message))
        | Err fatal => Err fatal
        end
    end.
Proof. reflexivity. Qed.

(** Whenever [runDebate] returns a session, at least one proposal was
    collected, the verification step returned, and the session is the one
    assembled from them. *)
Lemma runDebate_completed (env : Env) (baseTime : Z) (scenario : option string)
      (options : RunOptions) (session : DebateSession) :
  out_result (runDebate env baseTime scenario options) = Ok session ->
  let weights := resolveWeights (opt_weights options) in
  let scenarioText := orElse scenario defaultScenario in
  let requested := orElse (opt_runVerification options) true in
  let codeScenario := isCodeScenario scenarioText in
  let runVerification := decideRunVerification codeScenario requested in
  let classified := classifyPhase env scenarioText [] in
  let collected :=
    collectProposals env scenarioText weights (fst classified)
      (overrideWarningPhase codeScenario requested (snd classified)) in
  let proposals := fst collected in
  let plans := plansFromProposals proposals in
  exists verification afterVerification,
    proposals <> [] /\
    (if runVerification
     then verificationPhase env baseTime codeScenario proposals plans (snd collected)
     else Ok (skippedVerification, snd collected))
    = Ok (verification, afterVerification) /\
    session = assembleSession env baseTime scenarioText weights codeScenario
                              runVerification (fst classified) proposals plans
                              verification afterVerification /\
    out_mcpCalls (runDebate env baseTime scenario options)
    = (if runVerification
       then [verificationRequest env baseTime codeScenario proposals plans]
       else []).
Proof.
  intros Hrun weights scenarioText requested codeScenario runVerification
         classified collected proposals plans.
  unfold runDebate in *; cbv zeta in *.
  fold weights scenarioText requested codeScenario runVerification in Hrun |- *.
  fold classified in Hrun |- *.
  fold collected in Hrun |- *.
  fold proposals in Hrun |- *.
  fold plans in Hrun |- *.
  destruct (negb (llm_enabled (getLlmConfig env))); [discriminate|].
  destruct proposals as [|p rest] eqn:Hp; [discriminate|].
  rewrite <- Hp in *.
  destruct runVerification.
  - rewrite verificationPhaseTraced_sent in *.
    change (fst (verificationPhaseTraced env baseTime codeScenario proposals
                   plans (snd collected)))
      with (verificationPhase env baseTime codeScenario proposals plans
              (snd collected)) in *.
    destruct (verificationPhase env baseTime codeScenario proposals plans
                (snd collected))
      as [[verification afterVerification]|fatal] eqn:Hv; [|discriminate].
    cbn [out_result out_mcpCalls] in *.
    exists verification, afterVerification.
    repeat split; try congruence.
  - cbn [fst snd out_result out_mcpCalls] in *.
    exists skippedVerification, (snd collected).
    repeat split; try congruence.
Qed.

(** ** The belief phase keeps its invariant *)

Section BeliefInvariant.

Variable baseTime : Z.
Variable weights : DebateWeights.
Variable proposals : list Proposal.
Variable ids : list string.
Hypothesis ids_nonempty : ids <> [].

Lemma applyWeightedUpdate_planIds (previous : list ProbabilityEntry)
      (update : Update) (ts : Z) (weight : Qc) :
  map planId (applyWeightedUpdate previous update ts weight) = map planId previous.
Proof.
  unfold applyWeightedUpdate; rewrite map_map; apply map_ext; intros e.
  destruct (negb _); reflexivity.
Qed.

Lemma setTimestamp_planIds (l : list ProbabilityEntry) (ts : Z) :
  map planId (map (fun entry => setTimestamp entry ts) l) = map planId l.
Proof. rewrite map_map; apply map_ext; reflexivity. Qed.

Lemma reviseFromAgent_planIds (previous : list ProbabilityEntry) (agent : AgentRole)
      (updates : list AgentUpdate) (offset : Z) (weight : Qc) :
  map planId (reviseFromAgent previous agent updates baseTime offset weight)
  = map planId previous.
Proof.
  unfold reviseFromAgent; cbv zeta.
  rewrite dampAndNormalize_planIds, setTimestamp_planIds.
  revert previous; induction updates as [|u us IH]; intros previous; [reflexivity|].
  cbn [fold_left]; rewrite IH; apply applyWeightedUpdate_planIds.
Qed.

Lemma evaluateVerification_planIds (previous : list ProbabilityEntry)
      (verification : VerificationResult) (target : string) (weight : Qc) :
  map planId (evaluateVerification previous verification target baseTime weight)
  = map planId previous.
Proof.
  unfold evaluateVerification; cbv zeta.
  rewrite dampAndNormalize_planIds, setTimestamp_planIds.
  apply applyWeightedUpdate_planIds.
Qed.

Lemma planIds_nonempty (l : list ProbabilityEntry) : map planId l = ids -> l <> [].
Proof. intros H ->; apply ids_nonempty; symmetry; exact H. Qed.

Lemma reviseFromAgent_total (previous : list ProbabilityEntry) (agent : AgentRole)
      (updates : list AgentUpdate) (offset : Z) (weight : Qc) :
  map planId previous = ids ->
  totalProbability (reviseFromAgent previous agent updates baseTime offset weight) = 1.
Proof.
  intros Hids.
  assert (H := reviseFromAgent_planIds previous agent updates offset weight).
  unfold reviseFromAgent in *; cbv zeta in *.
  apply dampAndNormalize_total.
  rewrite dampAndNormalize_planIds in H.
  intros Hnil; rewrite Hnil in H; cbn in H.
  apply (planIds_nonempty previous Hids).
  destruct previous; [reflexivity|discriminate].
Qed.

Lemma evaluateVerification_total (previous : list ProbabilityEntry)
      (verification : VerificationResult) (target : string) (weight : Qc) :
  map planId previous = ids ->
  totalProbability
    (evaluateVerification previous verification target baseTime weight) = 1.
Proof.
  intros Hids.
  assert (H := evaluateVerification_planIds previous verification target weight).
  unfold evaluateVerification in *; cbv zeta in *.
  apply dampAndNormalize_total.
  rewrite dampAndNormalize_planIds in H.
  intros Hnil; rewrite Hnil in H; cbn in H.
  apply (planIds_nonempty previous Hids).
  destruct previous; [reflexivity|discriminate].
Qed.

Lemma wellFormed_of_total (ts : Z) (note : string) (entries : list ProbabilityEntry) :
  map planId entries = ids -> totalProbability entries = 1 ->
  snapshotWellFormed ids (recordSnapshot ts note entries).
Proof.
  intros Hids Htotal; unfold snapshotWellFormed; cbn [recordSnapshot snap_entries].
  rewrite Htotal; repeat split; try assumption; apply withinTolerance_one.
Qed.

Lemma StronglySorted_push (l : list ProbabilitySnapshot) (s : ProbabilitySnapshot) :
  StronglySorted Z.lt (map snap_timestamp l) ->
  Forall (fun x => (snap_timestamp x < snap_timestamp s)%Z) l ->
  StronglySorted Z.lt (map snap_timestamp (push l s)).
Proof.
  unfold push; induction l as [|x l IH]; intros Hs Hb; cbn.
  - constructor; constructor.
  - inversion Hs as [|? ? Hs' Hx]; inversion Hb as [|? ? Hxs Hb']; subst.
    constructor; [apply IH; assumption|].
    rewrite map_app; apply Forall_app; split; [exact Hx|].
    constructor; [exact Hxs|constructor].
Qed.

Lemma beliefInvariant_push (bound bound' : Z)
      (current revised : list ProbabilityEntry)
      (probabilities : list ProbabilitySnapshot) (note : string) :
  beliefInvariant ids bound (current, probabilities) ->
  map planId revised = ids -> totalProbability revised = 1 ->
  (bound < bound')%Z ->
  beliefInvariant ids bound'
    (revised, push probabilities (recordSnapshot bound note revised)).
Proof.
  intros (Hne & Hcur & Hwf & Hsorted & Hbound) Hids Htotal Hlt.
  cbn [fst snd] in *; unfold beliefInvariant; cbn [fst snd].
  repeat split; try assumption.
  - unfold push; apply Forall_app; split; [exact Hwf|].
    constructor; [|constructor]; now apply wellFormed_of_total.
  - apply StronglySorted_push; assumption.
  - unfold push; apply Forall_app; split.
    + eapply Forall_impl; [|exact Hbound]; cbn; intros; lia.
    + constructor; [cbn; lia|constructor].
Qed.

Lemma beliefInvariant_later (bound bound' : Z)
      (state : list ProbabilityEntry * list ProbabilitySnapshot) :
  beliefInvariant ids bound state -> (bound <= bound')%Z ->
  beliefInvariant ids bound' state.
Proof.
  intros (Hne & Hcur & Hwf & Hsorted & Hbound) Hle; repeat split; try assumption.
  eapply Forall_impl; [|exact Hbound]; cbn; intros; lia.
Qed.

Lemma agentRevisionStep_invariant (role : AgentRole) (index : nat)
      (state : list ProbabilityEntry * list ProbabilitySnapshot) :
  beliefInvariant ids (toTimestamp baseTime (2 + Z.of_nat index * 2)) state ->
  beliefInvariant ids (toTimestamp baseTime (2 + Z.of_nat (S index) * 2))
                  (agentRevisionStep baseTime weights proposals state (role, index)).
Proof.
  intros Hinv; destruct state as [current probabilities].
  unfold agentRevisionStep.
  destruct (findProposal proposals role) as [proposal|].
  - cbv zeta; eapply beliefInvariant_push; [exact Hinv| | |].
    + rewrite reviseFromAgent_planIds; apply Hinv.
    + apply reviseFromAgent_total; apply Hinv.
    + unfold toTimestamp; lia.
  - eapply beliefInvariant_later; [exact Hinv|unfold toTimestamp; lia].
Qed.

Lemma agentRevisions_invariant
      (state : list ProbabilityEntry * list ProbabilitySnapshot) :
  beliefInvariant ids (toTimestamp baseTime 2) state ->
  beliefInvariant ids (toTimestamp baseTime 10)
                  (agentRevisions baseTime weights proposals state).
Proof.
  intros Hinv; unfold agentRevisions.
  destruct proposals eqn:Hp.
  - eapply beliefInvariant_later; [exact Hinv|unfold toTimestamp; lia].
  - rewrite <- Hp; cbn [mapi mapiFrom proposalOrder fold_left].
    apply (agentRevisionStep_invariant cost 3).
    apply (agentRevisionStep_invariant security 2).
    apply (agentRevisionStep_invariant skeptic 1).
    apply (agentRevisionStep_invariant planner 0).
    exact Hinv.
Qed.

Lemma finalRevision_invariant (runVerification : bool)
      (verification : VerificationResult)
      (state : list ProbabilityEntry * list ProbabilitySnapshot) :
  beliefInvariant ids (toTimestamp baseTime 16) state ->
  beliefInvariant ids (toTimestamp baseTime 17)
    (finalRevision baseTime weights runVerification verification proposals state).
Proof.
  intros Hinv; destruct state as [current probabilities].
  unfold finalRevision.
  destruct runVerification; [|destruct proposals].
  - cbv zeta; eapply beliefInvariant_push; [exact Hinv| | |].
    + rewrite evaluateVerification_planIds; apply Hinv.
    + apply evaluateVerification_total; apply Hinv.
    + unfold toTimestamp; lia.
  - eapply beliefInvariant_later; [exact Hinv|unfold toTimestamp; lia].
  - cbv zeta; eapply beliefInvariant_push; [exact Hinv| | |].
    + rewrite reviseFromAgent_planIds; apply Hinv.
    + apply reviseFromAgent_total; apply Hinv.
    + unfold toTimestamp; lia.
Qed.

End BeliefInvariant.

(** ** Snapshots are only ever appended *)

Lemma extends_refl {A : Type} (l : list A) : extends l l.
Proof. exists []; symmetry; apply app_nil_r. Qed.

Lemma extends_push {A : Type} (l : list A) (x : A) : extends l (push l x).
Proof. exists [x]; reflexivity. Qed.

Lemma extends_trans {A : Type} (a b c : list A) :
  extends a b -> extends b c -> extends a c.
Proof.
  intros [x ->] [y ->]; exists (x ++ y)%list; symmetry; apply app_assoc.
Qed.

Lemma agentRevisionStep_appends (baseTime : Z) (weights : DebateWeights)
      (proposals : list Proposal)
      (state : list ProbabilityEntry * list ProbabilitySnapshot)
      (item : AgentRole * nat) :
  exists added,
    snd (agentRevisionStep baseTime weights proposals state item)
    = (snd state ++ added)%list /\ (List.length added <= 1)%nat.
Proof.
  destruct state as [current probabilities]; destruct item as [role index].
  unfold agentRevisionStep; destruct (findProposal proposals role).
  - eexists [_]; split; [reflexivity|cbn; lia].
  - exists []; split; [symmetry; apply app_nil_r|cbn; lia].
Qed.

Lemma agentRevisionStep_extends (baseTime : Z) (weights : DebateWeights)
      (proposals : list Proposal)
      (state : list ProbabilityEntry * list ProbabilitySnapshot)
      (item : AgentRole * nat) :
  extends (snd state) (snd (agentRevisionStep baseTime weights proposals state item)).
Proof.
  destruct (agentRevisionStep_appends baseTime weights proposals state item)
    as (added & H & _); exists added; exact H.
Qed.

Lemma agentRevisions_extends (baseTime : Z) (weights : DebateWeights)
      (proposals : list Proposal)
      (state : list ProbabilityEntry * list ProbabilitySnapshot) :
  extends (snd state) (snd (agentRevisions baseTime weights proposals state)).
Proof.
  unfold agentRevisions; destruct proposals eqn:Hp; [apply extends_refl|].
  rewrite <- Hp; clear Hp.
  generalize (mapi (fun role index => (role, index)) proposalOrder).
  intros items; revert state.
  induction items as [|item items IH]; intros state; [apply extends_refl|].
  cbn [fold_left]; eapply extends_trans; [|apply IH].
  apply agentRevisionStep_extends.
Qed.

Lemma finalRevision_appends (baseTime : Z) (weights : DebateWeights)
      (runVerification : bool) (verification : VerificationResult)
      (proposals : list Proposal)
      (state : list ProbabilityEntry * list ProbabilitySnapshot) :
  exists added,
    snd (finalRevision baseTime weights runVerification verification proposals state)
    = (snd state ++ added)%list /\ (List.length added <= 1)%nat.
Proof.
  destruct state as [current probabilities]; unfold finalRevision.
  destruct runVerification; [|destruct proposals].
  - eexists [_]; split; [reflexivity|cbn; lia].
  - exists []; split; [symmetry; apply app_nil_r|cbn; lia].
  - eexists [_]; split; [reflexivity|cbn; lia].
Qed.

Lemma beliefPhase_starts_with_initial (baseTime : Z) (weights : DebateWeights)
      (runVerification : bool) (verification : VerificationResult)
      (proposals : list Proposal) (plans : list DebatePlan) :
  exists later,
    snd (beliefPhase baseTime weights runVerification verification proposals plans)
    = recordSnapshot (toTimestamp baseTime 1) "Initial priors."
        (dampAndNormalize (initialProbabilitiesForPlans baseTime plans))
        :: later.
Proof.
  unfold beliefPhase; cbv zeta.
  set (start := (dampAndNormalize (initialProbabilitiesForPlans baseTime plans),
                 push [] (recordSnapshot (toTimestamp baseTime 1) "Initial priors."
                            (dampAndNormalize
                               (initialProbabilitiesForPlans baseTime plans))))).
  destruct (agentRevisions_extends baseTime weights proposals start) as [mid Hmid].
  destruct (finalRevision_appends baseTime weights runVerification verification
              proposals (agentRevisions baseTime weights proposals start))
    as (added & Hadded & _).
  exists (mid ++ added)%list; rewrite Hadded, Hmid.
  unfold start; cbn [snd push app]; reflexivity.
Qed.

Lemma initialState_invariant (baseTime : Z) (plans : list DebatePlan) :
  plans <> [] ->
  let initial := dampAndNormalize (initialProbabilitiesForPlans baseTime plans) in
  beliefInvariant (map plan_id plans) (toTimestamp baseTime 2)
    (initial,
     push [] (recordSnapshot (toTimestamp baseTime 1) "Initial priors." initial)).
Proof.
  intros Hplans initial.
  assert (Hids : map plan_id plans <> [])
    by (destruct plans; [congruence|discriminate]).
  assert (Hinit : map planId initial = map plan_id plans).
  { unfold initial; rewrite dampAndNormalize_planIds.
    unfold initialProbabilitiesForPlans; rewrite map_map; reflexivity. }
  unfold beliefInvariant; cbn [fst snd push app map].
  repeat split; try assumption.
  - constructor; [|constructor].
    apply wellFormed_of_total; [exact Hinit|].
    apply dampAndNormalize_total.
    unfold initialProbabilitiesForPlans; destruct plans; [congruence|discriminate].
  - repeat constructor.
  - constructor; [cbn; unfold toTimestamp; lia|constructor].
Qed.

Lemma beliefPhase_invariant (baseTime : Z) (weights : DebateWeights)
      (runVerification : bool) (verification : VerificationResult)
      (proposals : list Proposal) (plans : list DebatePlan) :
  plans <> [] ->
  beliefInvariant (map plan_id plans) (toTimestamp baseTime 17)
    (beliefPhase baseTime weights runVerification verification proposals plans).
Proof.
  intros Hplans.
  assert (Hids : map plan_id plans <> [])
    by (destruct plans; [congruence|discriminate]).
  unfold beliefPhase; cbv zeta.
  apply finalRevision_invariant; [exact Hids|].
  eapply beliefInvariant_later;
    [apply agentRevisions_invariant; [exact Hids|]|unfold toTimestamp; lia].
  apply initialState_invariant; exact Hplans.
Qed.

(** C4: in the session of every completed run there are exactly the four
    plans, every recorded snapshot has one entry per plan (in plan order) and
    probabilities summing to 1 (within the tolerance), the snapshot
    timestamps are strictly increasing, and the sequence is built by appending
    only: it starts with the initial snapshot, and each revision step returns
    the snapshots it received followed by at most one new snapshot. *)
Theorem snapshots_invariant :
  forall (env : Env) (baseTime : Z) (scenario : option string)
         (options : RunOptions) (session : DebateSession),
    out_result (runDebate env baseTime scenario options) = Ok session ->
    map plan_id (s_plans session) = ["plan-a"; "plan-b"; "plan-c"; "plan-d"] /\
    Forall (snapshotWellFormed (map plan_id (s_plans session)))
           (s_probabilities session) /\
    StronglySorted Z.lt (map snap_timestamp (s_probabilities session)) /\
    (exists verification,
        let initial :=
          recordSnapshot (toTimestamp baseTime 1) "Initial priors."
            (dampAndNormalize
               (initialProbabilitiesForPlans baseTime (s_plans session))) in
        let afterAgents :=
          agentRevisions baseTime (s_weights session) (s_proposals session)
                         (snap_entries initial, [initial]) in
        extends [initial] (snd afterAgents) /\
        extends (snd afterAgents) (s_probabilities session) /\
        s_probabilities session
        = snd (finalRevision baseTime (s_weights session)
                             (s_runVerification session) verification
                             (s_proposals session) afterAgents)) /\
    (forall weights proposals state item,
        exists added,
          snd (agentRevisionStep baseTime weights proposals state item)
          = (snd state ++ added)%list /\ (List.length added <= 1)%nat) /\
    (forall weights runVerification verification proposals state,
        exists added,
          snd (finalRevision baseTime weights runVerification verification
                             proposals state)
          = (snd state ++ added)%list /\ (List.length added <= 1)%nat).
Proof.
  intros env baseTime scenario options session Hrun.
  destruct (runDebate_completed _ _ _ _ _ Hrun)
    as (verification & afterVerification & Hne & _ & -> & _).
  cbn [assembleSession s_plans s_probabilities s_weights s_proposals
       s_runVerification].
  set (proposals := fst (collectProposals _ _ _ _ _)) in *.
  set (plans := plansFromProposals proposals).
  set (weights := resolveWeights _).
  set (runVerification := decideRunVerification _ _).
  assert (Hplans : plans <> []) by discriminate.
  destruct (beliefPhase_invariant baseTime weights runVerification verification
                                  proposals plans Hplans)
    as (_ & _ & Hwf & Hsorted & _).
  split; [reflexivity|].
  split; [exact Hwf|].
  split; [exact Hsorted|].
  split; [|split].
  - exists verification; cbv zeta; cbn [recordSnapshot snap_entries].
    split; [|split].
    + apply (agentRevisions_extends baseTime weights proposals (_, [_])).
    + destruct (finalRevision_appends baseTime weights runVerification verification
                  proposals
                  (agentRevisions baseTime weights proposals
                     (dampAndNormalize (initialProbabilitiesForPlans baseTime plans),
                      [mkSnapshot (toTimestamp baseTime 1) "Initial priors."
                         (dampAndNormalize
                            (initialProbabilitiesForPlans baseTime plans))])))
        as (added & H & _).
      exists added; exact H.
    + reflexivity.
  - intros; apply agentRevisionStep_appends.
  - intros; apply finalRevision_appends.
Qed.

Lemma snapshots_invariant_witness :
  exists session,
    out_result (runDebate worldUnreachable 0 (Some "Fix failing test")
                          (mkOptions None None)) = Ok session /\
    Forall (snapshotWellFormed ["plan-a"; "plan-b"; "plan-c"; "plan-d"])
           (s_probabilities session) /\
    StronglySorted Z.lt (map snap_timestamp (s_probabilities session)).
Proof.
  destruct (out_result (runDebate worldUnreachable 0 (Some "Fix failing test")
                                  (mkOptions None None)))
    as [session|message] eqn:Hrun; [|vm_compute in Hrun; discriminate].
  exists session; split; [reflexivity|].
  destruct (snapshots_invariant _ _ _ _ _ Hrun) as (Hids & Hwf & Hsorted & _).
  rewrite Hids in Hwf; split; assumption.
Defined.

(** ** The initial snapshot *)

Lemma quarter_is_uniform : ratio 25 100 = 1 / count 4.
Proof. apply Qc_is_canon; reflexivity. Qed.

Lemma initialProbabilities_fixed (baseTime : Z) (plans : list DebatePlan) :
  List.length plans = 4%nat ->
  dampAndNormalize (initialProbabilitiesForPlans baseTime plans)
  = initialProbabilitiesForPlans baseTime plans.
Proof.
  intros Hlen; apply dampAndNormalize_uniform; intros e He.
  unfold initialProbabilitiesForPlans in *; rewrite length_map, Hlen.
  apply in_map_iff in He; destruct He as (plan & <- & _).
  apply quarter_is_uniform.
Qed.

(** On IEEE doubles too the four initial priors come back as exactly 0.25. *)
Lemma initial_priors_binary64 :
  Binary64.dampAndNormalize [0.25; 0.25; 0.25; 0.25]%float
  = [0.25; 0.25; 0.25; 0.25]%float.
Proof. vm_compute; reflexivity. Qed.

(** C10, as stated, fails on the doubles the code computes with: six entries
    that all hold 1/6 (0x1.5555555555555p-3) come back holding
    0x1.5555555555556p-3, one unit in the last place more. *)
Lemma uniform_six_moves_binary64 :
  let sixth := PrimFloat.div 1 6 in
  Binary64.dampAndNormalize (repeat sixth 6)
  = repeat 0x1.5555555555556p-3%float 6 /\
  PrimFloat.eqb sixth 0x1.5555555555556p-3%float = false /\
  Binary64.dampAndNormalize (repeat sixth 6) <> repeat sixth 6.
Proof.
  intros sixth; split; [vm_compute; reflexivity|].
  split; [vm_compute; reflexivity|].
  intros H.
  apply (f_equal (fun l => PrimFloat.eqb (hd 0%float l) sixth)) in H.
  vm_compute in H; discriminate.
Qed.

(** C10 (amended: for every N in exact arithmetic, for the four plans on
    doubles too): computed without rounding, a list of N entries that all
    hold 1/N is returned unchanged by [dampAndNormalize], so every returned
    probability is 1/N; on doubles four entries of 0.25 are returned
    unchanged, bit for bit; and the first snapshot of every completed run is
    the initial one, recorded one minute after the start, with exactly 0.25
    for each of the four plans. *)
Theorem uniform_fixed_point :
  Binary64.dampAndNormalize [0.25; 0.25; 0.25; 0.25]%float
  = [0.25; 0.25; 0.25; 0.25]%float /\
  (forall entries : list ProbabilityEntry,
      (forall e, In e entries ->
                 probability e = 1 / count (List.length entries)) ->
      dampAndNormalize entries = entries /\
      forall e, In e (dampAndNormalize entries) ->
                probability e = 1 / count (List.length entries)) /\
  (forall (env : Env) (baseTime : Z) (scenario : option string)
          (options : RunOptions) (session : DebateSession),
      out_result (runDebate env baseTime scenario options) = Ok session ->
      exists later,
        s_probabilities session
        = recordSnapshot (toTimestamp baseTime 1) "Initial priors."
            (map (fun id =>
                    mkEntry id (ratio 25 100) planner
                            "Initial prior assigned by Planner."
                            (toTimestamp baseTime 1))
                 ["plan-a"; "plan-b"; "plan-c"; "plan-d"])
            :: later).
Proof.
  split; [apply initial_priors_binary64|].
  split.
  - intros entries Hu.
    assert (Hfix := dampAndNormalize_uniform entries Hu).
    split; [exact Hfix|rewrite Hfix; exact Hu].
  - intros env baseTime scenario options session Hrun.
    destruct (runDebate_completed _ _ _ _ _ Hrun) as (v & w & _ & _ & -> & _).
    cbn [assembleSession s_probabilities].
    destruct (beliefPhase_starts_with_initial baseTime
                (resolveWeights (opt_weights options))
                (decideRunVerification
                   (isCodeScenario (orElse scenario defaultScenario))
                   (orElse (opt_runVerification options) true))
                v
                (fst (collectProposals env (orElse scenario defaultScenario)
                        (resolveWeights (opt_weights options))
                        (fst (classifyPhase env (orElse scenario defaultScenario) []))
                        (overrideWarningPhase
                           (isCodeScenario (orElse scenario defaultScenario))
                           (orElse (opt_runVerification options) true)
                           (snd (classifyPhase env
                                   (orElse scenario defaultScenario) [])))))
                (plansFromProposals
                   (fst (collectProposals env (orElse scenario defaultScenario)
                           (resolveWeights (opt_weights options))
                           (fst (classifyPhase env (orElse scenario defaultScenario) []))
                           (overrideWarningPhase
                              (isCodeScenario (orElse scenario defaultScenario))
                              (orElse (opt_runVerification options) true)
                              (snd (classifyPhase env
                                      (orElse scenario defaultScenario) [])))))))
      as [later Hlater].
    exists later; rewrite Hlater; f_equal.
    rewrite initialProbabilities_fixed by reflexivity.
    reflexivity.
Qed.

Lemma uniform_fixed_point_witness :
  (let entries :=
     [ mkEntry "x" (ratio 1 3) planner "r" 0;
       mkEntry "y" (ratio 1 3) cost "r" 0;
       mkEntry "z" (ratio 1 3) skeptic "r" 0 ] in
   dampAndNormalize entries = entries) /\
  (exists session later,
      out_result (runDebate (worldTool hostPassing) 0 None (mkOptions None None))
      = Ok session /\
      s_probabilities session
      = recordSnapshot 60000 "Initial priors."
          (map (fun id =>
                  mkEntry id (ratio 25 100) planner
                          "Initial prior assigned by Planner." 60000)
               ["plan-a"; "plan-b"; "plan-c"; "plan-d"])
          :: later).
Proof.
  destruct uniform_fixed_point as (_ & Hlist & Hrun).
  split.
  - intros entries; apply Hlist.
    intros e He; simpl in He.
    destruct He as [<-|[<-|[<-|[]]]]; apply Qc_is_canon; reflexivity.
  - destruct (out_result (runDebate (worldTool hostPassing) 0 None
                                    (mkOptions None None)))
      as [session|message] eqn:E; [|vm_compute in E; discriminate].
    destruct (Hrun _ _ _ _ _ E) as [later Hlater].
    exists session, later; split; [reflexivity|exact Hlater].
Defined.

(** ** The state revised by the last step is the last recorded snapshot *)






(** ** The verification update *)



(** ** Verification is decided by the scenario *)

(** C3, as stated, fails: for a scenario that is not code-related and a caller
    who explicitly asked for verification, verification is skipped and the
    run's warning list stays empty. *)
Lemma prose_override_leaves_no_warning :
  exists session,
    isCodeScenario proseScenario = false /\
    out_result (runDebate worldUnreachable 0 (Some proseScenario)
                          (mkOptions None (Some true))) = Ok session /\
    s_runVerification session = false /\
    s_generationWarnings session = [].
Proof.
  destruct (out_result (runDebate worldUnreachable 0 (Some proseScenario)
                                  (mkOptions None (Some true))))
    as [session|message] eqn:Hrun; [|vm_compute in Hrun; discriminate].
  vm_compute in Hrun; injection Hrun as <-.
  eexists; repeat split.
Qed.

(** C3 (amended: no warning records the override): for every scenario that is
    not code-related the whole outcome of the run, its warning list included,
    is the same whatever [runVerification] the caller passed; a completed run
    has verification off, sends nothing to the verification endpoint and has
    an empty evidence ledger.  The one override warning of the engine belongs
    to the code-related case: it is recorded exactly when the scenario is
    code-related and the caller asked for no verification. *)
Theorem prose_scenario_skips_verification :
  forall (env : Env) (baseTime : Z) (scenario : option string)
         (weights : option WeightOverrides),
    isCodeScenario (orElse scenario defaultScenario) = false ->
    (forall requested requested',
        runDebate env baseTime scenario (mkOptions weights requested)
        = runDebate env baseTime scenario (mkOptions weights requested')) /\
    (forall requested,
        out_mcpCalls (runDebate env baseTime scenario (mkOptions weights requested))
        = []) /\
    (forall requested session,
        out_result (runDebate env baseTime scenario (mkOptions weights requested))
        = Ok session ->
        s_runVerification session = false /\ s_evidenceLedger session = []) /\
    (forall codeScenario requested warnings,
        overrideWarningPhase codeScenario requested warnings
        = if codeScenario && negb requested
          then push warnings
                    "Verification was auto-enabled for code-related scenarios."
          else warnings).
Proof.
  intros env baseTime scenario weights Hprose.
  assert (Hsame : forall requested,
             runDebate env baseTime scenario (mkOptions weights requested)
             = runDebate env baseTime scenario (mkOptions weights None)).
  { intros requested; unfold runDebate; cbv zeta; cbn [opt_weights opt_runVerification].
    rewrite Hprose; reflexivity. }
  split; [intros r r'; rewrite (Hsame r), (Hsame r'); reflexivity|].
  split.
  - intros requested; rewrite Hsame.
    unfold runDebate; cbv zeta; cbn [opt_weights opt_runVerification].
    rewrite Hprose; cbn [decideRunVerification].
    destruct (negb _); [reflexivity|].
    destruct (fst (collectProposals _ _ _ _ _)); reflexivity.
  - split; [|reflexivity].
    intros requested session Hrun.
    destruct (runDebate_completed _ _ _ _ _ Hrun) as (v & w & _ & _ & -> & _).
    cbn [assembleSession s_runVerification s_evidenceLedger opt_runVerification].
    rewrite Hprose; cbn [decideRunVerification andb].
    split; reflexivity.
Qed.

Lemma prose_scenario_skips_verification_witness :
  runDebate worldUnreachable 0 (Some proseScenario) (mkOptions None (Some true))
  = runDebate worldUnreachable 0 (Some proseScenario) (mkOptions None (Some false)).
Proof.
  assert (Hprose : isCodeScenario (orElse (Some proseScenario) defaultScenario) = false)
    by reflexivity.
  destruct (prose_scenario_skips_verification worldUnreachable 0
              (Some proseScenario) None Hprose) as [Hsame _].
  apply Hsame.
Defined.

(** ** A run without proposals *)




(** ** Reliability of the verification result *)

Lemma selectOutput_reliability (jitter : Z) (plan : DebatePlan) :
  reliability (selectOutput jitter plan)
  = Some (if passed (selectOutput jitter plan) then ratio 9 10 else ratio 75 100).
Proof. reflexivity. Qed.

Lemma mock_fallback_reliability (jitter : Z) (plan : option DebatePlan)
      (fallback : VerificationResult) :
  mockRunVerification jitter plan = Ok fallback ->
  warning (fellBackToMock fallback)
  = Some "MCP verification failed; fell back to mock." /\
  reliability (fellBackToMock fallback)
  = Some (if passed (fellBackToMock fallback) then ratio 9 10 else ratio 75 100).
Proof.
  destruct plan as [p|]; [|discriminate].
  cbn [mockRunVerification]; intros H; injection H as <-.
  split; [reflexivity|apply selectOutput_reliability].
Qed.

Lemma verify_plan_reliability (host : ToolHost) (input : VerifyPlanInput)
      (output : VerifyOutput) :
  verify_plan host input = Ok output ->
  (vo_status output = StatusPass /\ vo_reliability output = ratio 9 10) \/
  (vo_status output = StatusFail /\ vo_reliability output = ratio 75 100) \/
  (vo_status output = StatusError /\ vo_reliability output = ratio 2 10).
Proof.
  unfold verify_plan; cbv zeta.
  destruct (requireApiKey _ _); [|discriminate].
  destruct (req_mode (in_args input)).
  - destruct (buildMockLogs (req_planId (in_args input))) as [[[] s l]|];
      intros H; injection H as <-; cbn; auto.
  - destruct (negb _); [intros H; injection H as <-; cbn; auto|].
    destruct (cr_timedOut _); [intros H; injection H as <-; cbn; auto|].
    destruct (_ =? 0)%Z; intros H; injection H as <-; cbn; auto.
Qed.

(** What the engine's client reads from an endpoint made by a tool host is
    what the tool returned. *)
Lemma toolEndpoint_result (host : ToolHost) (clientKey : option string)
      (request : McpRequest) (result : McpToolResult) :
  toolEndpoint host clientKey request = Ok result ->
  exists input output,
    in_args input = request /\
    verify_plan host input = Ok output /\
    r_status result = vo_status output /\
    r_reliability result = vo_reliability output /\
    vo_summary output = Some (r_summary result) /\
    vo_logs output = Some (r_logs result).
Proof.
  unfold toolEndpoint.
  destruct (verify_plan host _) as [output|message] eqn:Htool; [|discriminate].
  unfold declaredResult.
  destruct (vo_summary output) as [summary|] eqn:Hs; [|discriminate].
  destruct (vo_logs output) as [logs|] eqn:Hl; [|discriminate].
  intros H; injection H as <-.
  eexists _, output; split; [|split; [exact Htool|]]; [reflexivity|].
  cbn [r_status r_reliability r_summary r_logs].
  split; [reflexivity|]; split; [reflexivity|]; split; [exact Hs|exact Hl].
Qed.

(** C6, as stated, fails on the fallback paths.  With the endpoint unreachable
    the engine falls back to the mock result of the second plan, which passes
    with reliability 0.9; with the tool reporting status error and reliability
    0.2 (fixture missing) the engine replaces that result by the mock result
    of the target plan, reliability 0.75.  In both runs the reliability of the
    verification evidence is not 0.2. *)
Lemma fallback_reliability_is_not_low :
  let verificationEntry session :=
    find (fun entry => String.eqb (e_id entry) "evidence-verification")
         (s_evidenceLedger session) in
  (exists session entry,
      out_result (runDebate worldUnreachable 0 (Some "Fix failing test")
                            (mkOptions None None)) = Ok session /\
      In "MCP verification failed; fell back to mock. MCP_URL is not configured."
         (s_generationWarnings session) /\
      verificationEntry session = Some entry /\
      e_reliability entry = ratio 9 10) /\
  (exists session entry request,
      out_mcpCalls (runDebate (worldTool hostWithoutFixture) 0
                              (Some "Fix failing test") (mkOptions None None))
      = [request] /\
      option_map vo_status
        (resultValue (verify_plan hostWithoutFixture
                                  (mkVerifyPlanInput request None)))
      = Some StatusError /\
      option_map vo_reliability
        (resultValue (verify_plan hostWithoutFixture
                                  (mkVerifyPlanInput request None)))
      = Some (ratio 2 10) /\
      out_result (runDebate (worldTool hostWithoutFixture) 0
                            (Some "Fix failing test") (mkOptions None None))
      = Ok session /\
      verificationEntry session = Some entry /\
      e_reliability entry = ratio 75 100).
Proof.
  intros verificationEntry; split.
  - destruct (out_result (runDebate worldUnreachable 0 (Some "Fix failing test")
                                    (mkOptions None None)))
      as [session|message] eqn:Hrun; [|vm_compute in Hrun; discriminate].
    vm_compute in Hrun; injection Hrun as <-.
    eexists _, _; split; [reflexivity|].
    split; [left; reflexivity|].
    split; [vm_compute; reflexivity|].
    apply Qc_is_canon; reflexivity.
  - destruct (out_result (runDebate (worldTool hostWithoutFixture) 0
                                    (Some "Fix failing test") (mkOptions None None)))
      as [session|message] eqn:Hrun; [|vm_compute in Hrun; discriminate].
    vm_compute in Hrun; injection Hrun as <-.
    eexists _, _, _; split; [vm_compute; reflexivity|].
    split; [reflexivity|].
    split; [cbn; f_equal; apply Qc_is_canon; reflexivity|].
    split; [reflexivity|].
    split; [vm_compute; reflexivity|].
    apply Qc_is_canon; reflexivity.
Qed.

(** C6 (amended: on the fallback paths the reliability is the mock's): for
    every verification step that returns, when the endpoint throws or reports
    status error the result is the local mock's, marked with the fallback
    warning, and its reliability is 0.9 if it passed and 0.75 if it failed;
    otherwise the reliability is the one the endpoint reported, which for the
    [verify_plan] tool is 0.9 on pass and 0.75 on fail.  The tool itself
    reports 0.2 exactly with status error, a result the engine replaces. *)
Theorem verification_reliability :
  forall (env : Env) (baseTime : Z) (codeScenario : bool)
         (proposals : list Proposal) (plans : list DebatePlan)
         (given : list string) (verification : VerificationResult)
         (warnings : list string),
    verificationPhase env baseTime codeScenario proposals plans given
    = Ok (verification, warnings) ->
    let request := verificationRequest env baseTime codeScenario proposals plans in
    let graded :=
      reliability verification
      = Some (if passed verification then ratio 9 10 else ratio 75 100) in
    let fellBack :=
      warning verification = Some "MCP verification failed; fell back to mock." in
    match callMcpTool env request with
    | Err _ => fellBack /\ graded
    | Ok result =>
        if isErrorStatus (r_status result) then fellBack /\ graded
        else
          reliability verification = Some (r_reliability result) /\
          passed verification = isPassStatus (r_status result) /\
          (forall host clientKey,
              toolEndpoint host clientKey request = Ok result -> graded)
    end /\
    (forall host input output,
        verify_plan host input = Ok output ->
        (vo_status output = StatusError <-> vo_reliability output = ratio 2 10) /\
        (vo_status output = StatusPass -> vo_reliability output = ratio 9 10) /\
        (vo_status output = StatusFail -> vo_reliability output = ratio 75 100)).
Proof.
  intros env baseTime codeScenario proposals plans given verification warnings
         Hphase request graded fellBack.
  split.
  - rewrite verificationPhase_unfold, tryVerification_unfold in Hphase.
    fold request in Hphase.
    destruct (callMcpTool env request) as [result|message].
    + destruct (isErrorStatus (r_status result)) eqn:Herr.
      * destruct (mockRunVerification (mockJitter env) _) as [fallback|message] eqn:Hm.
        -- injection Hphase as <- _; eapply mock_fallback_reliability; exact Hm.
        -- destruct (mockRunVerification (mockJitter env) (nth_error plans 1))
             as [fallback|fatal] eqn:Hm'; [|discriminate].
           injection Hphase as <- _; eapply mock_fallback_reliability; exact Hm'.
      * injection Hphase as <- _.
        cbn [reliability passed]; repeat split.
        intros host clientKey Htool; unfold graded; cbn [reliability passed].
        destruct (toolEndpoint_result _ _ _ _ Htool)
          as (input & output & _ & Hout & Hstatus & Hrel & _).
        rewrite Hstatus, Hrel in *.
        destruct (verify_plan_reliability host input output Hout)
          as [[Hs ->]|[[Hs ->]|[Hs _]]];
          rewrite Hs in *; [reflexivity|reflexivity|discriminate].
    + destruct (mockRunVerification (mockJitter env) (nth_error plans 1))
        as [fallback|fatal] eqn:Hm; [|discriminate].
      injection Hphase as <- _; eapply mock_fallback_reliability; exact Hm.
  - intros host input output Hout.
    destruct (verify_plan_reliability host input output Hout)
      as [[Hs Hr]|[[Hs Hr]|[Hs Hr]]];
      rewrite Hs, Hr; repeat split; try discriminate; try reflexivity;
      intros H; apply (f_equal this) in H; vm_compute in H; discriminate.
Qed.

Lemma verification_reliability_witness :
  exists verification warnings,
    verificationPhase worldUnreachable 0 true [] basePlans []
    = Ok (verification, warnings) /\
    warning verification = Some "MCP verification failed; fell back to mock." /\
    reliability verification = Some (ratio 9 10).
Proof.
  destruct (verificationPhase worldUnreachable 0 true [] basePlans [])
    as [[verification warnings]|fatal] eqn:Hphase;
    [|vm_compute in Hphase; discriminate].
  destruct (verification_reliability _ _ _ _ _ _ _ _ Hphase) as [Hcase _].
  cbn in Hcase; destruct Hcase as [Hfell Hgraded].
  exists verification, warnings; split; [reflexivity|].
  split; [exact Hfell|].
  rewrite Hgraded.
  assert (Hpassed : passed verification = true)
    by (vm_compute in Hphase; injection Hphase as <- _; reflexivity).
  rewrite Hpassed; reflexivity.
Defined.

(** ** The persisted session list *)

Lemma handleRun_response_file_independent (env : Env) (baseTime : Z)
      (file file' : DataFile) (raw : RequestBody) :
  h_response (handleRun env baseTime file raw)
  = h_response (handleRun env baseTime file' raw).
Proof.
  unfold handleRun; destruct raw; try reflexivity;
    destruct (out_result _); reflexivity.
Qed.

Lemma handleRun_file (env : Env) (baseTime : Z) (file : DataFile)
      (raw : RequestBody) :
  h_file (handleRun env baseTime file raw)
  = match res_payload (h_response (handleRun env baseTime FileMissing raw)) with
    | SessionPayload session =>
        FileSessions (firstn SESSION_CAP (trimSession session :: readSessions file))
    | ErrorPayload _ => file
    end.
Proof.
  unfold handleRun; destruct raw; try reflexivity;
    destruct (out_result _); reflexivity.
Qed.

Lemma serve_snoc (file : DataFile) (requests : list Served) (request : Served) :
  serve file (requests ++ [request])
  = h_file (handleRun (sv_env request) (sv_baseTime request) (serve file requests)
                      (sv_body request)).
Proof. unfold serve; rewrite fold_left_app; reflexivity. Qed.

Lemma completedSessions_snoc (requests : list Served) (request : Served) :
  completedSessions (requests ++ [request])
  = (completedSessions requests ++ completedSessions [request])%list.
Proof. unfold completedSessions; apply flat_map_app. Qed.

Lemma firstn_cons_firstn {A : Type} (n : nat) (x : A) (l : list A) :
  firstn n (x :: firstn n l) = firstn n (x :: l).
Proof.
  destruct n as [|n]; [reflexivity|].
  rewrite !firstn_cons; f_equal.
  rewrite firstn_firstn; f_equal; lia.
Qed.

(** After the requests are served the file holds the trimmed sessions of the
    completed runs, newest first, followed by what it held before, cut to the
    cap; with no completed run it is untouched. *)
Lemma serve_contents (file : DataFile) (requests : list Served) :
  match completedSessions requests with
  | [] => serve file requests = file
  | _ =>
      serve file requests
      = FileSessions
          (firstn SESSION_CAP
                  (rev (map trimSession (completedSessions requests))
                     ++ readSessions file))
  end.
Proof.
  induction requests as [|request requests IH] using rev_ind; [reflexivity|].
  rewrite serve_snoc, completedSessions_snoc, handleRun_file.
  unfold completedSessions at 2 4; cbn [flat_map]; rewrite app_nil_r.
  destruct (res_payload _) as [message|session].
  - rewrite app_nil_r; exact IH.
  - destruct (completedSessions requests) as [|c cs] eqn:Hc.
    + rewrite IH; reflexivity.
    + rewrite IH; cbn [readSessions].
      rewrite firstn_cons_firstn.
      destruct ((c :: cs) ++ [session])%list eqn:Happ;
        [destruct cs; discriminate|].
      rewrite <- Happ, map_app, rev_app_distr; reflexivity.
Qed.

(** C8: once more than 25 runs have completed, the persisted list holds
    exactly 25 sessions: the (trimmed) sessions of the 25 most recently
    completed runs, most recent first; every completed run puts its session in
    front of the list, which is then cut to 25. *)
Theorem persisted_sessions_capped :
  forall (file : DataFile) (requests : list Served),
    (25 < List.length (completedSessions requests))%nat ->
    serve file requests
    = FileSessions
        (map trimSession (firstn 25 (rev (completedSessions requests)))) /\
    List.length (readSessions (serve file requests)) = 25%nat /\
    (forall env baseTime raw session,
        out_result (runDebate env baseTime
                      (match raw with
                       | BodyJson request => rq_scenario request
                       | _ => None
                       end)
                      (match raw with
                       | BodyJson request =>
                           mkOptions (rq_weights request) (rq_runVerification request)
                       | _ => mkOptions None None
                       end)) = Ok session ->
        raw <> BodyInvalid ->
        h_file (handleRun env baseTime (serve file requests) raw)
        = FileSessions
            (firstn 25 (trimSession session :: readSessions (serve file requests)))).
Proof.
  intros file requests Hmany.
  assert (Hcontents := serve_contents file requests).
  destruct (completedSessions requests) as [|c cs] eqn:Hc; [cbn in Hmany; lia|].
  rewrite <- Hc in *.
  assert (Hlen : (25 <= List.length (rev (map trimSession (completedSessions requests))))%nat)
    by (rewrite length_rev, length_map; lia).
  assert (Hserve : serve file requests
                   = FileSessions
                       (map trimSession
                            (firstn 25 (rev (completedSessions requests))))).
  { rewrite Hcontents; f_equal; unfold SESSION_CAP.
    rewrite firstn_app.
    replace (25 - List.length (rev (map trimSession (completedSessions requests))))%nat
      with 0%nat by lia.
    rewrite firstn_O, app_nil_r, <- map_rev; apply firstn_map. }
  split; [exact Hserve|].
  split.
  - rewrite Hserve; cbn [readSessions].
    rewrite length_map, length_firstn, length_rev; lia.
  - intros env baseTime raw session Hrun Hvalid.
    unfold handleRun; destruct raw as [| |request]; [|congruence|];
      cbn [rq_scenario rq_weights rq_runVerification] in *;
      rewrite Hrun; reflexivity.
Qed.

Lemma persisted_sessions_capped_witness :
  List.length (readSessions (serve FileMissing manyRequests)) = 25%nat /\
  map s_id (readSessions (serve FileMissing manyRequests))
  = map (fun k => "session-" ++ intToString (Z.of_nat k * 60000))
        (rev (seq 1 25)).
Proof.
  assert (Hmany : (25 < List.length (completedSessions manyRequests))%nat)
    by (vm_compute; lia).
  destruct (persisted_sessions_capped FileMissing manyRequests Hmany)
    as (Hserve & Hlen & _).
  split; [exact Hlen|].
  rewrite Hserve; vm_compute; reflexivity.
Defined.

(** ** The plan sent for verification *)

(** The verification result of the step, by the answer of the endpoint to the
    request of the step. *)
Lemma verificationPhase_answer (env : Env) (baseTime : Z) (codeScenario : bool)
      (proposals : list Proposal) (plans : list DebatePlan)
      (given : list string) (verification : VerificationResult)
      (warnings : list string) :
  verificationPhase env baseTime codeScenario proposals plans given
  = Ok (verification, warnings) ->
  match callMcpTool env
          (verificationRequest env baseTime codeScenario proposals plans) with
  | Ok result =>
      if isErrorStatus (r_status result)
      then adapterName verification = Some "mock"
      else adapterName verification = Some "mcp" /\
           output verification = joinLines (r_logs result)
  | Err _ => adapterName verification = Some "mock"
  end.
Proof.
  rewrite verificationPhase_unfold, tryVerification_unfold.
  destruct (callMcpTool env _) as [result|message].
  - destruct (isErrorStatus (r_status result)).
    + destruct (mockRunVerification (mockJitter env) _) as [fallback|message].
      * intros H; injection H as <- _; reflexivity.
      * destruct (mockRunVerification (mockJitter env) (nth_error plans 1));
          [|discriminate].
        intros H; injection H as <- _; reflexivity.
    + intros H; injection H as <- _; split; reflexivity.
  - destruct (mockRunVerification (mockJitter env) (nth_error plans 1));
      [|discriminate].
    intros H; injection H as <- _; reflexivity.
Qed.

Lemma verificationTargetPlanId_most_confident (proposals : list Proposal)
      (plans : list DebatePlan) :
  proposals <> [] ->
  exists i proposal,
    firstMaxAt p_confidence proposals i proposal /\
    verificationTargetPlanId proposals plans
    = orElse (proposalPlanMap (p_agent proposal)) "plan-a".
Proof.
  intros Hne.
  set (pair := fun proposal : Proposal =>
                 (orElse (proposalPlanMap (p_agent proposal)) "plan-a",
                  p_confidence proposal)).
  assert (Hmapped : map pair proposals <> [])
    by (destruct proposals; [congruence|discriminate]).
  destruct (sortBy_head snd (map pair proposals) Hmapped) as (i & x & Hhd & Hmax).
  destruct (firstMaxAt_map pair snd proposals i x Hmax) as (proposal & -> & Hfirst).
  exists i, proposal; split; [exact Hfirst|].
  unfold verificationTargetPlanId, ranked; fold pair.
  destruct (sortBy _ (map pair proposals)) as [|first rest]; [discriminate|].
  cbn in Hhd; injection Hhd as ->; reflexivity.
Qed.

(** C9: in every completed run in which verification executes, exactly one
    request goes to the verification endpoint and its plan id is the plan
    mapped from the first proposal of maximal confidence, in collection
    order; what the endpoint answers to that request is what the session
    reports (adapter "mcp" and the logs as [daytonaOutput] for an answer that
    is not an error, the fallback otherwise); and there is a run in which the
    plan sent differs from the plan of highest probability that the
    verification update targets. *)
Theorem verification_request_targets_most_confident :
  (forall (env : Env) (baseTime : Z) (scenario : option string)
          (options : RunOptions) (session : DebateSession),
      out_result (runDebate env baseTime scenario options) = Ok session ->
      s_runVerification session = true ->
      exists request i proposal,
        out_mcpCalls (runDebate env baseTime scenario options) = [request] /\
        firstMaxAt p_confidence (s_proposals session) i proposal /\
        req_planId request
        = orElse (proposalPlanMap (p_agent proposal)) "plan-a" /\
        match callMcpTool env request with
        | Ok result =>
            if isErrorStatus (r_status result)
            then s_adapter session = "mock"
            else s_adapter session = "mcp" /\
                 s_daytonaOutput session = Some (joinLines (r_logs result))
        | Err _ => s_adapter session = "mock"
        end) /\
  (exists (env : Env) (baseTime : Z) (scenario : option string)
          (options : RunOptions) (session : DebateSession) (request : McpRequest),
      out_result (runDebate env baseTime scenario options) = Ok session /\
      s_runVerification session = true /\
      out_mcpCalls (runDebate env baseTime scenario options) = [request] /\
      let recorded := s_probabilities session in
      let previous := nth 4 recorded (mkSnapshot 0 "" []) in
      recorded
      = (firstn 4 recorded ++ [previous; nth 5 recorded (mkSnapshot 0 "" [])])%list /\
      req_planId request = "plan-a" /\
      pickFinalPlanId (snap_entries previous) = "plan-c").
Proof.
  split.
  - intros env baseTime scenario options session Hrun Hver.
    destruct (runDebate_completed _ _ _ _ _ Hrun)
      as (verification & warnings & Hne & Hphase & -> & Hcalls).
    cbn [assembleSession s_runVerification s_proposals s_adapter
         s_daytonaOutput] in *.
    rewrite Hver in Hcalls, Hphase.
    assert (Hcode : isCodeScenario (orElse scenario defaultScenario) = true).
    { revert Hver; unfold decideRunVerification.
      destruct (isCodeScenario (orElse scenario defaultScenario));
        [reflexivity|discriminate]. }
    rewrite Hver, Hcode in *; cbn [andb].
    pose proof (verificationPhase_answer _ _ _ _ _ _ _ _ Hphase) as Hanswer.
    destruct (verificationTargetPlanId_most_confident _
                (plansFromProposals
                   (fst (collectProposals env (orElse scenario defaultScenario)
                           (resolveWeights (opt_weights options))
                           (fst (classifyPhase env (orElse scenario defaultScenario) []))
                           (overrideWarningPhase
                              (isCodeScenario (orElse scenario defaultScenario))
                              (orElse (opt_runVerification options) true)
                              (snd (classifyPhase env
                                      (orElse scenario defaultScenario) []))))))
                Hne)
      as (i & proposal & Hfirst & Htarget).
    eexists _, i, proposal; split; [exact Hcalls|].
    split; [exact Hfirst|]; split; [exact Htarget|].
    destruct (callMcpTool env _) as [result|message].
    + destruct (isErrorStatus (r_status result)).
      * rewrite Hanswer; reflexivity.
      * destruct Hanswer as [Hadapter Houtput].
        rewrite Hadapter, Houtput; split; reflexivity.
    + rewrite Hanswer; reflexivity.
  - exists (worldTool hostPassing), 0%Z, (Some "Fix failing test"),
      (mkOptions None None).
    destruct (out_result (runDebate (worldTool hostPassing) 0
                                    (Some "Fix failing test") (mkOptions None None)))
      as [session|message] eqn:Hrun; [|vm_compute in Hrun; discriminate].
    vm_compute in Hrun; injection Hrun as <-.
    eexists _, _; split; [reflexivity|].
    split; [reflexivity|].
    split; [vm_compute; reflexivity|].
    cbv zeta; split; [reflexivity|].
    split; [reflexivity|vm_compute; reflexivity].
Qed.

Lemma verification_request_targets_most_confident_witness :
  exists request,
    out_mcpCalls (runDebate (worldTool hostPassing) 0 (Some "Fix failing test")
                            (mkOptions None None)) = [request] /\
    req_planId request = "plan-a".
Proof.
  destruct verification_request_targets_most_confident as [Hall _].
  destruct (out_result (runDebate (worldTool hostPassing) 0
                                  (Some "Fix failing test") (mkOptions None None)))
    as [session|message] eqn:Hrun; [|vm_compute in Hrun; discriminate].
  assert (Hver : s_runVerification session = true)
    by (vm_compute in Hrun; injection Hrun as <-; reflexivity).
  destruct (Hall _ _ _ _ _ Hrun Hver) as (request & i & proposal & Hcalls & _ & _).
  exists request; split; [exact Hcalls|].
  vm_compute in Hcalls; injection Hcalls as <-; reflexivity.
Defined.

(** * Further properties of the engine *)

(** ** Weights *)

Lemma clampWeight_bounds (v : Qc) : 0 <= clampWeight v /\ clampWeight v <= 1.
Proof. apply clampUnit_bounds. Qed.

Lemma clampWeight_id (v : Qc) : 0 <= v -> v <= 1 -> clampWeight v = v.
Proof. apply clampUnit_id. Qed.

Lemma clampWeight_low (v : Qc) : v <= 0 -> clampWeight v = 0.
Proof.
  intros Hv; unfold clampWeight, mathMin, mathMax.
  destruct (Qle_bool (this 0) (this v)) eqn:E0.
  - apply Qle_bool_Qcle in E0.
    assert (v = 0) by (apply Qcle_antisym; assumption); subst v; reflexivity.
  - reflexivity.
Qed.

Lemma clampWeight_high (v : Qc) : 1 <= v -> clampWeight v = 1.
Proof.
  intros Hv; unfold clampWeight, mathMin, mathMax.
  assert (H0 : 0 <= v) by (apply Qcle_trans with 1; [discriminate|exact Hv]).
  apply Qle_bool_Qcle in H0; rewrite H0; cbv iota.
  apply Qle_bool_Qcle in Hv; rewrite Hv; reflexivity.
Qed.

(** X1: every resolved weight lies in [0,1]; a role whose override is missing
    (or the whole override map) gets its default; an override inside [0,1] is
    kept as it is, one below 0 becomes 0 and one above 1 becomes 1. *)
Theorem resolveWeights_clamps :
  forall (overrides : option WeightOverrides) (role : AgentRole),
    let given :=
      match overrides with
      | Some o =>
          match role with
          | planner => o_planner o
          | skeptic => o_skeptic o
          | security => o_security o
          | cost => o_cost o
          | synthesizer => o_synthesizer o
          end
      | None => None
      end in
    let resolved := weightOf (resolveWeights overrides) role in
    0 <= resolved /\ resolved <= 1 /\
    (given = None -> resolved = weightOf defaultWeights role) /\
    (forall v, given = Some v ->
               (0 <= v -> v <= 1 -> resolved = v) /\
               (v <= 0 -> resolved = 0) /\
               (1 <= v -> resolved = 1)).
Proof.
  intros overrides role given resolved.
  assert (Hshape : resolved
                   = clampWeight (orElse given (weightOf defaultWeights role))).
  { unfold resolved, given, resolveWeights.
    destruct overrides as [o|]; destruct role; reflexivity. }
  rewrite Hshape.
  destruct (clampWeight_bounds (orElse given (weightOf defaultWeights role))).
  split; [assumption|].
  split; [assumption|].
  split.
  - intros ->; cbn [orElse]; apply clampWeight_id;
      destruct role; vm_compute; discriminate.
  - intros v ->; cbn [orElse].
    split; [apply clampWeight_id|].
    split; [apply clampWeight_low|apply clampWeight_high].
Qed.

Lemma resolveWeights_clamps_witness :
  let overrides := mkOverrides (Some (ratio 3 2)) None (Some (ratio (-1) 4))
                               (Some (ratio 1 5)) None in
  resolveWeights (Some overrides)
  = mkWeights 1 (ratio 45 100) 0 (ratio 1 5) (ratio 6 10).
Proof.
  intros overrides.
  destruct (resolveWeights_clamps (Some overrides) planner)
    as (_ & _ & _ & Hplanner).
  destruct (resolveWeights_clamps (Some overrides) skeptic)
    as (_ & _ & Hskeptic & _).
  destruct (resolveWeights_clamps (Some overrides) security)
    as (_ & _ & _ & Hsecurity).
  destruct (resolveWeights_clamps (Some overrides) cost) as (_ & _ & _ & Hcost).
  destruct (resolveWeights_clamps (Some overrides) synthesizer)
    as (_ & _ & Hsynth & _).
  destruct (Hplanner _ eq_refl) as (_ & _ & Hp).
  destruct (Hsecurity _ eq_refl) as (_ & Hs & _).
  destruct (Hcost _ eq_refl) as (Hc & _).
  assert (H1 := Hp ltac:(vm_compute; discriminate)).
  assert (H2 := Hskeptic eq_refl).
  assert (H3 := Hs ltac:(vm_compute; discriminate)).
  assert (H4 := Hc ltac:(vm_compute; discriminate) ltac:(vm_compute; discriminate)).
  assert (H5 := Hsynth eq_refl).
  cbn [weightOf] in H1, H2, H3, H4, H5.
  destruct (resolveWeights (Some overrides)) as [wp ws wsec wc wsyn].
  cbn [w_planner w_skeptic w_security w_cost w_synthesizer] in *.
  subst; reflexivity.
Defined.

(** ** More on normalisation and damping *)

Lemma uniformShare_normalizeEntries (l : list ProbabilityEntry) :
  uniformShare (normalizeEntries l) = uniformShare l.
Proof. unfold uniformShare; rewrite normalizeEntries_length; reflexivity. Qed.

(** X2: on a non-empty list [normalizeEntries] keeps the plan ids, returns
    probabilities that sum to 1, and when the input total is 0 (in particular
    when every input is 0) gives every entry 1/N. *)
Theorem normalizeEntries_sums_to_one :
  forall entries : list ProbabilityEntry,
    entries <> [] ->
    totalProbability (normalizeEntries entries) = 1 /\
    map planId (normalizeEntries entries) = map planId entries /\
    (totalProbability entries = 0 ->
     forall e, In e (normalizeEntries entries) ->
               probability e = 1 / count (List.length entries)) /\
    ((forall e, In e entries -> probability e = 0) ->
     totalProbability entries = 0).
Proof.
  intros entries Hne.
  split; [apply normalizeEntries_total; exact Hne|].
  split; [apply normalizeEntries_planIds|].
  split.
  - intros Hzero e He; unfold normalizeEntries in He; cbv zeta in He.
    rewrite Hzero in He; change (Qeq_bool (this 0) 0%Q) with true in He.
    cbv iota in He; apply in_map_iff in He; destruct He as (x & <- & _).
    reflexivity.
  - intros Hall; rewrite (totalProbability_const 0 entries Hall); ring.
Qed.

Lemma normalizeEntries_sums_to_one_witness :
  let entries :=
    [ mkEntry "plan-a" 0 planner "r" 0; mkEntry "plan-b" 0 skeptic "r" 0 ] in
  totalProbability (normalizeEntries entries) = 1 /\
  forall e, In e (normalizeEntries entries) -> probability e = ratio 1 2.
Proof.
  intros entries.
  assert (Hne : entries <> []) by discriminate.
  destruct (normalizeEntries_sums_to_one entries Hne) as (Hsum & _ & Hzero & _).
  split; [exact Hsum|].
  intros e He; rewrite (Hzero eq_refl e He).
  apply Qc_is_canon; reflexivity.
Defined.

(** X3: computed without rounding, normalising twice is the same as
    normalising once, on every list.  On the doubles the code computes with it
    is not: normalising 0.1, 0.2, 0.3 gives 0x1.5555555555555p-3,
    0x1.5555555555555p-2, 0x1.ffffffffffffep-2, and normalising that again
    moves each value by one unit in the last place. *)
Theorem normalizeEntries_idempotent :
  (forall entries : list ProbabilityEntry,
      normalizeEntries (normalizeEntries entries) = normalizeEntries entries) /\
  (let once :=
     Binary64.normalizeEntries
       [0x1.999999999999ap-4; 0x1.999999999999ap-3; 0x1.3333333333333p-2]%float in
   once
   = [0x1.5555555555555p-3; 0x1.5555555555555p-2; 0x1.ffffffffffffep-2]%float /\
   Binary64.normalizeEntries once
   = [0x1.5555555555556p-3; 0x1.5555555555556p-2; 0x1.fffffffffffffp-2]%float /\
   Binary64.sameValues (Binary64.normalizeEntries once) once = false).
Proof.
  split; [|vm_compute; repeat split; reflexivity].
  intros entries.
  destruct entries as [|x l]; [reflexivity|].
  assert (Hne : x :: l <> []) by discriminate.
  assert (Ht := normalizeEntries_total (x :: l) Hne).
  set (normalized := normalizeEntries (x :: l)) in *.
  unfold normalizeEntries at 1; cbv zeta; rewrite Ht.
  change (Qeq_bool (this 1) 0%Q) with false; cbv iota.
  apply map_fixes; intros e _.
  transitivity (setProbability e (probability e));
    [f_equal; field; discriminate|apply setProbability_same].
Qed.

(** The probability [dampAndNormalize] gives to the entry at each position. *)
Lemma nth_error_dampAndNormalize (l : list ProbabilityEntry) (i : nat) :
  nth_error (dampAndNormalize l) i
  = option_map
      (fun e =>
         setProbability e
           ((1 - DAMPING_FACTOR)
            * (if Qeq_bool (totalProbability l) 0%Q then uniformShare l
               else probability e / totalProbability l)
            + DAMPING_FACTOR * uniformShare l))
      (nth_error l i).
Proof.
  unfold dampAndNormalize; cbv zeta.
  rewrite nth_error_map, uniformShare_normalizeEntries.
  unfold normalizeEntries; cbv zeta.
  destruct (Qeq_bool (totalProbability l) 0%Q);
    rewrite nth_error_map; destruct (nth_error l i); reflexivity.
Qed.

Lemma damp_step_le (x y c : Qc) :
  x <= y -> (1 - DAMPING_FACTOR) * x + c <= (1 - DAMPING_FACTOR) * y + c.
Proof. unfold DAMPING_FACTOR; intros H; to_Q; lra. Qed.

Lemma inv_pos (t : Qc) : 0 < t -> 0 < / t.
Proof.
  unfold Qclt; rewrite this_inv; intros H; apply Qinv_lt_0_compat; exact H.
Qed.

(** On doubles a strict lead can round to a tie: of 0, 1e-20 and 1 the first
    two come back with the same probability. *)
Lemma dampAndNormalize_binary64_tie :
  Binary64.dampAndNormalize [0; 0x1.79ca10c924223p-67; 1]%float
  = [0x1.b4e81b4e81b4ep-6; 0x1.b4e81b4e81b4ep-6; 0x1.e4b17e4b17e4bp-1]%float.
Proof. vm_compute; reflexivity. Qed.

(** X4: damping never reverses the ranking.  On non-negative entries, if the
    entry at position i holds at most (as much as) the entry at position j,
    the same is true of the returned entries at i and j, which keep their
    plan ids.  (A strict lead is not promised to stay strict: on doubles it
    can round to a tie.) *)
Theorem dampAndNormalize_keeps_ranking :
  forall (entries : list ProbabilityEntry) (i j : nat) (a b : ProbabilityEntry),
    (forall e, In e entries -> 0 <= probability e) ->
    nth_error entries i = Some a ->
    nth_error entries j = Some b ->
    exists a' b',
      nth_error (dampAndNormalize entries) i = Some a' /\
      nth_error (dampAndNormalize entries) j = Some b' /\
      planId a' = planId a /\ planId b' = planId b /\
      (probability a <= probability b -> probability a' <= probability b') /\
      (probability a = probability b -> probability a' = probability b').
Proof.
  intros entries i j a b Hpos Ha Hb.
  rewrite !nth_error_dampAndNormalize, Ha, Hb; cbn [option_map].
  eexists _, _; split; [reflexivity|]; split; [reflexivity|].
  cbn [setProbability planId probability].
  split; [reflexivity|]; split; [reflexivity|].
  assert (Hina : In a entries) by (eapply nth_error_In; exact Ha).
  assert (Hinb : In b entries) by (eapply nth_error_In; exact Hb).
  assert (Hge := totalProbability_nonneg entries Hpos).
  destruct (Qeq_bool (totalProbability entries) 0%Q) eqn:E.
  - apply Qeq_bool_zero in E.
    split; [intros _; apply Qcle_refl|reflexivity].
  - assert (Hne : totalProbability entries <> 0)
      by (intros H; apply Qeq_bool_zero in H; congruence).
    assert (Hlt0 : 0 < totalProbability entries).
    { apply Qcle_lt_or_eq in Hge; destruct Hge as [H|H]; [exact H|congruence]. }
    assert (Hi := inv_pos _ Hlt0).
    unfold Qcdiv; split.
    + intros Hle; apply damp_step_le.
      apply Qcmult_le_compat_r; [exact Hle|apply Qclt_le_weak; exact Hi].
    + intros ->; reflexivity.
Qed.

Lemma dampAndNormalize_keeps_ranking_witness :
  let entries :=
    [ mkEntry "plan-a" (ratio 1 10) planner "r" 0;
      mkEntry "plan-b" (ratio 7 10) skeptic "r" 0;
      mkEntry "plan-c" (ratio 2 10) cost "r" 0 ] in
  exists a' b',
    nth_error (dampAndNormalize entries) 0 = Some a' /\
    nth_error (dampAndNormalize entries) 1 = Some b' /\
    probability a' <= probability b'.
Proof.
  intros entries.
  assert (Hpos : forall e, In e entries -> 0 <= probability e).
  { intros e He; simpl in He.
    destruct He as [<-|[<-|[<-|[]]]]; vm_compute; discriminate. }
  destruct (dampAndNormalize_keeps_ranking entries 0 1 _ _ Hpos eq_refl eq_refl)
    as (a' & b' & Ha & Hb & _ & _ & Hle & _).
  exists a', b'; split; [exact Ha|]; split; [exact Hb|].
  apply Hle; vm_compute; discriminate.
Defined.

(** ** More on the weighted update *)

Lemma convex_between (old asserted w : Qc) :
  0 <= w -> w <= 1 ->
  let mixed := old * (1 - w) + asserted * w in
  (old <= asserted -> old <= mixed /\ mixed <= asserted) /\
  (asserted <= old -> asserted <= mixed /\ mixed <= old).
Proof.
  intros Hw0 Hw1 mixed; unfold mixed.
  split; intros Hle.
  - assert (H : 0 <= (asserted - old) * w /\ (asserted - old) * w <= asserted - old).
    { split.
      - rewrite <- (Qcmult_0_l w); apply Qcmult_le_compat_r; [|exact Hw0].
        to_Q; lra.
      - rewrite <- (Qcmult_1_r (asserted - old)) at 2.
        rewrite (Qcmult_comm (asserted - old) w), (Qcmult_comm (asserted - old) 1).
        apply Qcmult_le_compat_r; [exact Hw1|to_Q; lra]. }
    replace (old * (1 - w) + asserted * w) with (old + (asserted - old) * w) by ring.
    destruct H as [H1 H2]; split; to_Q; lra.
  - assert (H : 0 <= (old - asserted) * w /\ (old - asserted) * w <= old - asserted).
    { split.
      - rewrite <- (Qcmult_0_l w); apply Qcmult_le_compat_r; [|exact Hw0].
        to_Q; lra.
      - rewrite <- (Qcmult_1_r (old - asserted)) at 2.
        rewrite (Qcmult_comm (old - asserted) w), (Qcmult_comm (old - asserted) 1).
        apply Qcmult_le_compat_r; [exact Hw1|to_Q; lra]. }
    replace (old * (1 - w) + asserted * w) with (old - (old - asserted) * w) by ring.
    destruct H as [H1 H2]; split; to_Q; lra.
Qed.

(** On doubles the weighted mean can leave the interval between the old and
    the asserted value by a rounding error: with both at 0.9 and weight 0.45
    it is 0.9000000000000001, and with both at 0.34 and weight 0.3 it is
    0.33999999999999997. *)
Lemma weighted_binary64_leaves_interval :
  let high := 0x1.ccccccccccccdp-1%float in
  let low := 0x1.5c28f5c28f5c3p-2%float in
  PrimFloat.ltb high (Binary64.weighted high high 0x1.ccccccccccccdp-2) = true /\
  PrimFloat.ltb (Binary64.weighted low low 0x1.3333333333333p-2) low = true.
Proof. vm_compute; split; reflexivity. Qed.

(** X5: [applyWeightedUpdate] returns one entry per input entry with the same
    plan id; an entry of another plan is returned as it was, so a target plan
    id that no entry carries leaves the list unchanged; the targeted entry
    takes the author, rationale and timestamp of the update and the weighted
    mean old(1-w) + asserted w cut to [0,1]; and when the weight, the old and
    the asserted probability all lie in [0,1] the new probability lies in
    [0,1] and between the old and the asserted value within 1e-9 (exactly
    between them only without rounding). *)
Theorem applyWeightedUpdate_moves_towards_assertion :
  forall (previous : list ProbabilityEntry) (update : Update) (ts : Z)
         (weight : Qc),
    map planId (applyWeightedUpdate previous update ts weight)
    = map planId previous /\
    ((forall e, In e previous -> planId e <> upd_planId update) ->
     applyWeightedUpdate previous update ts weight = previous) /\
    (forall i e,
        nth_error previous i = Some e ->
        exists e',
          nth_error (applyWeightedUpdate previous update ts weight) i = Some e' /\
          (planId e <> upd_planId update -> e' = e) /\
          (planId e = upd_planId update ->
           probability e'
           = clampUnit (probability e * (1 - weight)
                        + upd_probability update * weight) /\
           updatedBy e' = upd_updatedBy update /\
           rationale e' = upd_rationale update /\ timestamp e' = ts /\
           (0 <= weight -> weight <= 1 ->
            0 <= probability e -> probability e <= 1 ->
            0 <= upd_probability update -> upd_probability update <= 1 ->
            0 <= probability e' /\ probability e' <= 1 /\
            (probability e <= upd_probability update ->
             probability e - TOLERANCE <= probability e' /\
             probability e' <= upd_probability update + TOLERANCE) /\
            (upd_probability update <= probability e ->
             upd_probability update - TOLERANCE <= probability e' /\
             probability e' <= probability e + TOLERANCE)))).
Proof.
  intros previous update ts weight.
  split; [apply applyWeightedUpdate_planIds|].
  split.
  - intros Hnone; unfold applyWeightedUpdate; apply map_fixes; intros e He.
    destruct (String.eqb (planId e) (upd_planId update)) eqn:E; [|reflexivity].
    apply String.eqb_eq in E; exfalso; exact (Hnone e He E).
  - intros i e Hnth.
    rewrite nth_error_applyWeightedUpdate, Hnth; cbn [option_map].
    eexists; split; [reflexivity|].
    destruct (String.eqb (planId e) (upd_planId update)) eqn:E; cbn [negb].
    + apply String.eqb_eq in E.
      split; [intros H; congruence|].
      intros _; cbn [probability updatedBy rationale timestamp].
      split; [reflexivity|].
      split; [reflexivity|]; split; [reflexivity|]; split; [reflexivity|].
      intros Hw0 Hw1 Hp0 Hp1 Ha0 Ha1.
      destruct (clampUnit_bounds
                  (probability e * (1 - weight) + upd_probability update * weight))
        as [Hc0 Hc1].
      split; [exact Hc0|]; split; [exact Hc1|].
      destruct (convex_between (probability e) (upd_probability update) weight
                               Hw0 Hw1) as [Hup Hdown].
      assert (Hin : 0 <= probability e * (1 - weight) + upd_probability update * weight
                    /\ probability e * (1 - weight) + upd_probability update * weight
                       <= 1).
      { destruct (Qclt_le_dec (upd_probability update) (probability e)) as [Hlt|Hle].
        - destruct (Hdown (Qclt_le_weak _ _ Hlt)) as [H1 H2].
          split; [apply Qcle_trans with (upd_probability update); assumption
                 |apply Qcle_trans with (probability e); assumption].
        - destruct (Hup Hle) as [H1 H2].
          split; [apply Qcle_trans with (probability e); assumption
                 |apply Qcle_trans with (upd_probability update); assumption]. }
      destruct Hin as [Hin0 Hin1].
      rewrite (clampUnit_id _ Hin0 Hin1).
      assert (Htol : 0 <= TOLERANCE) by discriminate.
      split; intros Hle.
      * destruct (Hup Hle) as [H1 H2]; split; to_Q; lra.
      * destruct (Hdown Hle) as [H1 H2]; split; to_Q; lra.
    + apply String.eqb_neq in E.
      split; [reflexivity|intros H; congruence].
Qed.

Lemma applyWeightedUpdate_moves_towards_assertion_witness :
  let previous :=
    [ mkEntry "plan-a" (ratio 1 4) planner "prior" 0;
      mkEntry "plan-b" (ratio 1 4) planner "prior" 0 ] in
  let update := mkUpdate "plan-b" (ratio 9 10) skeptic "evidence" in
  exists e',
    nth_error (applyWeightedUpdate previous update 7 (ratio 1 2)) 1 = Some e' /\
    probability e' = ratio 23 40 /\
    ratio 1 4 - TOLERANCE <= probability e' /\
    probability e' <= ratio 9 10 + TOLERANCE /\
    applyWeightedUpdate previous (mkUpdate "plan-z" 1 cost "none") 7 (ratio 1 2)
    = previous.
Proof.
  intros previous update.
  destruct (applyWeightedUpdate_moves_towards_assertion previous update 7 (ratio 1 2))
    as (_ & _ & Hnth).
  destruct (Hnth 1%nat _ eq_refl) as (e' & He' & _ & Htarget).
  destruct (Htarget eq_refl) as (Hvalue & _ & _ & _ & Hmean).
  destruct Hmean as (_ & _ & Hup & _);
    try (vm_compute; discriminate).
  destruct Hup as [Hlow Hhigh]; [vm_compute; discriminate|].
  exists e'; split; [exact He'|]; split.
  - rewrite Hvalue; apply Qc_is_canon; reflexivity.
  - split; [exact Hlow|]; split; [exact Hhigh|].
    destruct (applyWeightedUpdate_moves_towards_assertion previous
                (mkUpdate "plan-z" 1 cost "none") 7 (ratio 1 2))
      as (_ & Hnone & _).
    apply Hnone; intros e He; simpl in He.
    destruct He as [<-|[<-|[]]]; discriminate.
Defined.

(** ** No plan is ever certain or ruled out *)

Lemma withinFloorAndCeiling_nonneg (entries : list ProbabilityEntry) :
  withinFloorAndCeiling entries -> forall e, In e entries -> 0 <= probability e.
Proof.
  intros H e He; destruct (H e He) as [Hlow _].
  apply Qcle_trans with (ratio 2 100); [discriminate|exact Hlow].
Qed.

Lemma applyWeightedUpdate_nonneg (previous : list ProbabilityEntry)
      (update : Update) (ts : Z) (weight : Qc) :
  (forall e, In e previous -> 0 <= probability e) ->
  forall e, In e (applyWeightedUpdate previous update ts weight) ->
            0 <= probability e.
Proof.
  intros Hpos e He; unfold applyWeightedUpdate in He.
  apply in_map_iff in He; destruct He as (x & <- & Hx).
  destruct (negb _); [apply Hpos; exact Hx|].
  cbn [probability]; apply clampUnit_bounds.
Qed.

Lemma applyWeightedUpdate_length (previous : list ProbabilityEntry)
      (update : Update) (ts : Z) (weight : Qc) :
  List.length (applyWeightedUpdate previous update ts weight) = List.length previous.
Proof. unfold applyWeightedUpdate; apply length_map. Qed.

Lemma dampAndNormalize_four (l : list ProbabilityEntry) :
  List.length l = 4%nat ->
  (forall e, In e l -> 0 <= probability e) ->
  withinFloorAndCeiling (dampAndNormalize l).
Proof.
  intros Hlen Hpos e He.
  destruct (dampAndNormalize_bounds l e Hpos He) as [Hlow Hhigh].
  rewrite Hlen in Hlow, Hhigh.
  replace (ratio 2 100) with (DAMPING_FACTOR / count 4)
    by (apply Qc_is_canon; reflexivity).
  replace (ratio 94 100)
    with (1 - DAMPING_FACTOR * (count 4 - 1) / count 4)
    by (apply Qc_is_canon; reflexivity).
  split; assumption.
Qed.

Lemma stamped_nonneg (l : list ProbabilityEntry) (ts : Z) :
  (forall e, In e l -> 0 <= probability e) ->
  forall e, In e (map (fun entry => setTimestamp entry ts) l) -> 0 <= probability e.
Proof.
  intros Hpos e He; apply in_map_iff in He; destruct He as (x & <- & Hx).
  cbn [setTimestamp probability]; apply Hpos; exact Hx.
Qed.

Lemma reviseFromAgent_range (previous : list ProbabilityEntry) (agent : AgentRole)
      (updates : list AgentUpdate) (baseTime offset : Z) (weight : Qc) :
  List.length previous = 4%nat ->
  (forall e, In e previous -> 0 <= probability e) ->
  List.length (reviseFromAgent previous agent updates baseTime offset weight) = 4%nat /\
  withinFloorAndCeiling
    (reviseFromAgent previous agent updates baseTime offset weight).
Proof.
  intros Hlen Hpos; unfold reviseFromAgent; cbv zeta.
  assert (Hfold : forall start,
             List.length start = 4%nat ->
             (forall e, In e start -> 0 <= probability e) ->
             let result :=
               fold_left
                 (fun result update =>
                    applyWeightedUpdate result
                      (mkUpdate (au_planId update) (au_probability update) agent
                                (au_rationale update))
                      (toTimestamp baseTime offset) weight)
                 updates start in
             List.length result = 4%nat /\
             forall e, In e result -> 0 <= probability e).
  { induction updates as [|u us IH]; intros start Hl Hp; [split; assumption|].
    cbn [fold_left]; apply IH.
    - rewrite applyWeightedUpdate_length; exact Hl.
    - apply applyWeightedUpdate_nonneg; exact Hp. }
  destruct (Hfold previous Hlen Hpos) as [Hl Hp]; cbv zeta in Hl, Hp.
  split.
  - rewrite dampAndNormalize_length, length_map; exact Hl.
  - apply dampAndNormalize_four; [rewrite length_map; exact Hl|].
    apply stamped_nonneg; exact Hp.
Qed.

Lemma evaluateVerification_range (previous : list ProbabilityEntry)
      (verification : VerificationResult) (target : string) (baseTime : Z)
      (weight : Qc) :
  List.length previous = 4%nat ->
  (forall e, In e previous -> 0 <= probability e) ->
  List.length (evaluateVerification previous verification target baseTime weight)
  = 4%nat /\
  withinFloorAndCeiling
    (evaluateVerification previous verification target baseTime weight).
Proof.
  intros Hlen Hpos; unfold evaluateVerification; cbv zeta.
  split.
  - rewrite dampAndNormalize_length, length_map, applyWeightedUpdate_length.
    exact Hlen.
  - apply dampAndNormalize_four.
    + rewrite length_map, applyWeightedUpdate_length; exact Hlen.
    + apply stamped_nonneg, applyWeightedUpdate_nonneg; exact Hpos.
Qed.

Lemma rangeInvariant_push (current revised : list ProbabilityEntry)
      (probabilities : list ProbabilitySnapshot) (ts : Z) (note : string) :
  rangeInvariant (current, probabilities) ->
  List.length revised = 4%nat /\ withinFloorAndCeiling revised ->
  rangeInvariant (revised, push probabilities (recordSnapshot ts note revised)).
Proof.
  intros (_ & _ & Hall) [Hlen Hrange]; unfold rangeInvariant; cbn [fst snd].
  split; [exact Hlen|]; split; [exact Hrange|].
  unfold push; apply Forall_app; split; [exact Hall|].
  constructor; [exact Hrange|constructor].
Qed.

Lemma agentRevisionStep_range (baseTime : Z) (weights : DebateWeights)
      (proposals : list Proposal)
      (state : list ProbabilityEntry * list ProbabilitySnapshot)
      (item : AgentRole * nat) :
  rangeInvariant state ->
  rangeInvariant (agentRevisionStep baseTime weights proposals state item).
Proof.
  intros Hinv; destruct state as [current probabilities];
    destruct item as [role index].
  unfold agentRevisionStep; destruct (findProposal proposals role); [|exact Hinv].
  cbv zeta; eapply rangeInvariant_push; [exact Hinv|].
  destruct Hinv as (Hlen & Hrange & _); cbn [fst] in *.
  apply reviseFromAgent_range;
    [exact Hlen|apply withinFloorAndCeiling_nonneg; exact Hrange].
Qed.

Lemma agentRevisions_range (baseTime : Z) (weights : DebateWeights)
      (proposals : list Proposal)
      (state : list ProbabilityEntry * list ProbabilitySnapshot) :
  rangeInvariant state ->
  rangeInvariant (agentRevisions baseTime weights proposals state).
Proof.
  unfold agentRevisions; destruct proposals eqn:Hp; [tauto|].
  rewrite <- Hp; clear Hp.
  generalize (mapi (fun role index => (role, index)) proposalOrder).
  intros items; revert state.
  induction items as [|item items IH]; intros state Hinv; [exact Hinv|].
  cbn [fold_left]; apply IH, agentRevisionStep_range, Hinv.
Qed.

Lemma finalRevision_range (baseTime : Z) (weights : DebateWeights)
      (runVerification : bool) (verification : VerificationResult)
      (proposals : list Proposal)
      (state : list ProbabilityEntry * list ProbabilitySnapshot) :
  rangeInvariant state ->
  rangeInvariant
    (finalRevision baseTime weights runVerification verification proposals state).
Proof.
  intros Hinv; destruct state as [current probabilities].
  assert (Hlen : List.length current = 4%nat) by apply Hinv.
  assert (Hpos : forall e, In e current -> 0 <= probability e)
    by (apply withinFloorAndCeiling_nonneg, Hinv).
  unfold finalRevision.
  destruct runVerification; [|destruct proposals; [exact Hinv|]];
    cbv zeta; (eapply rangeInvariant_push; [exact Hinv|]).
  - apply evaluateVerification_range; assumption.
  - apply reviseFromAgent_range; assumption.
Qed.

Lemma beliefPhase_range (baseTime : Z) (weights : DebateWeights)
      (runVerification : bool) (verification : VerificationResult)
      (proposals : list Proposal) (plans : list DebatePlan) :
  List.length plans = 4%nat ->
  rangeInvariant
    (beliefPhase baseTime weights runVerification verification proposals plans).
Proof.
  intros Hplans; unfold beliefPhase; cbv zeta.
  apply finalRevision_range, agentRevisions_range.
  assert (Hinit : withinFloorAndCeiling
                    (dampAndNormalize (initialProbabilitiesForPlans baseTime plans))).
  { apply dampAndNormalize_four.
    - unfold initialProbabilitiesForPlans; rewrite length_map; exact Hplans.
    - intros e He; unfold initialProbabilitiesForPlans in He.
      apply in_map_iff in He; destruct He as (p & <- & _); discriminate. }
  unfold rangeInvariant; cbn [fst snd].
  split; [|split; [exact Hinit|]].
  - rewrite dampAndNormalize_length; unfold initialProbabilitiesForPlans.
    rewrite length_map; exact Hplans.
  - constructor; [exact Hinit|constructor].
Qed.

(** X6: within the data model, that is, when the verification endpoint
    reports reliabilities in [0,1] and the proposals of the run carry
    confidences in [0,1], in the session of every completed run every
    probability of every recorded snapshot, and the belief probability
    reported for the final plan, lies between 0.02 and 0.94: no plan is ever
    reported as certain or as ruled out.  (Exact arithmetic does not need the
    restriction; the code does: on doubles a weight of 0 times an infinite
    reliability is NaN, which [clampWeight] keeps.) *)
Theorem session_probabilities_stay_inside :
  forall (env : Env) (baseTime : Z) (scenario : option string)
         (options : RunOptions) (session : DebateSession),
    out_result (runDebate env baseTime scenario options) = Ok session ->
    (forall request result,
        callMcpTool env request = Ok result ->
        0 <= r_reliability result /\ r_reliability result <= 1) ->
    (forall proposal,
        In proposal (s_proposals session) ->
        0 <= p_confidence proposal /\ p_confidence proposal <= 1) ->
    (forall snapshot e,
        In snapshot (s_probabilities session) ->
        In e (snap_entries snapshot) ->
        ratio 2 100 <= probability e /\ probability e <= ratio 94 100) /\
    ratio 2 100 <= s_beliefProbability session /\
    s_beliefProbability session <= ratio 94 100.
Proof.
  intros env baseTime scenario options session Hrun _ _.
  destruct (runDebate_completed _ _ _ _ _ Hrun) as (v & w & _ & _ & -> & _).
  cbn [assembleSession s_probabilities s_beliefProbability].
  set (proposals := fst (collectProposals _ _ _ _ _)).
  set (belief := beliefPhase _ _ _ _ _ _).
  assert (Hinv : rangeInvariant belief)
    by (apply beliefPhase_range; reflexivity).
  destruct Hinv as (Hlen & Hrange & Hall).
  split.
  - intros snapshot e Hs He.
    rewrite Forall_forall in Hall; exact (Hall snapshot Hs e He).
  - destruct (find _ (fst belief)) as [entry|] eqn:Hfind.
    + apply find_some in Hfind; destruct Hfind as [Hin _].
      exact (Hrange entry Hin).
    + exfalso.
      destruct (fst belief) as [|x l] eqn:Hfst; [discriminate|].
      assert (Hne : x :: l <> []) by discriminate.
      destruct (pickFinalPlanId_firstMax (x :: l) Hne)
        as (i & leader & (Hnth & _) & Hpick).
      apply nth_error_In in Hnth.
      apply (find_none _ _ Hfind) in Hnth.
      rewrite Hpick, String.eqb_refl in Hnth; discriminate.
Qed.

Lemma session_probabilities_stay_inside_witness :
  exists session,
    out_result (runDebate (worldTool hostPassing) 0 (Some "Fix failing test")
                          (mkOptions None None)) = Ok session /\
    s_adapter session = "mcp" /\
    ratio 2 100 <= s_beliefProbability session /\
    s_beliefProbability session <= ratio 94 100.
Proof.
  destruct (out_result (runDebate (worldTool hostPassing) 0
                                  (Some "Fix failing test") (mkOptions None None)))
    as [session|message] eqn:Hrun; [|vm_compute in Hrun; discriminate].
  exists session; split; [reflexivity|].
  split; [vm_compute in Hrun; injection Hrun as <-; reflexivity|].
  apply (session_probabilities_stay_inside _ _ _ _ _ Hrun).
  - intros request result Hcall.
    destruct (toolEndpoint_result _ _ _ _ Hcall)
      as (input & output & _ & Hout & _ & -> & _).
    destruct (verify_plan_reliability _ _ _ Hout)
      as [[_ ->]|[[_ ->]|[_ ->]]]; split; vm_compute; discriminate.
  - vm_compute in Hrun; injection Hrun as <-.
    intros proposal Hin; cbn [s_proposals] in Hin.
    repeat (destruct Hin as [<-|Hin]; [split; vm_compute; discriminate|]).
    destruct Hin.
Defined.

(** ** The final plan *)

Lemma finalRevision_last (baseTime : Z) (weights : DebateWeights)
      (runVerification : bool) (verification : VerificationResult)
      (proposals : list Proposal)
      (state : list ProbabilityEntry * list ProbabilitySnapshot) :
  proposals <> [] ->
  exists s,
    snd (finalRevision baseTime weights runVerification verification proposals state)
    = (snd state ++ [s])%list /\
    snap_timestamp s = toTimestamp baseTime 16 /\
    snap_entries s
    = fst (finalRevision baseTime weights runVerification verification proposals
                         state).
Proof.
  intros Hne; destruct state as [current probabilities]; unfold finalRevision.
  destruct runVerification; [|destruct proposals; [congruence|]];
    cbv zeta; cbn [fst snd]; unfold push; eexists; repeat split.
Qed.

Lemma find_by_planId (l : list ProbabilityEntry) (i : nat) (e : ProbabilityEntry) :
  NoDup (map planId l) -> nth_error l i = Some e ->
  find (fun x => String.eqb (planId x) (planId e)) l = Some e.
Proof.
  revert i; induction l as [|x l IH]; intros i Hnd Hnth;
    [destruct i; discriminate|].
  cbn [map] in Hnd; inversion Hnd as [|? ? Hx Hnd']; subst.
  destruct i as [|i]; cbn in Hnth.
  - injection Hnth as ->; cbn [find]; rewrite String.eqb_refl; reflexivity.
  - cbn [find]; destruct (String.eqb (planId x) (planId e)) eqn:E.
    + exfalso; apply Hx; apply String.eqb_eq in E; rewrite E.
      apply in_map; eapply nth_error_In; exact Hnth.
    + eapply IH; [exact Hnd'|exact Hnth].
Qed.

Lemma varianceOf_thresholds (p : Qc) :
  (varianceOf p = VarLow <-> ratio 66 100 <= p) /\
  (varianceOf p = VarMedium <-> ratio 5 10 <= p /\ p < ratio 66 100) /\
  (varianceOf p = VarHigh <-> p < ratio 5 10).
Proof.
  unfold varianceOf.
  destruct (Qle_bool (this (ratio 66 100)) (this p)) eqn:E1.
  - apply Qle_bool_Qcle in E1.
    assert (ratio 5 10 <= p)
      by (apply Qcle_trans with (ratio 66 100); [discriminate|exact E1]).
    repeat split; try discriminate; try tauto; intros; exfalso.
    + destruct H0 as [_ H0]; revert H0; apply Qcle_not_lt; exact E1.
    + revert H0; apply Qcle_not_lt; exact H.
  - apply Qle_bool_false_Qclt in E1.
    destruct (Qle_bool (this (ratio 5 10)) (this p)) eqn:E2.
    + apply Qle_bool_Qcle in E2.
      repeat split; try discriminate; try tauto; intros; exfalso.
      * revert E1; apply Qcle_not_lt; exact H.
      * revert H; apply Qcle_not_lt; exact E2.
    + apply Qle_bool_false_Qclt in E2.
      repeat split; try discriminate; try tauto; intros; exfalso.
      * revert E1; apply Qcle_not_lt; exact H.
      * destruct H as [H _]; revert E2; apply Qcle_not_lt; exact H.
Qed.

(** X7: in the session of every completed run the last snapshot, recorded at
    run-start + 16 minutes, holds the final belief state; the final plan is
    the first plan of maximal probability in it (one of the four plans), the
    belief probability is that maximum, the variance is low from 0.66,
    medium from 0.5 and high below, and the winning agent is the role whose
    plan won. *)
Theorem final_plan_leads_last_snapshot :
  forall (env : Env) (baseTime : Z) (scenario : option string)
         (options : RunOptions) (session : DebateSession),
    out_result (runDebate env baseTime scenario options) = Ok session ->
    exists before last i leader role,
      s_probabilities session = (before ++ [last])%list /\
      snap_timestamp last = toTimestamp baseTime 16 /\
      firstMaxAt probability (snap_entries last) i leader /\
      s_finalPlanId session = planId leader /\
      In (s_finalPlanId session) (map plan_id (s_plans session)) /\
      s_beliefProbability session = probability leader /\
      s_beliefVariance session = varianceOf (probability leader) /\
      (s_beliefVariance session = VarLow <-> ratio 66 100 <= probability leader) /\
      (s_beliefVariance session = VarHigh <-> probability leader < ratio 5 10) /\
      s_winningAgent session = Some role /\
      proposalPlanMap role = Some (s_finalPlanId session).
Proof.
  intros env baseTime scenario options session Hrun.
  destruct (runDebate_completed _ _ _ _ _ Hrun) as (v & w & Hne & _ & -> & _).
  cbn [assembleSession s_probabilities s_beliefProbability s_finalPlanId s_plans
       s_beliefVariance s_winningAgent].
  set (proposals := fst (collectProposals _ _ _ _ _)) in *.
  set (plans := plansFromProposals proposals).
  set (weights := resolveWeights _).
  set (runVerification := decideRunVerification _ _).
  assert (Hplans : plans <> []) by discriminate.
  assert (Hinv := beliefPhase_invariant baseTime weights runVerification v
                    proposals plans Hplans).
  destruct Hinv as (_ & Hids & _).
  unfold beliefPhase in *; cbv zeta in *.
  set (start := agentRevisions baseTime weights proposals _) in *.
  destruct (finalRevision_last baseTime weights runVerification v proposals start Hne)
    as (last & Hsnd & Hts & Hentries).
  set (final := finalRevision baseTime weights runVerification v proposals start) in *.
  assert (Hcur : fst final <> []) by (intros H; rewrite H in Hids; discriminate).
  destruct (pickFinalPlanId_firstMax (fst final) Hcur)
    as (i & leader & Hmax & Hpick).
  assert (Hin : In (planId leader) (map plan_id plans)).
  { rewrite <- Hids; apply in_map; destruct Hmax as (Hnth & _).
    eapply nth_error_In; exact Hnth. }
  assert (Hfind : find (fun entry => String.eqb (planId entry) (planId leader))
                       (fst final) = Some leader).
  { destruct Hmax as (Hnth & _); eapply find_by_planId; [|exact Hnth].
    rewrite Hids; unfold plans; rewrite plansFromProposals_ids.
    repeat constructor; cbn; intuition discriminate. }
  assert (Hrole : exists role,
             find (fun role =>
                     match proposalPlanMap role with
                     | Some id => String.eqb id (planId leader)
                     | None => false
                     end) proposalOrder = Some role /\
             proposalPlanMap role = Some (planId leader)).
  { unfold plans in Hin; rewrite plansFromProposals_ids in Hin; cbn in Hin.
    destruct Hin as [<-|[<-|[<-|[<-|[]]]]];
      [exists planner|exists skeptic|exists security|exists cost];
      split; reflexivity. }
  destruct Hrole as (role & Hrole & Hmap).
  exists (snd start), last, i, leader, role.
  rewrite Hpick, Hfind, Hentries.
  destruct (varianceOf_thresholds (probability leader)) as (Hlow & _ & Hhigh).
  split; [exact Hsnd|]; split; [exact Hts|]; split; [exact Hmax|].
  split; [reflexivity|]; split; [exact Hin|].
  split; [reflexivity|]; split; [reflexivity|].
  split; [exact Hlow|]; split; [exact Hhigh|].
  split; [exact Hrole|exact Hmap].
Qed.

Lemma final_plan_leads_last_snapshot_witness :
  exists session,
    out_result (runDebate (worldTool hostPassing) 0 (Some "Fix failing test")
                          (mkOptions None None)) = Ok session /\
    In (s_finalPlanId session) (map plan_id (s_plans session)).
Proof.
  destruct (out_result (runDebate (worldTool hostPassing) 0
                                  (Some "Fix failing test") (mkOptions None None)))
    as [session|message] eqn:Hrun; [|vm_compute in Hrun; discriminate].
  exists session; split; [reflexivity|].
  destruct (final_plan_leads_last_snapshot _ _ _ _ _ Hrun)
    as (before & last & i & leader & role & _ & _ & _ & _ & Hin & _).
  exact Hin.
Defined.

(** ** When verification runs, and the warning that says so *)

Lemma addsOtherWarnings_refl (l : list string) : addsOtherWarnings l l.
Proof. exists []; split; [symmetry; apply app_nil_r|constructor]. Qed.

Lemma addsOtherWarnings_push (l : list string) (text : string) :
  otherWarning text -> addsOtherWarnings l (push l text).
Proof. intros H; exists [text]; split; [reflexivity|repeat constructor; exact H]. Qed.

Lemma addsOtherWarnings_trans (a b c : list string) :
  addsOtherWarnings a b -> addsOtherWarnings b c -> addsOtherWarnings a c.
Proof.
  intros (x & -> & Hx) (y & -> & Hy); exists (x ++ y)%list; split.
  - symmetry; apply app_assoc.
  - apply Forall_app; split; assumption.
Qed.

Lemma classifyPhase_warnings (env : Env) (text : string) (given : list string) :
  addsOtherWarnings given (snd (classifyPhase env text given)).
Proof.
  unfold classifyPhase; destruct (classifyPrompt env text); cbn [snd].
  - apply addsOtherWarnings_refl.
  - apply addsOtherWarnings_push; unfold otherWarning; cbn; discriminate.
Qed.

Lemma collectProposals_warnings (env : Env) (text : string)
      (weights : DebateWeights) (category : string) (given : list string) :
  addsOtherWarnings given (snd (collectProposals env text weights category given)).
Proof.
  unfold collectProposals.
  generalize (@nil Proposal); generalize agents; intros roster.
  revert given; induction roster as [|agent roster IH]; intros given collected;
    [apply addsOtherWarnings_refl|].
  cbn [fold_left].
  destruct (AgentRole_eqb (agent_role agent) synthesizer); [apply IH|].
  destruct (generateAgentProposal env agent text weights category); [apply IH|].
  eapply addsOtherWarnings_trans; [|apply IH].
  apply addsOtherWarnings_push; unfold otherWarning; cbn; discriminate.
Qed.

Lemma verificationPhase_warnings (env : Env) (baseTime : Z) (codeScenario : bool)
      (proposals : list Proposal) (plans : list DebatePlan)
      (given : list string) (verification : VerificationResult)
      (warnings : list string) :
  verificationPhase env baseTime codeScenario proposals plans given
  = Ok (verification, warnings) ->
  addsOtherWarnings given warnings.
Proof.
  rewrite verificationPhase_unfold.
  destruct (tryVerification env baseTime codeScenario proposals plans).
  - intros H; injection H as _ <-; apply addsOtherWarnings_refl.
  - destruct (mockRunVerification _ _); [|discriminate].
    intros H; injection H as _ <-.
    apply addsOtherWarnings_push; unfold otherWarning; cbn; discriminate.
Qed.

Lemma finalSolutionPhase_warnings (env : Env) (text : string)
      (proposals : list Proposal) (evidence : option EvidenceForAgents)
      (given : list string) :
  addsOtherWarnings given
    (snd (finalSolutionPhase env text proposals evidence given)).
Proof.
  unfold finalSolutionPhase; destruct proposals; [apply addsOtherWarnings_refl|].
  destruct (generateFinalSolution env text _ evidence); cbn [snd].
  - apply addsOtherWarnings_refl.
  - apply addsOtherWarnings_push; unfold otherWarning; cbn; discriminate.
Qed.

Lemma finalResponsePhase_warnings (env : Env) (text category : string)
      (solution : option FinalSolution) (proposals : list Proposal)
      (evidence : option EvidenceForAgents) (codeScenario : bool)
      (given : list string) :
  addsOtherWarnings given
    (snd (finalResponsePhase env text category solution proposals evidence
                             codeScenario given)).
Proof.
  unfold finalResponsePhase; destruct solution; destruct proposals;
    try apply addsOtherWarnings_refl.
  destruct (generateFinalResponse _ _ _ _ _ _ _); cbn [snd].
  - apply addsOtherWarnings_refl.
  - apply addsOtherWarnings_push; unfold otherWarning; cbn; discriminate.
Qed.

Lemma decideRunVerification_is_codeScenario (codeScenario requested : bool) :
  decideRunVerification codeScenario requested = codeScenario.
Proof. destruct codeScenario, requested; reflexivity. Qed.

Lemma in_otherWarnings (l : list string) :
  Forall otherWarning l -> ~ In AUTO_ENABLED_WARNING l.
Proof.
  intros Hall Hin; rewrite Forall_forall in Hall.
  apply (Hall _ Hin); reflexivity.
Qed.

(** X8: whether verification runs is decided by the scenario alone: in every
    completed run the session's [runVerification] equals its [codeScenario],
    whatever the caller asked for; and the warning that verification was
    auto-enabled is in the session's warning list exactly when the scenario is
    code-related and the caller passed [runVerification: false]. *)
Theorem verification_follows_scenario :
  forall (env : Env) (baseTime : Z) (scenario : option string)
         (options : RunOptions) (session : DebateSession),
    out_result (runDebate env baseTime scenario options) = Ok session ->
    s_codeScenario session = isCodeScenario (orElse scenario defaultScenario) /\
    s_runVerification session = s_codeScenario session /\
    (In AUTO_ENABLED_WARNING (s_generationWarnings session) <->
     s_codeScenario session = true /\ opt_runVerification options = Some false).
Proof.
  intros env baseTime scenario options session Hrun.
  destruct (runDebate_completed _ _ _ _ _ Hrun) as (v & w & _ & Hphase & -> & _).
  cbn [assembleSession s_codeScenario s_runVerification s_generationWarnings].
  rewrite decideRunVerification_is_codeScenario in *.
  set (text := orElse scenario defaultScenario) in *.
  set (code := isCodeScenario text) in *.
  set (requested := orElse (opt_runVerification options) true) in *.
  split; [reflexivity|]; split; [reflexivity|].
  set (classified := classifyPhase env text []) in *.
  set (overridden := overrideWarningPhase code requested (snd classified)) in *.
  set (collected := collectProposals env text _ (fst classified) overridden) in *.
  assert (H1 : addsOtherWarnings [] (snd classified))
    by apply classifyPhase_warnings.
  assert (H2 : addsOtherWarnings overridden (snd collected))
    by apply collectProposals_warnings.
  assert (H3 : addsOtherWarnings (snd collected) w).
  { destruct code.
    - eapply verificationPhase_warnings; exact Hphase.
    - injection Hphase as _ <-; apply addsOtherWarnings_refl. }
  match goal with
  | |- In _ (snd (finalResponsePhase ?e ?t ?c ?s ?p ?ev ?cs (snd ?g))) <-> _ =>
      assert (H4 : addsOtherWarnings w (snd g))
        by apply finalSolutionPhase_warnings;
      assert (H5 : addsOtherWarnings (snd g)
                     (snd (finalResponsePhase e t c s p ev cs (snd g))))
        by apply finalResponsePhase_warnings;
      generalize dependent (snd (finalResponsePhase e t c s p ev cs (snd g)));
      generalize dependent (snd g)
  end.
  intros afterSolution H4 final H5.
  assert (Htail : addsOtherWarnings overridden final)
    by (eapply addsOtherWarnings_trans; [exact H2|];
        eapply addsOtherWarnings_trans; [exact H3|];
        eapply addsOtherWarnings_trans; [exact H4|exact H5]).
  destruct H1 as (first & Hfirst & Hfirst'); cbn [app] in Hfirst.
  destruct Htail as (rest & -> & Hrest).
  unfold overridden, overrideWarningPhase, push; rewrite Hfirst.
  assert (Hrequested : requested = false <-> opt_runVerification options = Some false).
  { unfold requested; destruct (opt_runVerification options) as [[|]|]; cbn;
      split; intros H; congruence. }
  destruct code; cbn [andb].
  - destruct requested; cbn [negb]; split.
    + intros Hin; exfalso; apply in_app_or in Hin; destruct Hin as [Hin|Hin];
        [exact (in_otherWarnings _ Hfirst' Hin)|exact (in_otherWarnings _ Hrest Hin)].
    + intros [_ H]; apply Hrequested in H; discriminate.
    + intros _; split; [reflexivity|apply Hrequested; reflexivity].
    + intros _; apply in_or_app; left; apply in_or_app; right; left; reflexivity.
  - split; [|intros [H _]; discriminate].
    intros Hin; exfalso; apply in_app_or in Hin; destruct Hin as [Hin|Hin];
      [exact (in_otherWarnings _ Hfirst' Hin)|exact (in_otherWarnings _ Hrest Hin)].
Qed.

Lemma verification_follows_scenario_witness :
  exists session,
    out_result (runDebate worldUnreachable 0 (Some "Fix failing test")
                          (mkOptions None (Some false))) = Ok session /\
    s_runVerification session = true /\
    In AUTO_ENABLED_WARNING (s_generationWarnings session).
Proof.
  destruct (out_result (runDebate worldUnreachable 0 (Some "Fix failing test")
                                  (mkOptions None (Some false))))
    as [session|message] eqn:Hrun; [|vm_compute in Hrun; discriminate].
  destruct (verification_follows_scenario _ _ _ _ _ Hrun) as (Hcode & Hver & Hwarn).
  assert (Hc : s_codeScenario session = true) by (rewrite Hcode; reflexivity).
  exists session; split; [reflexivity|]; split; [congruence|].
  apply Hwarn; split; [exact Hc|reflexivity].
Defined.

(** ** Proposals and plans follow the roster *)

Ltac split_calls env text weights category :=
  destruct (generateAgentProposal env
              (mkAgent "agent-planner" "Planner" planner
                       "Propose concrete recovery plans for the scenario.")
              text weights category) as [d1|m1] eqn:E1;
  destruct (generateAgentProposal env
              (mkAgent "agent-skeptic" "Skeptic" skeptic
                       "Challenge assumptions and stress-test plans.")
              text weights category) as [d2|m2] eqn:E2;
  destruct (generateAgentProposal env
              (mkAgent "agent-security" "Security" security
                       "Identify security risks and validation gaps.")
              text weights category) as [d3|m3] eqn:E3;
  destruct (generateAgentProposal env
              (mkAgent "agent-cost" "Cost" cost
                       "Estimate effort and operational impact.")
              text weights category) as [d4|m4] eqn:E4.

(** What [collectProposals] holds for each agent it asked. *)
Lemma collectProposals_per_agent (env : Env) (text : string)
      (weights : DebateWeights) (category : string) (given : list string)
      (agent : DebateAgent) :
  In agent proposers ->
  let collected := collectProposals env text weights category given in
  match generateAgentProposal env agent text weights category with
  | Ok draft =>
      findProposal (fst collected) (agent_role agent)
      = Some (proposalOf (agent_role agent) draft)
  | Err message =>
      findProposal (fst collected) (agent_role agent) = None /\
      In ("[" ++ roleName (agent_role agent) ++ "] Proposal generation failed. "
              ++ message)
         (snd collected)
  end.
Proof.
  intros Hin collected; unfold collected, collectProposals, agents.
  cbn [fold_left agent_role AgentRole_eqb].
  cbn in Hin; destruct Hin as [<-|[<-|[<-|[<-|[]]]]];
    split_calls env text weights category;
    cbn [fst snd push app findProposal find p_agent AgentRole_eqb agent_role
         proposalOf roleName];
    try reflexivity;
    (split; [reflexivity|]);
    repeat (apply in_or_app; first [right; left; reflexivity|left]).
Qed.

(** X9: [collectProposals] asks the four non-synthesizer agents in roster
    order; the proposals it returns are those of the agents whose call
    succeeded, in that order, so there is at most one per role and none for
    the synthesizer; every failed call adds exactly one warning, tagged with
    the role and carrying the error message, after the warnings it was
    given. *)
Theorem collectProposals_follows_roster :
  forall (env : Env) (text : string) (weights : DebateWeights)
         (category : string) (given : list string),
    let collected := collectProposals env text weights category given in
    let call agent := generateAgentProposal env agent text weights category in
    map p_agent (fst collected)
    = map agent_role (filter (fun agent => isOk (call agent)) proposers) /\
    NoDup (map p_agent (fst collected)) /\
    ~ In synthesizer (map p_agent (fst collected)) /\
    snd collected
    = (given ++
       flat_map (fun agent =>
                   match call agent with
                   | Ok _ => []
                   | Err message => [failureWarning (agent_role agent) message]
                   end)
                proposers)%list /\
    (List.length (fst collected)
     + (List.length (snd collected) - List.length given) = 4)%nat /\
    (forall agent draft,
        In agent proposers -> call agent = Ok draft ->
        findProposal (fst collected) (agent_role agent)
        = Some (proposalOf (agent_role agent) draft)) /\
    (forall agent message,
        In agent proposers -> call agent = Err message ->
        findProposal (fst collected) (agent_role agent) = None).
Proof.
  intros env text weights category given collected call.
  assert (Hshape :
            map p_agent (fst collected)
            = map agent_role (filter (fun agent => isOk (call agent)) proposers) /\
            snd collected
            = (given ++
               flat_map (fun agent =>
                           match call agent with
                           | Ok _ => []
                           | Err message =>
                               [failureWarning (agent_role agent) message]
                           end)
                        proposers)%list).
  { unfold collected, call, collectProposals, proposers, agents.
    cbn [fold_left filter flat_map agent_role AgentRole_eqb negb].
    split_calls env text weights category;
      cbn [fst snd push app map p_agent isOk agent_role];
      unfold failureWarning, push; cbn [roleName];
      rewrite <- ?app_assoc; cbn [app]; rewrite ?app_nil_r; split; reflexivity. }
  destruct Hshape as [Hagents Hwarnings].
  split; [exact Hagents|].
  split.
  { rewrite Hagents; unfold proposers, agents.
    cbn [filter agent_role AgentRole_eqb negb].
    unfold call; split_calls env text weights category; cbn [isOk map agent_role];
      repeat constructor; cbn; intuition discriminate. }
  split.
  { rewrite Hagents; intros Hin; apply in_map_iff in Hin.
    destruct Hin as (agent & Hrole & Hagent); apply filter_In in Hagent.
    destruct Hagent as [Hagent _]; cbn in Hagent.
    destruct Hagent as [<-|[<-|[<-|[<-|[]]]]]; discriminate. }
  split; [exact Hwarnings|].
  split.
  { rewrite Hwarnings, length_app.
    replace (List.length (fst collected))
      with (List.length (map p_agent (fst collected))) by apply length_map.
    rewrite Hagents; unfold proposers, agents, call.
    cbn [filter flat_map agent_role AgentRole_eqb negb].
    split_calls env text weights category; cbn; lia. }
  split.
  - intros agent draft Hin Hcall.
    assert (H := collectProposals_per_agent env text weights category given agent Hin).
    cbv zeta in H; unfold call in Hcall; rewrite Hcall in H; exact H.
  - intros agent message Hin Hcall.
    assert (H := collectProposals_per_agent env text weights category given agent Hin).
    cbv zeta in H; unfold call in Hcall; rewrite Hcall in H; apply H.
Qed.

Lemma collectProposals_follows_roster_witness :
  fst (collectProposals worldNoProposals "Fix failing test" defaultWeights
                        "coding" ["earlier"])
  = [] /\
  List.length (snd (collectProposals worldNoProposals "Fix failing test"
                                     defaultWeights "coding" ["earlier"]))
  = 5%nat.
Proof.
  destruct (collectProposals_follows_roster worldNoProposals "Fix failing test"
              defaultWeights "coding" ["earlier"])
    as (Hagents & _ & _ & Hwarnings & _).
  split.
  - cbv zeta in Hagents.
    change (map agent_role _) with (@nil AgentRole) in Hagents.
    destruct (fst (collectProposals _ _ _ _ _)); [reflexivity|discriminate].
  - cbv zeta in Hwarnings; rewrite Hwarnings; reflexivity.
Defined.

(** X10: in the session of every completed run each of the four proposing
    agents has its plan slot (planner plan-a, skeptic plan-b, security plan-c,
    cost plan-d): when the agent's proposal call succeeded the plan carries
    the proposal text as summary and the rationale as steps (the three
    placeholder steps when the rationale is empty); when it failed the slot
    is the placeholder plan "No proposal available.". *)
Theorem plan_slots_follow_proposals :
  forall (env : Env) (baseTime : Z) (scenario : option string)
         (options : RunOptions) (session : DebateSession),
    out_result (runDebate env baseTime scenario options) = Ok session ->
    forall agent,
      In agent proposers ->
      exists id plan,
        proposalPlanMap (agent_role agent) = Some id /\
        find (fun p => String.eqb (plan_id p) id) (s_plans session) = Some plan /\
        plan_risks plan = ["Requires validation against real-world constraints."] /\
        match generateAgentProposal env agent (s_scenario session)
                                    (s_weights session) (s_promptCategory session)
        with
        | Ok draft =>
            plan_title plan = roleName (agent_role agent) ++ " proposal" /\
            plan_summary plan = d_proposal draft /\
            plan_steps plan
            = match d_rationale draft with
              | [] => placeholderSteps
              | _ => d_rationale draft
              end
        | Err _ =>
            In (plan_title plan) ["Plan 1"; "Plan 2"; "Plan 3"; "Plan 4"] /\
            plan_summary plan = "No proposal available." /\
            plan_steps plan = placeholderSteps
        end.
Proof.
  intros env baseTime scenario options session Hrun agent Hagent.
  destruct (runDebate_completed _ _ _ _ _ Hrun) as (v & w & _ & _ & -> & _).
  cbn [assembleSession s_plans s_scenario s_weights s_promptCategory].
  set (text := orElse scenario defaultScenario).
  set (weights := resolveWeights _).
  set (category := fst (classifyPhase env text [])).
  set (given := overrideWarningPhase _ _ _).
  assert (Hfind := collectProposals_per_agent env text weights category given
                                              agent Hagent).
  cbv zeta in Hfind.
  set (proposals := fst (collectProposals env text weights category given)) in *.
  unfold plansFromProposals, proposalOrder;
    cbn [mapi mapiFrom].
  cbn in Hagent; destruct Hagent as [<-|[<-|[<-|[<-|[]]]]];
    cbn [agent_role proposalPlanMap] in *;
    eexists _, _; (split; [reflexivity|]);
    (split; [cbn [find plan_id]; reflexivity|]);
    (split; [reflexivity|]);
    cbn [plan_title plan_summary plan_steps];
    destruct (generateAgentProposal env _ text weights category) as [draft|message];
    match type of Hfind with
    | _ /\ _ => destruct Hfind as [Hslot _]
    | _ => pose proof Hfind as Hslot
    end;
    rewrite Hslot;
    cbn [proposalOf p_proposal p_rationale roleName];
    repeat split; try reflexivity; cbn; auto.
Qed.

Lemma plan_slots_follow_proposals_witness :
  exists session plan,
    out_result (runDebate worldUnreachable 0 (Some "Fix failing test")
                          (mkOptions None None)) = Ok session /\
    find (fun p => String.eqb (plan_id p) "plan-b") (s_plans session) = Some plan /\
    plan_summary plan = "Patch the role mapper.".
Proof.
  destruct (out_result (runDebate worldUnreachable 0 (Some "Fix failing test")
                                  (mkOptions None None)))
    as [session|message] eqn:Hrun; [|vm_compute in Hrun; discriminate].
  assert (Hagent : In (mkAgent "agent-skeptic" "Skeptic" skeptic
                               "Challenge assumptions and stress-test plans.")
                      proposers)
    by (right; left; reflexivity).
  destruct (plan_slots_follow_proposals _ _ _ _ _ Hrun _ Hagent)
    as (id & plan & Hid & Hfind & _ & Hcall).
  cbn in Hid; injection Hid as <-.
  cbn in Hcall; destruct Hcall as (_ & Hsummary & _).
  exists session, plan; split; [reflexivity|]; split; [exact Hfind|exact Hsummary].
Defined.

(** ** Truncation and trimming *)

Lemma string_length_append (a b : string) :
  String.length (a ++ b) = (String.length a + String.length b)%nat.
Proof. induction a as [|c a IH]; cbn; [reflexivity|rewrite IH; reflexivity]. Qed.

Lemma sliceTo_length (value : string) (max : nat) :
  String.length (sliceTo value max) = Nat.min max (String.length value).
Proof.
  unfold sliceTo; revert max; induction value as [|c s IH]; intros [|max];
    cbn; try reflexivity.
  rewrite IH; reflexivity.
Qed.

Lemma sliceTo_append (head tail : string) (max : nat) :
  (max <= String.length head)%nat ->
  sliceTo (head ++ tail) max = sliceTo head max.
Proof.
  unfold sliceTo; revert max; induction head as [|c s IH]; intros [|max] Hle;
    cbn in *; try reflexivity; try lia.
  - destruct tail; reflexivity.
  - rewrite IH by lia; reflexivity.
Qed.

Lemma sliceTo_sliceTo (value : string) (max : nat) :
  sliceTo (sliceTo value max) max = sliceTo value max.
Proof.
  unfold sliceTo; revert max; induction value as [|c s IH]; intros [|max];
    cbn; try reflexivity.
  rewrite IH; reflexivity.
Qed.

Lemma truncate_long (value : string) (max : nat) :
  (max < String.length value)%nat ->
  truncate value max = sliceTo value max ++ "...".
Proof.
  intros H; unfold truncate; apply Nat.ltb_lt in H; rewrite H; reflexivity.
Qed.

Lemma truncate_short (value : string) (max : nat) :
  (String.length value <= max)%nat -> truncate value max = value.
Proof.
  intros H; unfold truncate.
  destruct (max <? String.length value)%nat eqn:E; [|reflexivity].
  apply Nat.ltb_lt in E; lia.
Qed.

Lemma truncate_idempotent (value : string) (max : nat) :
  truncate (truncate value max) max = truncate value max.
Proof.
  destruct (Nat.lt_ge_cases max (String.length value)) as [Hlong|Hshort].
  - rewrite (truncate_long value max Hlong).
    assert (Hlen : String.length (sliceTo value max) = max)
      by (rewrite sliceTo_length; lia).
    rewrite truncate_long
      by (rewrite string_length_append, Hlen; cbn; lia).
    rewrite sliceTo_append by lia.
    rewrite sliceTo_sliceTo; reflexivity.
  - rewrite (truncate_short value max Hshort).
    apply truncate_short; exact Hshort.
Qed.

(** X11: [truncate] returns a text of at most max + 3 characters: the text
    itself when it has at most max characters, otherwise its first max
    characters followed by "..."; truncating twice changes nothing more.
    [trimSession] therefore is idempotent, keeps the number of warnings and of
    evidence entries, leaves every stored warning and evidence detail at most
    1003 characters long, and touches nothing else (plans, snapshots, final
    plan). *)
Theorem trimSession_bounds_and_idempotent :
  (forall (value : string) (max : nat),
      (String.length (truncate value max) <= max + 3)%nat /\
      ((String.length value <= max)%nat -> truncate value max = value) /\
      ((max < String.length value)%nat ->
       truncate value max = sliceTo value max ++ "..." /\
       String.length (truncate value max) = (max + 3)%nat) /\
      sliceTo (truncate value max) max = sliceTo value max /\
      truncate (truncate value max) max = truncate value max) /\
  (forall session : DebateSession,
      trimSession (trimSession session) = trimSession session /\
      List.length (s_generationWarnings (trimSession session))
      = List.length (s_generationWarnings session) /\
      map e_id (s_evidenceLedger (trimSession session))
      = map e_id (s_evidenceLedger session) /\
      (forall text, In text (s_generationWarnings (trimSession session)) ->
                    (String.length text <= 1003)%nat) /\
      (forall entry, In entry (s_evidenceLedger (trimSession session)) ->
                     (String.length (e_details entry) <= 1003)%nat) /\
      s_plans (trimSession session) = s_plans session /\
      s_probabilities (trimSession session) = s_probabilities session /\
      s_finalPlanId (trimSession session) = s_finalPlanId session).
Proof.
  assert (Hbound : forall value max,
             (String.length (truncate value max) <= max + 3)%nat).
  { intros value max.
    destruct (Nat.lt_ge_cases max (String.length value)) as [Hlong|Hshort].
    - rewrite (truncate_long value max Hlong), string_length_append, sliceTo_length.
      cbn; lia.
    - rewrite (truncate_short value max Hshort); lia. }
  split.
  - intros value max.
    split; [apply Hbound|].
    split; [apply truncate_short|].
    split.
    + intros Hlong; split; [apply truncate_long; exact Hlong|].
      rewrite (truncate_long value max Hlong), string_length_append, sliceTo_length.
      cbn; lia.
    + split; [|apply truncate_idempotent].
      destruct (Nat.lt_ge_cases max (String.length value)) as [Hlong|Hshort].
      * rewrite (truncate_long value max Hlong).
        rewrite sliceTo_append by (rewrite sliceTo_length; lia).
        apply sliceTo_sliceTo.
      * rewrite (truncate_short value max Hshort); reflexivity.
  - intros session.
    split.
    { unfold trimSession; cbn [s_id s_scenario s_createdAt s_agents s_plans
        s_probabilities s_evidenceLedger s_timeline s_finalPlanId s_adapter
        s_weights s_runVerification s_model s_promptVersion s_generationWarnings
        s_proposals s_finalSolution s_promptCategory s_winningAgent s_codeScenario
        s_daytonaOutput s_beliefProbability s_beliefVariance s_actionResponse].
      rewrite !map_map; f_equal.
      - apply map_ext; intros entry.
        cbn [e_id e_planId e_agent e_type e_summary e_details e_reliability
             e_timestamp].
        rewrite truncate_idempotent; reflexivity.
      - apply map_ext; intros text; apply truncate_idempotent. }
    split; [apply length_map|].
    split; [cbn [trimSession s_evidenceLedger]; rewrite map_map; reflexivity|].
    split.
    { intros text Hin; cbn [trimSession s_generationWarnings] in Hin.
      apply in_map_iff in Hin; destruct Hin as (x & <- & _); apply Hbound. }
    split.
    { intros entry Hin; cbn [trimSession s_evidenceLedger] in Hin.
      apply in_map_iff in Hin; destruct Hin as (x & <- & _).
      cbn [e_details]; apply Hbound. }
    repeat split.
Qed.

Lemma trimSession_bounds_and_idempotent_witness :
  truncate "verification log" 5 = "verif..." /\
  truncate (truncate "verification log" 5) 5 = "verif...".
Proof.
  destruct trimSession_bounds_and_idempotent as [Htruncate _].
  destruct (Htruncate "verification log" 5%nat) as (_ & _ & Hlong & _ & Hidem).
  destruct (Hlong ltac:(cbn; lia)) as [Hvalue _].
  split; [rewrite Hvalue; reflexivity|rewrite Hidem, Hvalue; reflexivity].
Defined.

(** ** The latest session *)

(** X12: [handleLatest] answers 404 when the session file is missing, corrupt
    or empty, and otherwise 200 with the first stored session.  Right after a
    request that [handleRun] answered with a session, [handleLatest] returns
    that session in its trimmed form and the file holds at most 25 sessions;
    after a request that [handleRun] answered with an error the file, and so
    the answer of [handleLatest], is what it was before. *)
Theorem handleLatest_after_handleRun :
  handleLatest FileMissing = mkResponse 404 (ErrorPayload "No sessions available.") /\
  handleLatest FileCorrupt = mkResponse 404 (ErrorPayload "No sessions available.") /\
  handleLatest (FileSessions [])
  = mkResponse 404 (ErrorPayload "No sessions available.") /\
  (forall latest rest,
      handleLatest (FileSessions (latest :: rest))
      = mkResponse 200 (SessionPayload latest)) /\
  (forall (env : Env) (baseTime : Z) (file : DataFile) (raw : RequestBody),
      let handled := handleRun env baseTime file raw in
      match res_payload (h_response handled) with
      | SessionPayload session =>
          res_status (h_response handled) = 200%Z /\
          handleLatest (h_file handled)
          = mkResponse 200 (SessionPayload (trimSession session)) /\
          (List.length (readSessions (h_file handled)) <= 25)%nat /\
          readSessions (h_file handled)
          = firstn 25 (trimSession session :: readSessions file)
      | ErrorPayload _ =>
          res_status (h_response handled) = 400%Z /\
          h_file handled = file
      end).
Proof.
  repeat split; try reflexivity.
  intros env baseTime file raw handled; unfold handled, handleRun.
  destruct raw as [| |request]; try (split; reflexivity);
    destruct (out_result _) as [session|message];
    cbn [h_response h_file res_payload res_status];
    try (split; reflexivity);
    (split; [reflexivity|]); (split; [reflexivity|]);
    (split; [|reflexivity]);
    cbn [writeSessions readSessions]; rewrite length_firstn;
    unfold SESSION_CAP; lia.
Qed.

(** ** The two mock verifiers *)

Lemma selectOutput_unknown (jitter : Z) (plan : DebatePlan) :
  plan_id plan <> "plan-a" -> plan_id plan <> "plan-b" ->
  plan_id plan <> "plan-c" -> plan_id plan <> "plan-d" ->
  selectOutput jitter plan
  = selectOutput jitter (mkPlan "plan-a" "" "" [] []).
Proof.
  intros Ha Hb Hc Hd; unfold selectOutput, outputs; cbn [find mo_planId firstOutput].
  rewrite (String.eqb_sym "plan-a"), (String.eqb_sym "plan-b"),
    (String.eqb_sym "plan-c"), (String.eqb_sym "plan-d").
  apply String.eqb_neq in Ha, Hb, Hc, Hd; rewrite Ha, Hb, Hc, Hd.
  reflexivity.
Qed.

Lemma buildMockLogs_unknown (planId : string) :
  planId <> "plan-a" -> planId <> "plan-b" -> planId <> "plan-c" ->
  planId <> "plan-d" ->
  buildMockLogs planId
  = if inheritedName planId then None else buildMockLogs "plan-a".
Proof.
  intros Ha Hb Hc Hd; unfold buildMockLogs, mockOutputs; cbn [find fst snd].
  rewrite (String.eqb_sym "plan-a"), (String.eqb_sym "plan-b"),
    (String.eqb_sym "plan-c"), (String.eqb_sym "plan-d").
  apply String.eqb_neq in Ha, Hb, Hc, Hd; rewrite Ha, Hb, Hc, Hd.
  unfold inheritedName; destruct (existsb _ _); reflexivity.
Qed.

Lemma inheritedName_not_a_plan (planId : string) :
  inheritedName planId = true ->
  planId <> "plan-a" /\ planId <> "plan-b" /\ planId <> "plan-c" /\
  planId <> "plan-d".
Proof.
  intros H; repeat split; intros ->; vm_compute in H; discriminate.
Qed.


(** In mock mode the tool, once past the key check, answers from the table. *)
Lemma verify_plan_mock (host : ToolHost) (input : VerifyPlanInput)
      (output : VerifyOutput) :
  req_mode (in_args input) = ModeMock ->
  verify_plan host input = Ok output ->
  let passes := mockPasses (req_planId (in_args input)) in
  output
  = mkVerifyOutput (if passes then StatusPass else StatusFail)
      (option_map ml_summary (buildMockLogs (req_planId (in_args input))))
      (option_map ml_logs (buildMockLogs (req_planId (in_args input))))
      (Some (if passes then 0 else 1)%Z) (th_now host) (th_now host)
      (if passes then ratio 9 10 else ratio 75 100).
Proof.
  intros Hmode; unfold verify_plan, mockPasses; cbv zeta.
  destruct (requireApiKey _ _); [|discriminate].
  rewrite Hmode.
  intros H; injection H as <-; reflexivity.
Qed.

(** X13: once past the key check, the mock mode of the [verify_plan] tool
    and the engine's local mock adapter give every plan id the same verdict
    and the same reliability: both pass exactly for "plan-b", with 0.9, and
    fail every other id, with 0.75; the tool reports exit code 0 or 1
    accordingly and never status error or skipped.  For a plan id that is
    not a name inherited from Object.prototype the summaries agree as well
    and the tool returns logs (an id unknown to both is treated as "plan-a").
    For an inherited name ("constructor", "toString", ...) the tool's table
    lookup finds the inherited value: the tool returns neither summary nor
    logs, while the local adapter answers as for "plan-a". *)
Theorem mock_verifiers_agree :
  forall (host : ToolHost) (jitter : Z) (plan : DebatePlan) (sessionId : string)
         (fixturePath command apiKey : option string) (output : VerifyOutput),
    verify_plan host
      (mkVerifyPlanInput
         (mkMcpRequest sessionId (plan_id plan) ModeMock fixturePath command)
         apiKey)
    = Ok output ->
    let local := selectOutput jitter plan in
    isPassStatus (vo_status output) = passed local /\
    (vo_status output = StatusPass \/ vo_status output = StatusFail) /\
    Some (vo_reliability output) = reliability local /\
    vo_reliability output = (if passed local then ratio 9 10 else ratio 75 100) /\
    vo_exitCode output = Some (if passed local then 0 else 1)%Z /\
    (passed local = true <-> plan_id plan = "plan-b") /\
    (inheritedName (plan_id plan) = false ->
     vo_summary output = Some (v_summary local) /\
     exists logs, vo_logs output = Some logs) /\
    (inheritedName (plan_id plan) = true ->
     vo_status output = StatusFail /\
     vo_summary output = None /\ vo_logs output = None /\
     declaredResult output = None /\
     local = selectOutput jitter (mkPlan "plan-a" "" "" [] [])).
Proof.
  intros host jitter plan sessionId fixturePath command apiKey output Hout local.
  apply verify_plan_mock in Hout; [|reflexivity].
  cbn [in_args req_planId] in Hout; cbv zeta in Hout; subst output.
  unfold local, mockPasses.
  destruct (String.eqb_spec (plan_id plan) "plan-a") as [Ha|Ha];
    [destruct plan as [id t s st r]; cbn in Ha; subst id; cbn;
     repeat split; try discriminate; eauto|].
  destruct (String.eqb_spec (plan_id plan) "plan-b") as [Hb|Hb];
    [destruct plan as [id t s st r]; cbn in Hb; subst id; cbn;
     repeat split; try discriminate; eauto|].
  destruct (String.eqb_spec (plan_id plan) "plan-c") as [Hc|Hc];
    [destruct plan as [id t s st r]; cbn in Hc; subst id; cbn;
     repeat split; try discriminate; eauto|].
  destruct (String.eqb_spec (plan_id plan) "plan-d") as [Hd|Hd];
    [destruct plan as [id t s st r]; cbn in Hd; subst id; cbn;
     repeat split; try discriminate; eauto|].
  rewrite (selectOutput_unknown jitter plan Ha Hb Hc Hd),
    (buildMockLogs_unknown (plan_id plan) Ha Hb Hc Hd).
  destruct (inheritedName (plan_id plan)); cbn;
    repeat split; try discriminate; eauto; intros H; congruence.
Qed.

Lemma mock_verifiers_agree_witness :
  exists known inherited,
    verify_plan hostPassing
      (mkVerifyPlanInput (mkMcpRequest "session-0" "plan-b" ModeMock None None) None)
    = Ok known /\
    verify_plan hostPassing
      (mkVerifyPlanInput
         (mkMcpRequest "session-0" "constructor" ModeMock None None) None)
    = Ok inherited /\
    passed (selectOutput 0 (mkPlan "plan-b" "t" "s" [] [])) = true /\
    vo_summary known = Some "All tests passing after role fallback fix." /\
    vo_status inherited = StatusFail /\ vo_summary inherited = None.
Proof.
  destruct (verify_plan hostPassing
              (mkVerifyPlanInput
                 (mkMcpRequest "session-0" "plan-b" ModeMock None None) None))
    as [known|message] eqn:Hknown; [|vm_compute in Hknown; discriminate].
  destruct (verify_plan hostPassing
              (mkVerifyPlanInput
                 (mkMcpRequest "session-0" "constructor" ModeMock None None) None))
    as [inherited|message] eqn:Hinherited;
    [|vm_compute in Hinherited; discriminate].
  exists known, inherited; split; [reflexivity|]; split; [reflexivity|].
  destruct (mock_verifiers_agree hostPassing 0 (mkPlan "plan-b" "t" "s" [] [])
              "session-0" None None None known Hknown)
    as (_ & _ & _ & _ & _ & Hb & Hsummary & _).
  destruct (mock_verifiers_agree hostPassing 0 (mkPlan "constructor" "t" "s" [] [])
              "session-0" None None None inherited Hinherited)
    as (_ & _ & _ & _ & _ & _ & _ & Hq).
  split; [apply Hb; reflexivity|].
  split; [destruct (Hsummary eq_refl) as [-> _]; reflexivity|].
  destruct (Hq eq_refl) as (Hstatus & Hnone & _).
  split; [exact Hstatus|exact Hnone].
Defined.

(** ** What the statuses of [verify_plan] mean *)




(** ** The evidence ledger *)

Lemma map_mapiFrom {A B C : Type} (g : B -> C) (f : A -> nat -> B) (h : A -> C)
      (start : nat) (l : list A) :
  (forall x i, g (f x i) = h x) ->
  map g (mapiFrom f start l) = map h l.
Proof.
  intros H; revert start; induction l as [|x l IH]; intros start; [reflexivity|].
  cbn [mapiFrom map]; rewrite H, IH; reflexivity.
Qed.

Lemma filter_none {A : Type} (f : A -> bool) (l : list A) :
  (forall x, In x l -> f x = false) -> filter f l = [].
Proof.
  induction l as [|x l IH]; intros H; [reflexivity|].
  cbn [filter]; rewrite (H x (or_introl eq_refl)); apply IH.
  intros y Hy; apply H; now right.
Qed.

Lemma filter_all {A : Type} (f : A -> bool) (l : list A) :
  (forall x, In x l -> f x = true) -> filter f l = l.
Proof.
  induction l as [|x l IH]; intros H; [reflexivity|].
  cbn [filter]; rewrite (H x (or_introl eq_refl)), IH; [reflexivity|].
  intros y Hy; apply H; now right.
Qed.

Lemma in_mapiFrom {A B : Type} (f : A -> nat -> B) (start : nat) (l : list A)
      (y : B) :
  In y (mapiFrom f start l) -> exists x i, In x l /\ y = f x i.
Proof.
  revert start; induction l as [|x l IH]; intros start Hin; [contradiction|].
  cbn [mapiFrom] in Hin; destruct Hin as [<-|Hin].
  - exists x, start; split; [now left|reflexivity].
  - destruct (IH _ Hin) as (x' & i & Hx & ->); exists x', i; split; [now right|].
    reflexivity.
Qed.

(** The ledger built when verification ran, with the patch entry. *)
Lemma buildEvidence_shape (baseTime : Z) (verification : VerificationResult)
      (planId : string) (generationWarnings : list string)
      (plans : list DebatePlan) :
  exists plannerEntry securityEntry warningEntries testEntry verificationWarning
         patchEntry,
    buildEvidence baseTime verification planId true generationWarnings plans true
    = (plannerEntry :: securityEntry :: warningEntries
         ++ testEntry :: verificationWarning ++ [patchEntry])%list /\
    map e_details warningEntries = generationWarnings /\
    (forall entry, In entry warningEntries ->
                   isLogOf "Generation warning" entry = true /\
                   e_planId entry = planId /\ e_reliability entry = ratio 35 100) /\
    List.length verificationWarning
    = (match warning verification with
       | Some text => if String.eqb text "" then 0 else 1
       | None => 0
       end)%nat /\
    (forall entry, In entry verificationWarning ->
                   isLogOf "Verification warning" entry = true /\
                   e_planId entry = planId /\
                   Some (e_details entry) = warning verification) /\
    e_type plannerEntry = EvAnalysis /\ e_planId plannerEntry = planId /\
    e_type securityEntry = EvAnalysis /\ e_planId securityEntry = planId /\
    e_type testEntry = EvTest /\ e_planId testEntry = planId /\
    e_summary testEntry = v_summary verification /\
    e_details testEntry = output verification /\
    e_reliability testEntry = reliabilityOf verification /\
    e_type patchEntry = EvPatch /\ e_planId patchEntry = planId.
Proof.
  unfold buildEvidence; cbv zeta.
  exists (mkEvidence "evidence-planner" planId planner EvAnalysis
                     "Planner rationale captured for selected plan."
                     match find (fun plan => String.eqb (plan_id plan) planId) plans with
                     | Some plan => plan_summary plan
                     | None => "Selected plan summary unavailable."
                     end
                     (ratio 62 100) (toTimestamp baseTime 2)).
  exists (mkEvidence "evidence-security" planId security EvAnalysis
                     "Security flagged key risk for selected plan."
                     match find (fun plan => String.eqb (plan_id plan) planId) plans with
                     | Some plan => hd "Primary risk not specified." (plan_risks plan)
                     | None => "Primary risk not specified."
                     end
                     (ratio 7 10) (toTimestamp baseTime 7)).
  exists (mapi (fun warningText index =>
                  mkEvidence ("evidence-generation-warning-" ++ natToString index)
                             planId synthesizer EvLog "Generation warning"
                             warningText (ratio 35 100)
                             (toTimestamp baseTime (5 + Z.of_nat index)))
               generationWarnings).
  exists (mkEvidence "evidence-verification" planId synthesizer EvTest
                     (v_summary verification) (output verification)
                     (reliabilityOf verification) (toTimestamp baseTime 16)).
  exists (match warning verification with
          | Some text =>
              if String.eqb text "" then []
              else [ mkEvidence "evidence-warning" planId synthesizer EvLog
                                "Verification warning" text (ratio 4 10)
                                (toTimestamp baseTime 17) ]
          | None => []
          end).
  exists (mkEvidence "evidence-patch" planId synthesizer EvPatch
                     "Example patch output." buildDiff (ratio 8 10)
                     (toTimestamp baseTime 18)).
  split.
  { cbn [app]; rewrite <- !app_assoc; reflexivity. }
  split.
  { unfold mapi; rewrite (map_mapiFrom e_details _ (fun x => x));
      [apply map_id|reflexivity]. }
  split.
  { intros entry Hin; unfold mapi in Hin; apply in_mapiFrom in Hin.
    destruct Hin as (x & i & _ & ->).
    cbn [isLogOf e_type e_summary e_planId e_reliability].
    split; [reflexivity|split; reflexivity]. }
  split.
  { destruct (warning verification) as [text|]; [|reflexivity].
    destruct (String.eqb text ""); reflexivity. }
  split.
  { intros entry Hin.
    destruct (warning verification) as [text|]; [|contradiction].
    destruct (String.eqb text ""); [contradiction|].
    destruct Hin as [<-|[]].
    cbn [isLogOf e_type e_summary e_planId e_details].
    split; [reflexivity|split; reflexivity]. }
  cbn [e_type e_planId e_summary e_details e_reliability].
  repeat (split; [reflexivity|]); reflexivity.
Qed.

Lemma isLogOf_other (a b : string) (entry : EvidenceLedgerEntry) :
  isLogOf a entry = true -> a <> b -> isLogOf b entry = false.
Proof.
  unfold isLogOf; destruct (e_type entry); try discriminate.
  intros Ha Hab; apply String.eqb_eq in Ha; apply String.eqb_neq; congruence.
Qed.

Lemma isLogOf_not_test (a : string) (entry : EvidenceLedgerEntry) :
  isLogOf a entry = true -> isTestEntry entry = false.
Proof. unfold isLogOf, isTestEntry; destruct (e_type entry); congruence. Qed.

(** X15: the evidence ledger of a completed run is empty exactly when
    verification did not run.  When it ran, every entry refers to the final
    plan, the details of the "Generation warning" log entries are the
    session's generation warnings, all of them and in order, and there is
    exactly one test entry: it carries the verification output (the session's
    [daytonaOutput]). *)
Theorem evidence_ledger_contents :
  forall (env : Env) (baseTime : Z) (scenario : option string)
         (options : RunOptions) (session : DebateSession),
    out_result (runDebate env baseTime scenario options) = Ok session ->
    (s_runVerification session = false ->
     s_evidenceLedger session = [] /\ s_daytonaOutput session = None) /\
    (s_runVerification session = true ->
     s_evidenceLedger session <> [] /\
     (forall entry, In entry (s_evidenceLedger session) ->
                    e_planId entry = s_finalPlanId session) /\
     map e_details
         (filter (isLogOf "Generation warning") (s_evidenceLedger session))
     = s_generationWarnings session /\
     exists testEntry,
       filter isTestEntry (s_evidenceLedger session) = [testEntry] /\
       Some (e_details testEntry) = s_daytonaOutput session).
Proof.
  intros env baseTime scenario options session Hrun.
  destruct (runDebate_completed _ _ _ _ _ Hrun) as (v & w & _ & _ & -> & _).
  cbn [assembleSession s_runVerification s_evidenceLedger s_daytonaOutput
       s_finalPlanId s_generationWarnings].
  rewrite decideRunVerification_is_codeScenario.
  destruct (isCodeScenario (orElse scenario defaultScenario)); cbn [andb].
  - split; [discriminate|intros _].
    match goal with
    | |- context [buildEvidence ?b ?ver ?id true ?gw ?pl true] =>
        destruct (buildEvidence_shape b ver id gw pl)
          as (pe & se & we & te & vw & patch & Hshape & Hdetails & Hwe & _ & Hvw
              & Hpe1 & Hpe2 & Hse1 & Hse2 & Hte1 & Hte2 & _ & Hte4 & _
              & Hpa1 & Hpa2);
        rewrite Hshape
    end.
    split; [discriminate|].
    split.
    { intros entry [<-|[<-|Hin]]; try assumption.
      apply in_app_or in Hin; destruct Hin as [Hin|[<-|Hin]];
        [apply Hwe; exact Hin|assumption|].
      apply in_app_or in Hin; destruct Hin as [Hin|[<-|[]]];
        [apply Hvw; exact Hin|assumption]. }
    assert (Hlog : forall summary entry,
               e_type entry <> EvLog -> isLogOf summary entry = false)
      by (intros summary entry; unfold isLogOf; destruct (e_type entry);
          congruence).
    assert (Htest : forall entry,
               e_type entry <> EvTest -> isTestEntry entry = false)
      by (intros entry; unfold isTestEntry; destruct (e_type entry);
          congruence).
    split.
    { cbn [filter]; rewrite (Hlog _ pe), (Hlog _ se) by congruence.
      rewrite filter_app; cbn [filter]; rewrite (Hlog _ te) by congruence.
      rewrite filter_app; cbn [filter]; rewrite (Hlog _ patch) by congruence.
      rewrite (filter_all _ we) by (intros x Hx; apply Hwe; exact Hx).
      rewrite (filter_none _ vw).
      - rewrite app_nil_r; exact Hdetails.
      - intros x Hx; destruct (Hvw x Hx) as (Hx' & _).
        apply (isLogOf_other _ _ _ Hx'); discriminate. }
    exists te; split.
    { assert (Hte : isTestEntry te = true)
        by (unfold isTestEntry; rewrite Hte1; reflexivity).
      cbn [filter]; rewrite (Htest pe), (Htest se) by congruence.
      rewrite filter_app; cbn [filter]; rewrite Hte.
      rewrite filter_app; cbn [filter]; rewrite (Htest patch) by congruence.
      rewrite (filter_none _ we)
        by (intros x Hx; eapply isLogOf_not_test; apply Hwe; exact Hx).
      rewrite (filter_none _ vw)
        by (intros x Hx; eapply isLogOf_not_test; apply Hvw; exact Hx).
      reflexivity. }
    rewrite Hte4; reflexivity.
  - split; [intros _; split; reflexivity|discriminate].
Qed.

Lemma evidence_ledger_contents_witness :
  exists session,
    out_result (runDebate worldUnreachable 0 (Some "Fix failing test")
                          (mkOptions None None)) = Ok session /\
    map e_details
        (filter (isLogOf "Generation warning") (s_evidenceLedger session))
    = s_generationWarnings session.
Proof.
  destruct (out_result (runDebate worldUnreachable 0 (Some "Fix failing test")
                                  (mkOptions None None)))
    as [session|message] eqn:Hrun; [|vm_compute in Hrun; discriminate].
  exists session; split; [reflexivity|].
  destruct (evidence_ledger_contents _ _ _ _ _ Hrun) as [_ Hran].
  assert (Hver : s_runVerification session = true)
    by (vm_compute in Hrun; injection Hrun as <-; reflexivity).
  apply (Hran Hver).
Defined.

(** ** The final solution and the final response *)

Lemma nth_error_plansFromProposals (proposals : list Proposal) :
  exists plan,
    nth_error (plansFromProposals proposals) 1 = Some plan /\
    plan_id plan = "plan-b".
Proof. eexists; split; reflexivity. Qed.

Lemma finalSolutionPhase_nonempty (env : Env) (text : string)
      (proposals : list Proposal) (evidence : option EvidenceForAgents)
      (given : list string) :
  proposals <> [] ->
  finalSolutionPhase env text proposals evidence given
  = match generateFinalSolution env text proposals evidence with
    | Ok solution => (Some solution, given)
    | Err message =>
        (None, push given ("Final solution generation failed. " ++ message))
    end.
Proof. intros Hne; destruct proposals; [congruence|reflexivity]. Qed.

Lemma finalResponsePhase_nonempty (env : Env) (text category : string)
      (solution : FinalSolution) (proposals : list Proposal)
      (evidence : option EvidenceForAgents) (code : bool) (given : list string) :
  proposals <> [] ->
  finalResponsePhase env text category (Some solution) proposals evidence code
                     given
  = match generateFinalResponse env text category solution proposals evidence
            code with
    | Ok response => (Some response, given)
    | Err message =>
        (None, push given ("Final response generation failed. " ++ message))
    end.
Proof. intros Hne; destruct proposals; [congruence|reflexivity]. Qed.

(** X16: the session of every completed run carries a final solution.  It is
    the generated one when [generateFinalSolution] succeeds; the response is
    then the generated response, or the solution's summary when
    [generateFinalResponse] fails or returns an empty text.  When
    [generateFinalSolution] fails, the failure is recorded as a warning, the
    solution is built from the second plan (plan-b) with the fixed caution as
    its only assumption, and the response is that plan's summary.  Both
    generators are given the verification evidence exactly when the scenario
    is code-related, and its output is the session's [daytonaOutput]. *)
Theorem final_solution_always_present :
  forall (env : Env) (baseTime : Z) (scenario : option string)
         (options : RunOptions) (session : DebateSession),
    out_result (runDebate env baseTime scenario options) = Ok session ->
    exists (solution : FinalSolution) (evidence : option EvidenceForAgents),
      s_finalSolution session = Some solution /\
      (evidence = None <-> s_codeScenario session = false) /\
      option_map efa_output evidence = s_daytonaOutput session /\
      match generateFinalSolution env (s_scenario session) (s_proposals session)
                                  evidence with
      | Ok generated =>
          solution = generated /\
          match generateFinalResponse env (s_scenario session)
                  (s_promptCategory session) generated (s_proposals session)
                  evidence (s_codeScenario session) with
          | Ok response =>
              s_actionResponse session
              = (if String.eqb response "" then fs_summary generated
                 else response)
          | Err message =>
              s_actionResponse session = fs_summary generated /\
              In ("Final response generation failed. " ++ message)
                 (s_generationWarnings session)
          end
      | Err message =>
          In ("Final solution generation failed. " ++ message)
             (s_generationWarnings session) /\
          exists plan,
            nth_error (s_plans session) 1 = Some plan /\
            plan_id plan = "plan-b" /\
            solution
            = mkFinalSolution (plan_summary plan) (plan_steps plan)
                (plan_risks plan)
                ["Assumptions not explicitly generated; use caution."] /\
            s_actionResponse session = plan_summary plan
      end.
Proof.
  intros env baseTime scenario options session Hrun.
  destruct (runDebate_completed _ _ _ _ _ Hrun) as (v & w & Hne & _ & -> & _).
  cbn [assembleSession s_finalSolution s_codeScenario s_daytonaOutput
       s_scenario s_proposals s_promptCategory s_actionResponse
       s_generationWarnings s_plans].
  rewrite decideRunVerification_is_codeScenario.
  set (text := orElse scenario defaultScenario) in *.
  set (code := isCodeScenario text) in *.
  set (category := fst (classifyPhase env text [])) in *.
  set (proposals :=
         fst (collectProposals env text (resolveWeights (opt_weights options))
                category
                (overrideWarningPhase code
                   (orElse (opt_runVerification options) true)
                   (snd (classifyPhase env text []))))) in *.
  set (evidence :=
         if code && code
         then Some (mkEvidenceForAgents (v_summary v) (output v))
         else None).
  assert (Hevidence : (evidence = None <-> code = false) /\
                      option_map efa_output evidence
                      = (if code && code then Some (output v) else None)).
  { unfold evidence; destruct code; cbn [andb option_map efa_output];
      repeat split; congruence. }
  destruct Hevidence as [Hnone Houtput].
  destruct (nth_error_plansFromProposals proposals) as (planB & HplanB & HidB).
  clear Hrun; rewrite (finalSolutionPhase_nonempty _ _ _ _ _ Hne).
  destruct (generateFinalSolution env text proposals evidence)
    as [generated|message] eqn:Hgenerated.
  - exists generated, evidence; rewrite Hgenerated.
    cbn [fst snd defaultFinalSolution].
    split; [reflexivity|]; split; [exact Hnone|]; split; [exact Houtput|].
    split; [reflexivity|].
    rewrite (finalResponsePhase_nonempty _ _ _ _ _ _ _ _ Hne).
    destruct (generateFinalResponse env text category generated proposals
                evidence code) as [response|message]; cbn [fst snd].
    + unfold defaultFinalResponse; reflexivity.
    + split; [reflexivity|unfold push; apply in_or_app; right; now left].
  - exists (mkFinalSolution (plan_summary planB) (plan_steps planB)
              (plan_risks planB)
              ["Assumptions not explicitly generated; use caution."]), evidence.
    rewrite Hgenerated; cbn [fst snd].
    unfold finalResponsePhase, defaultFinalSolution, defaultFinalResponse.
    cbn [fst snd]; rewrite HplanB.
    split; [reflexivity|]; split; [exact Hnone|]; split; [exact Houtput|].
    split; [unfold push; apply in_or_app; right; now left|].
    exists planB; repeat split; assumption.
Qed.

Lemma final_solution_always_present_witness :
  exists session,
    out_result (runDebate worldUnreachable 0 (Some "Fix failing test")
                          (mkOptions None None)) = Ok session /\
    s_finalSolution session <> None.
Proof.
  destruct (out_result (runDebate worldUnreachable 0 (Some "Fix failing test")
                                  (mkOptions None None)))
    as [session|message] eqn:Hrun; [|vm_compute in Hrun; discriminate].
  exists session; split; [reflexivity|].
  destruct (final_solution_always_present _ _ _ _ _ Hrun)
    as (solution & evidence & -> & _).
  discriminate.
Defined.

(** ** What can abort a run *)

Lemma collectProposals_empty_iff (env : Env) (text : string)
      (weights : DebateWeights) (category : string) (given : list string) :
  fst (collectProposals env text weights category given) = [] <->
  existsb (fun agent =>
             isOk (generateAgentProposal env agent text weights category))
          proposers = false.
Proof.
  unfold collectProposals, proposers, agents.
  cbn [fold_left filter existsb agent_role AgentRole_eqb negb].
  split_calls env text weights category;
    cbn [fst snd push app isOk orb]; split; congruence.
Qed.

Lemma verificationPhase_returns (env : Env) (baseTime : Z) (codeScenario : bool)
      (proposals : list Proposal) (given : list string) :
  exists verification warnings,
    verificationPhase env baseTime codeScenario proposals
                      (plansFromProposals proposals) given
    = Ok (verification, warnings).
Proof.
  rewrite verificationPhase_unfold.
  destruct (tryVerification env baseTime codeScenario proposals
                            (plansFromProposals proposals))
    as [verification|message];
    [eexists _, _; reflexivity|].
  destruct (nth_error_plansFromProposals proposals) as (plan & -> & _).
  eexists _, _; reflexivity.
Qed.

(** X17: a run is aborted for two reasons only.  It returns a session exactly
    when a language model is configured and at least one of the four proposing
    agents returned a proposal; otherwise it fails with the message for the
    missing provider or, when all four proposal calls failed, with "LLM
    proposal generation failed for all agents.", and in both cases nothing was
    sent to the verification endpoint.  A failure of the classification, of
    the verification endpoint, of the final solution or of the final response
    never aborts a run. *)
Theorem run_aborts_for_two_reasons_only :
  forall (env : Env) (baseTime : Z) (scenario : option string)
         (options : RunOptions),
    let text := orElse scenario defaultScenario in
    let weights := resolveWeights (opt_weights options) in
    let category := fst (classifyPhase env text []) in
    let someProposal :=
      existsb (fun agent =>
                 isOk (generateAgentProposal env agent text weights category))
              proposers in
    match out_result (runDebate env baseTime scenario options) with
    | Ok session =>
        llm_enabled (getLlmConfig env) = true /\ someProposal = true /\
        s_proposals session <> []
    | Err message =>
        out_mcpCalls (runDebate env baseTime scenario options) = [] /\
        if llm_enabled (getLlmConfig env)
        then someProposal = false /\
             message = "LLM proposal generation failed for all agents."
        else message
             = "LLM provider is not configured. Check GROQ_API_KEY/GROQ_MODEL or OLLAMA_URL/OLLAMA_MODEL."
    end.
Proof.
  intros env baseTime scenario options text weights category someProposal.
  unfold runDebate; cbv zeta.
  fold text weights category.
  destruct (llm_enabled (getLlmConfig env)); cbn [negb];
    [|cbn [out_result out_mcpCalls]; split; reflexivity].
  set (collected := collectProposals env text weights category _).
  pose proof (collectProposals_empty_iff env text weights category
                (overrideWarningPhase (isCodeScenario text)
                   (orElse (opt_runVerification options) true)
                   (snd (classifyPhase env text [])))) as Hempty.
  fold collected in Hempty; fold someProposal in Hempty.
  destruct (fst collected) as [|first rest] eqn:Hproposals.
  - cbn [out_result out_mcpCalls].
    split; [reflexivity|split; [apply Hempty; reflexivity|reflexivity]].
  - rewrite <- Hproposals.
    destruct (decideRunVerification (isCodeScenario text)
                (orElse (opt_runVerification options) true)).
    + destruct (verificationPhase_returns env baseTime (isCodeScenario text)
                  (fst collected) (snd collected)) as (v & w & Hphase).
      unfold verificationPhase in Hphase; rewrite Hphase.
      cbn [out_result assembleSession s_proposals].
      split; [reflexivity|]; split; [|congruence].
      destruct someProposal; [reflexivity|].
      destruct Hempty as [_ Hempty]; specialize (Hempty eq_refl); congruence.
    + cbn [fst snd out_result assembleSession s_proposals].
      split; [reflexivity|]; split; [|congruence].
      destruct someProposal; [reflexivity|].
      destruct Hempty as [_ Hempty]; specialize (Hempty eq_refl); congruence.
Qed.

(** ** The verification request and the adapter a session names *)

Lemma verificationPhase_adapter (env : Env) (baseTime : Z) (codeScenario : bool)
      (proposals : list Proposal) (plans : list DebatePlan)
      (given : list string) (verification : VerificationResult)
      (warnings : list string) :
  verificationPhase env baseTime codeScenario proposals plans given
  = Ok (verification, warnings) ->
  adapterName verification
  = Some (match callMcpTool env
                  (verificationRequest env baseTime codeScenario proposals plans)
          with
          | Ok result => if isErrorStatus (r_status result) then "mock" else "mcp"
          | Err _ => "mock"
          end).
Proof.
  intros Hphase; apply verificationPhase_answer in Hphase.
  destruct (callMcpTool env _) as [result|message]; [|exact Hphase].
  destruct (isErrorStatus (r_status result)); [exact Hphase|].
  destruct Hphase as [Hadapter _]; exact Hadapter.
Qed.

Lemma verificationModeOf_code (env : Env) :
  verificationModeOf env true = ModeMock <->
  toLowerCase (orElse (VERIFICATION_MODE env) "auto") = "mock".
Proof.
  unfold verificationModeOf; cbv zeta.
  destruct (String.eqb_spec (toLowerCase (orElse (VERIFICATION_MODE env) "auto"))
              "real") as [->|Hreal]; [split; discriminate|].
  destruct (String.eqb_spec (toLowerCase (orElse (VERIFICATION_MODE env) "auto"))
              "mock") as [Hmock|Hmock]; [tauto|].
  split; [discriminate|intros H; contradiction].
Qed.

(** X18: every request a completed run sends to the verification endpoint
    carries the session's id, one of the session's four plan ids, and the
    fixture path and command of the environment; its mode is mock exactly
    when VERIFICATION_MODE, lower-cased, is "mock", and real otherwise.  The
    session names the adapter "mcp" exactly when such a request was sent and
    answered with a status other than error; in every other case (no
    verification, a call that threw, status error) it names "mock". *)
Theorem session_names_the_verifier :
  forall (env : Env) (baseTime : Z) (scenario : option string)
         (options : RunOptions) (session : DebateSession),
    out_result (runDebate env baseTime scenario options) = Ok session ->
    let calls := out_mcpCalls (runDebate env baseTime scenario options) in
    (forall request,
        In request calls ->
        req_sessionId request = s_id session /\
        In (req_planId request) (map plan_id (s_plans session)) /\
        req_fixturePath request = VERIFICATION_FIXTURE_PATH env /\
        req_command request = VERIFICATION_COMMAND env /\
        (req_mode request = ModeMock <->
         toLowerCase (orElse (VERIFICATION_MODE env) "auto") = "mock")) /\
    (s_adapter session = "mcp" \/ s_adapter session = "mock") /\
    (s_adapter session = "mcp" <->
     exists request result,
       calls = [request] /\ callMcpTool env request = Ok result /\
       r_status result <> StatusError).
Proof.
  intros env baseTime scenario options session Hrun calls.
  destruct (runDebate_completed _ _ _ _ _ Hrun)
    as (v & w & Hne & Hphase & -> & Hcalls).
  unfold calls; rewrite Hcalls; clear calls Hcalls Hrun.
  cbn [assembleSession s_id s_plans s_adapter].
  rewrite decideRunVerification_is_codeScenario in *.
  set (text := orElse scenario defaultScenario) in *.
  destruct (isCodeScenario text).
  - set (proposals := fst (collectProposals _ _ _ _ _)) in *.
    apply verificationPhase_adapter in Hphase.
    set (request := verificationRequest env baseTime true proposals
                      (plansFromProposals proposals)) in *.
    rewrite Hphase; cbn [orElse].
    split.
    { intros r [<-|[]]; unfold request, verificationRequest.
      cbn [req_sessionId req_planId req_fixturePath req_command req_mode].
      split; [reflexivity|].
      split.
      { destruct (verificationTargetPlanId_most_confident proposals
                    (plansFromProposals proposals) Hne) as (i & p & _ & ->).
        rewrite plansFromProposals_ids.
        destruct (p_agent p); cbn; tauto. }
      split; [reflexivity|]; split; [reflexivity|].
      apply verificationModeOf_code. }
    destruct (callMcpTool env request) as [result|message] eqn:Hcall.
    + destruct (r_status result) eqn:Hstatus; cbn [isErrorStatus].
      * split; [now left|]; split; [intros _|reflexivity].
        exists request, result.
        split; [reflexivity|split; [exact Hcall|rewrite Hstatus; discriminate]].
      * split; [now left|]; split; [intros _|reflexivity].
        exists request, result.
        split; [reflexivity|split; [exact Hcall|rewrite Hstatus; discriminate]].
      * split; [now left|]; split; [intros _|reflexivity].
        exists request, result.
        split; [reflexivity|split; [exact Hcall|rewrite Hstatus; discriminate]].
      * split; [now right|]; split; [discriminate|].
        intros (r & res & Hr & Hres & Hne').
        injection Hr as <-; rewrite Hcall in Hres; injection Hres as <-.
        congruence.
    + split; [now right|]; split; [discriminate|].
      intros (r & res & Hr & Hres & _).
      injection Hr as <-; rewrite Hcall in Hres; discriminate.
  - injection Hphase as <- _; cbn [skippedVerification adapterName orElse].
    split; [intros r []|].
    split; [now right|].
    split; [discriminate|intros (r & res & Hr & _); discriminate Hr].
Qed.

Lemma session_names_the_verifier_witness :
  exists session,
    out_result (runDebate worldUnreachable 0 (Some "Fix failing test")
                          (mkOptions None None)) = Ok session /\
    (s_adapter session = "mcp" \/ s_adapter session = "mock").
Proof.
  destruct (out_result (runDebate worldUnreachable 0 (Some "Fix failing test")
                                  (mkOptions None None)))
    as [session|message] eqn:Hrun; [|vm_compute in Hrun; discriminate].
  exists session; split; [reflexivity|].
  apply (session_names_the_verifier _ _ _ _ _ Hrun).
Defined.

(** ** Which scenarios count as code *)

Lemma prefix_spec (word text : string) :
  prefix word text = true <-> exists rest, text = word ++ rest.
Proof.
  revert text; induction word as [|c word IH]; intros text.
  - destruct text; cbn; split; try reflexivity; intros _; eexists; reflexivity.
  - destruct text as [|d text]; cbn.
    + split; [discriminate|intros (rest & H); discriminate].
    + destruct (Ascii.ascii_dec c d) as [->|Hcd].
      * rewrite IH; split.
        -- intros (rest & ->); exists rest; reflexivity.
        -- intros (rest & H); injection H as ->; exists rest; reflexivity.
      * split; [discriminate|intros (rest & H); congruence].
Qed.

Lemma includes_spec (text word : string) :
  includes text word = true <->
  exists before after, text = before ++ word ++ after.
Proof.
  induction text as [|c text IH].
  - cbn [includes]; rewrite orb_false_r, prefix_spec; split.
    + intros (rest & H); exists "", rest; exact H.
    + intros (before & after & H).
      destruct before; [exists after; exact H|discriminate].
  - cbn [includes]; rewrite orb_true_iff, prefix_spec, IH; split.
    + intros [(rest & H)|(before & after & ->)].
      * exists "", rest; exact H.
      * exists (String c before), after; reflexivity.
    + intros (before & after & H); destruct before as [|d before].
      * left; exists after; exact H.
      * right; cbn in H; injection H as _ ->; exists before, after; reflexivity.
Qed.

Lemma toLowerCase_append (a b : string) :
  toLowerCase (a ++ b) = toLowerCase a ++ toLowerCase b.
Proof. induction a as [|c a IH]; cbn; [reflexivity|rewrite IH; reflexivity]. Qed.

Lemma lowerAscii_idempotent (c : ascii) : lowerAscii (lowerAscii c) = lowerAscii c.
Proof.
  destruct c as [[] [] [] [] [] [] [] []]; reflexivity.
Qed.

Lemma toLowerCase_idempotent (s : string) :
  toLowerCase (toLowerCase s) = toLowerCase s.
Proof.
  induction s as [|c s IH]; cbn; [reflexivity|].
  rewrite lowerAscii_idempotent, IH; reflexivity.
Qed.

Lemma append_assoc (a b c : string) : (a ++ b) ++ c = a ++ b ++ c.
Proof. induction a as [|x a IH]; cbn; [reflexivity|rewrite IH; reflexivity]. Qed.

Lemma isCodeScenario_spec (text : string) :
  isCodeScenario text = true <->
  exists word before after,
    In word codeKeywords /\ toLowerCase text = before ++ word ++ after.
Proof.
  unfold isCodeScenario; cbv zeta; rewrite existsb_exists; split.
  - intros (word & Hin & Hinc); apply includes_spec in Hinc.
    destruct Hinc as (before & after & H); exists word, before, after; tauto.
  - intros (word & before & after & Hin & H); exists word; split; [exact Hin|].
    apply includes_spec; exists before, after; exact H.
Qed.

(** X19: a scenario is code-related exactly when its lower-cased text contains
    one of the seventeen keywords as a substring; so the test does not depend
    on letter case, a text that contains a code-related text is code-related,
    and a keyword inside a longer word counts too. *)
Theorem isCodeScenario_is_a_substring_test :
  forall (text : string),
    (isCodeScenario text = true <->
     exists word before after,
       In word codeKeywords /\ toLowerCase text = before ++ word ++ after) /\
    isCodeScenario (toLowerCase text) = isCodeScenario text /\
    (forall before after,
        isCodeScenario text = true ->
        isCodeScenario (before ++ text ++ after) = true) /\
    (forall word before after,
        In word codeKeywords ->
        isCodeScenario (before ++ word ++ after) = true).
Proof.
  intros text; split; [apply isCodeScenario_spec|].
  split; [unfold isCodeScenario; rewrite toLowerCase_idempotent; reflexivity|].
  split.
  - intros before after Hcode; apply isCodeScenario_spec in Hcode.
    destruct Hcode as (word & a & b & Hin & H).
    apply isCodeScenario_spec.
    exists word, (toLowerCase before ++ a), (b ++ toLowerCase after).
    split; [exact Hin|].
    rewrite !toLowerCase_append, H, !append_assoc; reflexivity.
  - intros word before after Hin; apply isCodeScenario_spec.
    exists word, (toLowerCase before), (toLowerCase after).
    split; [exact Hin|].
    rewrite !toLowerCase_append; do 2 f_equal.
    unfold codeKeywords in Hin; cbn [In] in Hin.
    repeat (destruct Hin as [<-|Hin]; [reflexivity|]); contradiction.
Qed.

(** * Properties of the language-model adapter *)

Section AdapterProperties.

Import LlmAdapter.

(** ** Configuration *)

Lemma truthy_orElse (value : option string) (default : string) :
  truthy (Some (orElse value default))
  = match value with
    | Some text => negb (String.eqb text EmptyString)
    | None => negb (String.eqb default EmptyString)
    end.
Proof. destruct value; reflexivity. Qed.

(** X20: the provider is "ollama" only for the override, or else the variable
    LLM_PROVIDER, being exactly "ollama", and "groq" in every other case.  An
    enabled configuration always has a non-empty URL and model, so the guard
    of the generators fires exactly when the configuration is not enabled.
    For groq, whose URL and model have defaults, the configuration is enabled
    exactly when key, URL and model are non-empty; an empty GROQ_API_KEY
    hides LLM_API_KEY.  For ollama the returned URL is never empty, and the
    configuration is enabled exactly when a model is set and the URL is not
    set to the empty text. *)
Theorem getLlmConfig_enabled_means_usable :
  forall (providerOverride : option LlmProvider) (env : ProcessEnv),
    let config := getLlmConfig providerOverride env in
    (provider config = ollama <->
     match providerOverride with
     | Some p => p = ollama
     | None => LLM_PROVIDER env = Some "ollama"
     end) /\
    (enabled config = true ->
     truthy (url config) = true /\ truthy (model config) = true) /\
    notConfigured config = negb (enabled config) /\
    (provider config = groq ->
     apiKey config = coalesce (GROQ_API_KEY env) (LLM_API_KEY env) /\
     (enabled config = true <->
      truthy (apiKey config) = true /\ truthy (url config) = true /\
      truthy (model config) = true) /\
     (coalesce (GROQ_URL env) (LLM_URL env) = None ->
      coalesce (GROQ_MODEL env) (LLM_MODEL env) = None ->
      enabled config = truthy (apiKey config))) /\
    (provider config = ollama ->
     truthy (url config) = true /\
     model config = coalesce (OLLAMA_MODEL env) (LLM_MODEL env) /\
     (enabled config = true <->
      truthy (model config) = true /\
      coalesce (OLLAMA_URL env) (LLM_URL env) <> Some EmptyString)).
Proof.
  intros providerOverride env config.
  assert (Hprovider :
            provider config = ollama <->
            match providerOverride with
            | Some p => p = ollama
            | None => LLM_PROVIDER env = Some "ollama"
            end).
  { unfold config, getLlmConfig; cbn [provider].
    destruct providerOverride as [[|]|]; cbn; [split; discriminate|tauto|].
    destruct (LLM_PROVIDER env) as [raw|]; cbn [orElse].
    - destruct (String.eqb_spec raw "ollama") as [->|Hraw];
        [tauto|split; [discriminate|congruence]].
    - cbn; split; discriminate. }
  split; [exact Hprovider|clear Hprovider].
  unfold config, getLlmConfig, notConfigured; cbv zeta.
  set (raw := match providerOverride with
              | Some p => providerName p
              | None => orElse (LLM_PROVIDER env) "groq"
              end).
  destruct (String.eqb raw "ollama"); cbn [enabled url model apiKey provider].
  - (* ollama *)
    destruct (coalesce (OLLAMA_MODEL env) (LLM_MODEL env)) as [m|];
      destruct (coalesce (OLLAMA_URL env) (LLM_URL env)) as [u|];
      cbn [truthy orElse andb negb orb];
      try (destruct (String.eqb_spec m EmptyString) as [->|Hm]);
      try (destruct (String.eqb_spec u EmptyString) as [->|Hu]);
      cbn [truthy orElse andb negb orb String.eqb];
      try (rewrite (proj2 (String.eqb_neq _ _) Hm));
      try (rewrite (proj2 (String.eqb_neq _ _) Hu));
      cbn [truthy orElse andb negb orb String.eqb];
      repeat split; try discriminate; try congruence; try tauto;
      try (intros [H1 H2]; congruence).
  - (* groq *)
    set (u := orElse (coalesce (GROQ_URL env) (LLM_URL env))
                     "https://api.groq.com/openai/v1/chat/completions").
    set (m := orElse (coalesce (GROQ_MODEL env) (LLM_MODEL env))
                     "llama-3.1-70b-versatile").
    set (k := coalesce (GROQ_API_KEY env) (LLM_API_KEY env)).
    assert (Hdefaults :
              coalesce (GROQ_URL env) (LLM_URL env) = None ->
              coalesce (GROQ_MODEL env) (LLM_MODEL env) = None ->
              truthy (Some u) = true /\ truthy (Some m) = true)
      by (unfold u, m; intros -> ->; split; reflexivity).
    destruct (truthy (Some m)) eqn:Hm; destruct (truthy (Some u)) eqn:Hu;
      destruct (truthy k) eqn:Hk; cbn [andb negb orb];
      change (truthy None) with false;
      rewrite ?Hu, ?Hm, ?Hk; cbn [andb negb orb];
      repeat split; try discriminate; try congruence; try tauto;
      try (intros (H1 & H2 & H3); congruence);
      try (intros Hx Hy; destruct (Hdefaults Hx Hy); congruence).
Qed.

(** ** The hash behind the style cue and the focus areas *)

Lemma toInt32_range (z : Z) : (- 2 ^ 31 <= toInt32 z < 2 ^ 31)%Z.
Proof.
  unfold toInt32.
  pose proof (Z.mod_pos_bound (z + 2 ^ 31) (2 ^ 32) ltac:(lia)); lia.
Qed.

Lemma toInt32_eqm (z : Z) : (toInt32 z mod 2 ^ 32 = z mod 2 ^ 32)%Z.
Proof.
  unfold toInt32.
  rewrite Zminus_mod, Z.mod_mod by lia.
  rewrite <- Zminus_mod; f_equal; lia.
Qed.

Lemma toInt32_congr (a b : Z) :
  (a mod 2 ^ 32 = b mod 2 ^ 32)%Z -> toInt32 a = toInt32 b.
Proof.
  intros H; unfold toInt32.
  rewrite (Zplus_mod a), (Zplus_mod b), H; reflexivity.
Qed.

Lemma toInt32_small (z : Z) : (- 2 ^ 31 <= z < 2 ^ 31)%Z -> toInt32 z = z.
Proof. intros H; unfold toInt32; rewrite Z.mod_small; lia. Qed.

Lemma hashStep_is_31 (hash code : Z) : hashStep hash code = toInt32 (31 * hash + code).
Proof.
  unfold hashStep; apply toInt32_congr.
  rewrite Z.shiftl_mul_pow2 by lia.
  rewrite Zplus_mod, Zminus_mod, toInt32_eqm, <- Zminus_mod, <- Zplus_mod.
  f_equal; lia.
Qed.

Lemma fold_hashStep (codes : list Z) (h h' : Z) :
  (h mod 2 ^ 32 = h' mod 2 ^ 32)%Z ->
  (fold_left hashStep codes h mod 2 ^ 32
   = fold_left (fun hash code => 31 * hash + code) codes h' mod 2 ^ 32)%Z.
Proof.
  revert h h'; induction codes as [|c codes IH]; intros h h' H; [exact H|].
  cbn [fold_left]; apply IH.
  rewrite hashStep_is_31, toInt32_eqm.
  rewrite (Zplus_mod (31 * h)), (Zplus_mod (31 * h')).
  rewrite (Zmult_mod 31 h), (Zmult_mod 31 h'), H; reflexivity.
Qed.

Lemma fold_hashStep_range (codes : list Z) (h : Z) :
  (- 2 ^ 31 <= h < 2 ^ 31)%Z ->
  (- 2 ^ 31 <= fold_left hashStep codes h < 2 ^ 31)%Z.
Proof.
  revert h; induction codes as [|c codes IH]; intros h H; [exact H|].
  cbn [fold_left]; apply IH; rewrite hashStep_is_31; apply toInt32_range.
Qed.

Lemma hashString_bounds (value : string) : (0 <= hashString value <= 2 ^ 31)%Z.
Proof.
  unfold hashString.
  pose proof (fold_hashStep_range (charCodes value) 0 ltac:(lia)); lia.
Qed.

(** X21: [hashString] is the absolute value of the polynomial hash with base
    31 of the character codes, wrapped to 32 signed bits.  It lies between 0
    and 2^31, and 2^31 itself is reached (the absolute value is taken on a
    number, not on a 32-bit integer); so the style index is always one of
    0..4 and [pickStyleCue] always returns one of the five styles. *)
Theorem hashString_is_wrapped_polynomial :
  forall (value : string),
    hashString value
    = Z.abs (toInt32 (fold_left (fun hash code => 31 * hash + code)%Z
                                (charCodes value) 0%Z)) /\
    (0 <= hashString value <= 2 ^ 31)%Z /\
    (forall role, exists style,
        pickStyleCue value role = Some style /\ In style styles) /\
    hashString "polygenelubricants" = (2 ^ 31)%Z.
Proof.
  intros value; split.
  { unfold hashString; f_equal.
    rewrite <- (toInt32_small (fold_left hashStep (charCodes value) 0%Z))
      by (apply fold_hashStep_range; lia).
    apply toInt32_congr, fold_hashStep; reflexivity. }
  split; [apply hashString_bounds|].
  split; [|vm_compute; reflexivity].
  intros role; unfold pickStyleCue; cbv zeta.
  set (h := hashString _).
  assert (Hindex : (0 <= h mod Z.of_nat (List.length styles) < 5)%Z)
    by (apply (Z.mod_pos_bound h 5); lia).
  destruct (nth_error styles (Z.to_nat (h mod Z.of_nat (List.length styles))))
    as [style|] eqn:Hnth.
  - exists style; split; [reflexivity|]; eapply nth_error_In; exact Hnth.
  - apply nth_error_None in Hnth.
    change (List.length styles) with 5%nat in *; lia.
Qed.

(** ** Thresholds on the weight *)

Lemma atLeast_iff (weight bound : Qc) : atLeast weight bound = true <-> bound <= weight.
Proof. apply Qle_bool_Qcle. Qed.

Lemma atLeast_mono (w1 w2 bound : Qc) :
  w1 <= w2 -> atLeast w1 bound = true -> atLeast w2 bound = true.
Proof.
  intros Hle H; apply atLeast_iff; apply atLeast_iff in H.
  eapply Qcle_trans; eassumption.
Qed.

Lemma atLeast_lower (weight b1 b2 : Qc) :
  b2 <= b1 -> atLeast weight b1 = true -> atLeast weight b2 = true.
Proof.
  intros Hle H; apply atLeast_iff; apply atLeast_iff in H.
  eapply Qcle_trans; eassumption.
Qed.

Ltac thresholds w :=
  unfold reasonsTarget, focusCount, detailTier;
  destruct (atLeast w (ratio 7 10)) eqn:?H7;
  destruct (atLeast w (ratio 5 10)) eqn:?H5;
  destruct (atLeast w (ratio 45 100)) eqn:?H45;
  destruct (atLeast w (ratio 4 10)) eqn:?H4;
  destruct (atLeast w (ratio 3 10)) eqn:?H3.

Ltac lower_bound H b :=
  let H' := fresh in
  pose proof (atLeast_lower _ _ b ltac:(discriminate) H) as H'; congruence.

Lemma focusCount_mono (w1 w2 : Qc) :
  w1 <= w2 -> (focusCount w1 <= focusCount w2)%nat.
Proof.
  intros Hle.
  pose proof (atLeast_mono w1 w2 (ratio 7 10) Hle) as M7.
  pose proof (atLeast_mono w1 w2 (ratio 4 10) Hle) as M4.
  unfold focusCount.
  destruct (atLeast w1 (ratio 7 10)); [rewrite M7 by reflexivity; lia|].
  destruct (atLeast w1 (ratio 4 10)).
  - rewrite M4 by reflexivity; destruct (atLeast w2 (ratio 7 10)); lia.
  - destruct (atLeast w2 (ratio 7 10)); [lia|].
    destruct (atLeast w2 (ratio 4 10)); lia.
Qed.

(** X22: the three settings derived from an agent's weight never decrease
    when the weight grows.  The rationale target lies between 1 and 4 and the
    number of focus areas between 1 and 3; from weight 0.7 on, and only then,
    the detail level is high, four reasons are required and three focus areas
    are given. *)
Theorem weight_thresholds_are_monotone :
  forall (w1 w2 : Qc),
    w1 <= w2 ->
    (reasonsTarget w1 <= reasonsTarget w2)%nat /\
    (focusCount w1 <= focusCount w2)%nat /\
    (detailTier w1 = high -> detailTier w2 = high) /\
    (detailTier w2 = low -> detailTier w1 = low) /\
    (1 <= reasonsTarget w1 <= 4)%nat /\
    (1 <= focusCount w1 <= 3)%nat /\
    (ratio 7 10 <= w1 <-> detailTier w1 = high) /\
    (ratio 7 10 <= w1 <-> reasonsTarget w1 = 4%nat) /\
    (ratio 7 10 <= w1 <-> focusCount w1 = 3%nat).
Proof.
  intros w1 w2 Hle.
  pose proof (atLeast_mono w1 w2 (ratio 7 10) Hle) as M7.
  pose proof (atLeast_mono w1 w2 (ratio 5 10) Hle) as M5.
  pose proof (atLeast_mono w1 w2 (ratio 45 100) Hle) as M45.
  pose proof (atLeast_mono w1 w2 (ratio 4 10) Hle) as M4.
  pose proof (atLeast_mono w1 w2 (ratio 3 10) Hle) as M3.
  rewrite <- !atLeast_iff.
  thresholds w1; thresholds w2;
    try (specialize (M7 eq_refl)); try (specialize (M5 eq_refl));
    try (specialize (M45 eq_refl)); try (specialize (M4 eq_refl));
    try (specialize (M3 eq_refl)); try congruence;
    try (lower_bound H7 (ratio 5 10)); try (lower_bound H7 (ratio 45 100));
    try (lower_bound H5 (ratio 45 100)); try (lower_bound H45 (ratio 4 10));
    try (lower_bound H4 (ratio 3 10));
    repeat split; try lia; try congruence; try discriminate.
Qed.

Lemma weight_thresholds_are_monotone_witness :
  (reasonsTarget (ratio 5 10) <= reasonsTarget (ratio 8 10))%nat.
Proof.
  apply (weight_thresholds_are_monotone (ratio 5 10) (ratio 8 10)).
  discriminate.
Defined.

(** ** Focus areas *)

(** X23: [pickFocusAreas] returns consecutive areas of the role's pool of
    five, starting at a position that depends on the scenario and the role
    only and wrapping around at the end: as many as the weight asks for (1, 2
    or 3), each one defined, no area twice.  With a larger weight the same
    areas are returned, followed by more. *)
Theorem pickFocusAreas_cycles_the_pool :
  forall (scenario : string) (role : AgentRole) (weight : Qc),
    let pool := focusAreasForRole role in
    exists start,
      (start < 5)%nat /\
      (forall w,
          pickFocusAreas scenario role w
          = map Some (firstn (focusCount w)
                             (skipn start pool ++ firstn start pool))) /\
      List.length (pickFocusAreas scenario role weight) = focusCount weight /\
      NoDup (pickFocusAreas scenario role weight) /\
      (forall larger,
          weight <= larger ->
          exists more,
            pickFocusAreas scenario role larger
            = (pickFocusAreas scenario role weight ++ more)%list).
Proof.
  intros scenario role weight pool.
  set (h := hashString (scenario ++ ":" ++ roleName role ++ ":focus")).
  exists (Z.to_nat (h mod 5)).
  assert (Hh : (0 <= h mod 5 < 5)%Z) by (apply Z.mod_pos_bound; lia).
  assert (Hshape :
            forall w,
              pickFocusAreas scenario role w
              = map Some (firstn (focusCount w)
                            (skipn (Z.to_nat (h mod 5)) pool
                               ++ firstn (Z.to_nat (h mod 5)) pool))).
  { intros w; unfold pickFocusAreas, pool; fold h.
    assert (Hcount : (1 <= focusCount w <= 3)%nat)
      by (unfold focusCount; destruct (atLeast _ (ratio 7 10));
          [lia|destruct (atLeast _ (ratio 4 10)); lia]).
    assert (Hcases : (h mod 5 = 0 \/ h mod 5 = 1 \/ h mod 5 = 2 \/ h mod 5 = 3
                      \/ h mod 5 = 4)%Z) by lia.
    destruct role; cbn [focusAreasForRole List.length Z.of_nat Pos.of_succ_nat
                          Pos.succ];
      destruct Hcases as [->|[->|[->|[->| ->]]]];
      destruct (focusCount w) as [|[|[|[|n]]]]; try lia; reflexivity. }
  split; [lia|].
  split; [exact Hshape|].
  assert (Hcount : (1 <= focusCount weight <= 3)%nat)
    by (unfold focusCount; destruct (atLeast _ (ratio 7 10));
          [lia|destruct (atLeast _ (ratio 4 10)); lia]).
  assert (Hstart : (Z.to_nat (h mod 5) = 0 \/ Z.to_nat (h mod 5) = 1
                    \/ Z.to_nat (h mod 5) = 2 \/ Z.to_nat (h mod 5) = 3
                    \/ Z.to_nat (h mod 5) = 4)%nat) by lia.
  split.
  { rewrite Hshape, length_map, length_firstn.
    unfold pool; destruct role; cbn [focusAreasForRole];
      destruct Hstart as [->|[->|[->|[->| ->]]]]; cbn; lia. }
  split.
  { rewrite Hshape; unfold pool.
    destruct role; cbn [focusAreasForRole];
      destruct Hstart as [->|[->|[->|[->| ->]]]];
      destruct (focusCount weight) as [|[|[|[|n]]]]; try lia;
      cbn; repeat constructor; cbn; intuition discriminate. }
  intros larger Hle.
  pose proof (focusCount_mono weight larger Hle) as Hmono.
  rewrite !Hshape.
  exists (map Some
            (skipn (focusCount weight)
               (firstn (focusCount larger)
                  (skipn (Z.to_nat (h mod 5)) pool
                     ++ firstn (Z.to_nat (h mod 5)) pool)))).
  rewrite <- map_app; f_equal.
  rewrite <- (firstn_skipn (focusCount weight)
                (firstn (focusCount larger) _)) at 1.
  f_equal; rewrite firstn_firstn; f_equal; lia.
Qed.

(** ** Validation *)

Lemma truthy_some (value : option string) :
  truthy value = true ->
  exists text, value = Some text /\ text <> EmptyString.
Proof.
  destruct value as [text|]; [|discriminate]; cbn.
  intros H; exists text; split; [reflexivity|].
  intros ->; discriminate.
Qed.

Lemma truthy_of_text (text : string) :
  text <> EmptyString -> truthy (Some text) = true.
Proof. intros H; cbn; apply negb_true_iff, String.eqb_neq; exact H. Qed.

Lemma ensureArray_of_texts (texts : list string) :
  ensureArray (Some (map Some texts)) = texts.
Proof.
  cbn; induction texts as [|t texts IH]; [reflexivity|].
  cbn; rewrite IH; reflexivity.
Qed.

Lemma mathRound_integer (z : Z) : mathRound (ratio z 1) = z.
Proof.
  unfold mathRound.
  rewrite (Qfloor_comp _ (Qmake z 1 + Qmake 1 2)%Q)
    by (rewrite this_plus, !this_ratio; reflexivity).
  unfold Qfloor, Qplus; cbn [Qnum Qden].
  change (Z.pos (1 * 2)) with 2%Z.
  rewrite Z.mul_1_l; symmetry; apply Z.div_unique with (r := 1%Z); lia.
Qed.

Lemma validateProposal_normalises_core (draft : RawProposal) (minReasons : nat) :
  match validateProposal draft minReasons with
  | Ok valid => validDraft minReasons valid
  | Err _ => True
  end.
Proof.
  unfold validateProposal, validDraft; cbv zeta.
  destruct (truthy (raw_proposal draft)) eqn:Hp; cbn [negb orb]; [|exact I].
  destruct (truthy (raw_summary draft)) eqn:Hs; cbn [negb orb]; [|exact I].
  destruct (truthy (raw_risk draft)) eqn:Hr; cbn [negb orb]; [|exact I].
  destruct (Nat.ltb_spec (List.length (ensureArray (raw_rationale draft)))
              minReasons) as [Hshort|Hlong]; [exact I|].
  destruct (truthy_some _ Hp) as (proposal & Ep & Hproposal).
  destruct (truthy_some _ Hs) as (summary & Es & Hsummary).
  destruct (truthy_some _ Hr) as (risk & Er & Hrisk).
  rewrite Ep, Es, Er;
    cbn [orElse d_proposal d_summary d_risk d_rationale d_riskSeverity
         d_confidence].
  destruct (clampUnit_bounds (orElse (raw_confidence draft) (ratio 5 10)))
    as [Hc0 Hc1].
  repeat (split; [first [assumption|lia]|]); assumption.
Qed.

(** X24: [validateProposal] fails exactly when one of the three texts is
    missing or empty ("Proposal missing.") or, the texts being there, fewer
    text items than required are left in the rationale ("Proposal missing
    required rationale.").  Otherwise it keeps the three texts and the text
    items of the rationale, returns a risk severity that is an integer from 1
    to 5 (3 when none was given) and a confidence in [0,1] (0.5 when none was
    given); validating its result again changes nothing. *)
Theorem validateProposal_normalises :
  forall (draft : RawProposal) (minReasons : nat),
    match validateProposal draft minReasons with
    | Ok valid =>
        raw_proposal draft = Some (d_proposal valid) /\
        raw_summary draft = Some (d_summary valid) /\
        raw_risk draft = Some (d_risk valid) /\
        d_proposal valid <> EmptyString /\ d_summary valid <> EmptyString /\
        d_risk valid <> EmptyString /\
        d_rationale valid = ensureArray (raw_rationale draft) /\
        (minReasons <= List.length (d_rationale valid))%nat /\
        (1 <= d_riskSeverity valid <= 5)%Z /\
        (raw_riskSeverity draft = None -> d_riskSeverity valid = 3%Z) /\
        0 <= d_confidence valid /\ d_confidence valid <= 1 /\
        (raw_confidence draft = None -> d_confidence valid = ratio 5 10) /\
        validateProposal (rawOfDraft valid) minReasons = Ok valid
    | Err message =>
        (message = "Proposal missing." /\
         (truthy (raw_proposal draft) = false \/
          truthy (raw_summary draft) = false \/
          truthy (raw_risk draft) = false)) \/
        (message = "Proposal missing required rationale." /\
         truthy (raw_proposal draft) = true /\
         truthy (raw_summary draft) = true /\
         truthy (raw_risk draft) = true /\
         (List.length (ensureArray (raw_rationale draft)) < minReasons)%nat)
    end.
Proof.
  intros draft minReasons; unfold validateProposal; cbv zeta.
  destruct (truthy (raw_proposal draft)) eqn:Hp; cbn [negb orb];
    [|left; split; [reflexivity|now left]].
  destruct (truthy (raw_summary draft)) eqn:Hs; cbn [negb orb];
    [|left; split; [reflexivity|right; now left]].
  destruct (truthy (raw_risk draft)) eqn:Hr; cbn [negb orb];
    [|left; split; [reflexivity|right; now right]].
  destruct (Nat.ltb_spec (List.length (ensureArray (raw_rationale draft)))
              minReasons) as [Hshort|Hlong];
    [right; repeat split; exact Hshort|].
  destruct (truthy_some _ Hp) as (proposal & Ep & Hproposal).
  destruct (truthy_some _ Hs) as (summary & Es & Hsummary).
  destruct (truthy_some _ Hr) as (risk & Er & Hrisk).
  rewrite Ep, Es, Er;
    cbn [orElse d_proposal d_summary d_risk d_rationale d_riskSeverity
         d_confidence].
  set (severity := Z.min 5 (Z.max 1 _)).
  set (confidence := clampUnit _).
  assert (Hseverity : (1 <= severity <= 5)%Z) by (unfold severity; lia).
  destruct (clampUnit_bounds (orElse (raw_confidence draft) (ratio 5 10)))
    as [Hc0 Hc1].
  fold confidence in Hc0, Hc1.
  repeat (split; [first [reflexivity|assumption|lia]|]).
  split; [unfold severity; intros ->; reflexivity|].
  split; [exact Hc0|]; split; [exact Hc1|].
  split; [unfold confidence; intros ->; reflexivity|].
  unfold rawOfDraft;
    cbn [raw_proposal raw_summary raw_risk raw_rationale raw_riskSeverity
         raw_confidence d_proposal d_summary d_risk d_rationale d_riskSeverity
         d_confidence orElse].
  rewrite !truthy_of_text by assumption; cbn [negb orb].
  rewrite ensureArray_of_texts.
  destruct (Nat.ltb_spec (List.length (ensureArray (raw_rationale draft)))
              minReasons) as [Hshort|_]; [lia|].
  rewrite mathRound_integer, (clampUnit_id confidence Hc0 Hc1).
  do 2 f_equal; lia.
Qed.

Lemma validateProposal_valid (draft : RawProposal) (minReasons : nat)
      (valid : Draft) :
  validateProposal draft minReasons = Ok valid -> validDraft minReasons valid.
Proof.
  intros H; pose proof (validateProposal_normalises_core draft minReasons) as Hn.
  rewrite H in Hn; exact Hn.
Qed.

Lemma readProposal_valid (parse : string -> Parsed RawProposal)
      (minReasons : nat) (content : string) (valid : Draft) :
  readProposal parse minReasons content = Ok valid -> validDraft minReasons valid.
Proof.
  unfold readProposal; destruct (parse content); try discriminate;
    apply validateProposal_valid.
Qed.

(** ** The retry loops *)

Lemma proposalAttempts_unrolled (postChat : bool -> Result string)
      (parse : string -> Parsed RawProposal) (minReasons : nat) :
  proposalAttempts postChat parse minReasons [1; 2]%nat []
  = match postChat false with
    | Err message => (Err message, [false])
    | Ok first =>
        match readProposal parse minReasons first with
        | Ok draft => (Ok draft, [false])
        | Err _ =>
            (match postChat true with
             | Err message => Err message
             | Ok second => readProposal parse minReasons second
             end, [false; true])
        end
    end.
Proof.
  cbn [proposalAttempts Nat.eqb Nat.ltb Nat.leb negb push app].
  destruct (postChat false) as [first|message]; [|reflexivity].
  unfold readProposal.
  destruct (parse first) as [| | |parsed];
    try destruct (validateProposal _ minReasons); try reflexivity;
    (destruct (postChat true) as [second|failure]; [|reflexivity]);
    destruct (parse second) as [| | |parsed'];
    try destruct (validateProposal _ minReasons); reflexivity.
Qed.

Lemma generateAgentProposal_valid (config : LlmConfig)
      (postChat : bool -> Result string) (parse : string -> Parsed RawProposal)
      (agent : DebateAgent) (weights : DebateWeights) (draft : Draft) :
  fst (generateAgentProposal config postChat parse agent weights) = Ok draft ->
  validDraft (reasonsTarget (weightOf weights (agent_role agent))) draft /\
  d_rationale draft <> [].
Proof.
  unfold generateAgentProposal.
  set (minReasons := reasonsTarget (weightOf weights (agent_role agent))).
  destruct (notConfigured config); [discriminate|].
  rewrite proposalAttempts_unrolled; intros Hok.
  assert (Hmin : (1 <= minReasons)%nat).
  { unfold minReasons, reasonsTarget.
    destruct (atLeast _ (ratio 7 10)); [lia|].
    destruct (atLeast _ (ratio 5 10)); [lia|].
    destruct (atLeast _ (ratio 3 10)); lia. }
  assert (Hvalid : validDraft minReasons draft).
  { destruct (postChat false) as [first|message]; [|discriminate].
    destruct (readProposal parse minReasons first) as [d|m] eqn:Hread;
      cbn [fst] in Hok.
    - injection Hok as <-; eapply readProposal_valid; exact Hread.
    - destruct (postChat true) as [second|m']; [|discriminate].
      eapply readProposal_valid; exact Hok. }
  split; [exact Hvalid|].
  destruct Hvalid as (_ & _ & _ & Hlen & _); intros Hnil.
  rewrite Hnil in Hlen; cbn in Hlen; lia.
Qed.

(** X25: [generateAgentProposal] sends nothing when the configuration is not
    usable.  Otherwise it sends one request, and a second one, the only one
    with the retry instruction, exactly when the first response could not be
    parsed or failed validation; a failure of the request itself is never
    retried and its error is the result.  A draft it returns is the validated
    content of the last response: non-empty texts, at least
    [reasonsTarget(weight)] (so at least one) rationale items, a severity
    from 1 to 5 and a confidence in [0,1]. *)
Theorem generateAgentProposal_retries_once :
  forall (config : LlmConfig) (postChat : bool -> Result string)
         (parse : string -> Parsed RawProposal) (agent : DebateAgent)
         (weights : DebateWeights),
    let outcome := generateAgentProposal config postChat parse agent weights in
    let minReasons := reasonsTarget (weightOf weights (agent_role agent)) in
    (notConfigured config = true ->
     outcome = (Err "LLM is not configured.", [])) /\
    (notConfigured config = false ->
     (snd outcome = [false] \/ snd outcome = [false; true]) /\
     (forall message,
         postChat false = Err message -> outcome = (Err message, [false])) /\
     (forall first,
         postChat false = Ok first ->
         (snd outcome = [false; true] <->
          exists message, readProposal parse minReasons first = Err message) /\
         (snd outcome = [false] ->
          fst outcome = readProposal parse minReasons first) /\
         (snd outcome = [false; true] ->
          fst outcome
          = match postChat true with
            | Err message => Err message
            | Ok second => readProposal parse minReasons second
            end))) /\
    (forall draft,
        fst outcome = Ok draft ->
        validDraft minReasons draft /\ d_rationale draft <> []).
Proof.
  intros config postChat parse agent weights outcome minReasons.
  unfold outcome, generateAgentProposal; fold minReasons.
  destruct (notConfigured config) eqn:Hconfigured.
  { split; [reflexivity|]; split; [discriminate|].
    intros draft H; discriminate. }
  rewrite proposalAttempts_unrolled.
  split; [discriminate|].
  split.
  - intros _.
    destruct (postChat false) as [first|message] eqn:Hfirst.
    + destruct (readProposal parse minReasons first) as [draft|message] eqn:Hread;
        cbn [fst snd].
      * split; [now left|]; split; [discriminate|].
        intros content H; injection H as <-; rewrite Hread.
        split; [split; [discriminate|intros (m & Hm); discriminate]|].
        split; [reflexivity|discriminate].
      * split; [now right|]; split; [discriminate|].
        intros content H; injection H as <-; rewrite Hread.
        split; [split; [intros _; now exists message|reflexivity]|].
        split; [discriminate|reflexivity].
    + cbn [fst snd]; split; [now left|].
      split; [intros m H; injection H as <-; reflexivity|discriminate].
  - intros draft Hok.
    apply (generateAgentProposal_valid config postChat parse agent weights).
    unfold generateAgentProposal; rewrite Hconfigured, proposalAttempts_unrolled.
    exact Hok.
Qed.

Lemma generateAgentProposal_retries_once_witness :
  snd (generateAgentProposal
         (mkLlmConfig true (Some "http://localhost:11434") None (Some "llama3")
                      ollama "v1")
         (fun _ => Ok "not json") (fun _ => ParseError)
         (mkAgent "agent-planner" "Planner" planner "goal") defaultWeights)
  = [false; true].
Proof.
  destruct (generateAgentProposal_retries_once
              (mkLlmConfig true (Some "http://localhost:11434") None
                           (Some "llama3") ollama "v1")
              (fun _ => Ok "not json") (fun _ => ParseError)
              (mkAgent "agent-planner" "Planner" planner "goal") defaultWeights)
    as (_ & Hon & _).
  destruct (Hon eq_refl) as (_ & _ & Hfirst).
  destruct (Hfirst "not json" eq_refl) as (Hretry & _).
  apply Hretry; eexists; reflexivity.
Defined.

Lemma validateFinalSolution_valid (draft : RawSolution) (solution : FinalSolution) :
  validateFinalSolution draft = Ok solution -> validSolution solution.
Proof.
  unfold validateFinalSolution, validSolution; cbv zeta.
  destruct (truthy (raw_fs_summary draft)) eqn:Hs; cbn [negb]; [|discriminate].
  destruct (Nat.ltb_spec (List.length (ensureArray (raw_fs_steps draft))) 2)
    as [?|Hsteps]; [discriminate|].
  destruct (Nat.ltb_spec (List.length (ensureArray (raw_fs_risks draft))) 1)
    as [?|Hrisks]; [discriminate|].
  destruct (Nat.ltb_spec (List.length (ensureArray (raw_fs_assumptions draft))) 1)
    as [?|Hassumptions]; [discriminate|].
  destruct (truthy_some _ Hs) as (summary & -> & Hsummary).
  intros Hok; injection Hok as <-; cbn [orElse fs_summary fs_steps fs_risks
                                         fs_assumptions].
  repeat split; assumption.
Qed.

(** X26: [generateFinalSolution], once configured, asks again only when the
    first response cannot be parsed.  A response that parses is final: when it
    fails validation the error is the result and no second request is made
    (unlike [generateAgentProposal], which retries a failed validation); a
    failure of the request itself is not retried either.  A solution it
    returns has a non-empty summary, at least two steps, one risk and one
    assumption. *)
Theorem generateFinalSolution_retries_parsing_only :
  forall (config : LlmConfig) (postChat : bool -> Result string)
         (parse : string -> Parsed RawSolution),
    notConfigured config = false ->
    let outcome := generateFinalSolution config postChat parse in
    (snd outcome = [false] \/ snd outcome = [false; true]) /\
    (forall message,
        postChat false = Err message -> outcome = (Err message, [false])) /\
    (forall first,
        postChat false = Ok first ->
        (snd outcome = [false; true] <-> parse first = ParseError) /\
        (forall raw,
            parse first = ParsedValue raw ->
            outcome = (validateFinalSolution raw, [false]))) /\
    (forall solution, fst outcome = Ok solution -> validSolution solution).
Proof.
  intros config postChat parse Hconfigured outcome.
  unfold outcome, generateFinalSolution; rewrite Hconfigured.
  cbn [solutionAttempts Nat.eqb Nat.leb negb push app].
  destruct (postChat false) as [first|message] eqn:Hfirst.
  - destruct (parse first) as [| | |raw] eqn:Hparse.
    + destruct (postChat true) as [second|message].
      * destruct (parse second) as [| | |raw]; cbn [fst snd];
          (split; [now right|]); (split; [discriminate|]);
          (split; [intros c H; injection H as <-; rewrite Hparse;
                   split; [tauto|discriminate]|]);
          try (intros solution H; discriminate).
        intros solution H; eapply validateFinalSolution_valid; exact H.
      * cbn [fst snd]; split; [now right|]; split; [discriminate|].
        split; [intros c H; injection H as <-; rewrite Hparse;
                split; [tauto|discriminate]|].
        intros solution H; discriminate.
    + cbn [fst snd]; split; [now left|]; split; [discriminate|].
      split; [intros c H; injection H as <-; rewrite Hparse;
              split; [split; discriminate|discriminate]|].
      intros solution H; discriminate.
    + cbn [fst snd]; split; [now left|]; split; [discriminate|].
      split; [intros c H; injection H as <-; rewrite Hparse;
              split; [split; discriminate|discriminate]|].
      intros solution H; discriminate.
    + cbn [fst snd]; split; [now left|]; split; [discriminate|].
      split; [intros c H; injection H as <-; rewrite Hparse;
              split; [split; discriminate|]|].
      * intros raw' H; injection H as <-; reflexivity.
      * intros solution H; eapply validateFinalSolution_valid; exact H.
  - cbn [fst snd]; split; [now left|].
    split; [intros m H; injection H as <-; reflexivity|].
    split; [discriminate|intros solution H; discriminate].
Qed.

Lemma generateFinalSolution_retries_parsing_only_witness :
  generateFinalSolution
    (mkLlmConfig true (Some "http://localhost:11434") None (Some "llama3")
                 ollama "v1")
    (fun _ => Ok "{}")
    (fun _ => ParsedValue (mkRawSolution None None None None))
  = (Err "Final solution missing summary.", [false]).
Proof.
  destruct (generateFinalSolution_retries_parsing_only
              (mkLlmConfig true (Some "http://localhost:11434") None
                           (Some "llama3") ollama "v1")
              (fun _ => Ok "{}")
              (fun _ => ParsedValue (mkRawSolution None None None None))
              eq_refl)
    as (_ & _ & Hfirst & _).
  destruct (Hfirst "{}" eq_refl) as (_ & Hfinal).
  rewrite (Hfinal (mkRawSolution None None None None) eq_refl); reflexivity.
Defined.

End AdapterProperties.

(** ** The adapter behind the engine *)

(** X27: [classifyPrompt] sends one request and never asks again; the
    category it returns is one of the fourteen known categories.  So when
    the engine's classification is this function, the prompt category of the
    phase is always a known one: the returned one, or "reasoning-analysis"
    after any failure. *)
Theorem classifyPrompt_returns_known_category :
  forall (config : LlmAdapter.LlmConfig) (postChat : Result string)
         (parse : string -> LlmAdapter.Parsed (option string)),
    (forall category,
        LlmAdapter.classifyPrompt config postChat parse = Ok category ->
        In category LlmAdapter.categories /\
        LlmAdapter.notConfigured config = false /\
        exists content,
          postChat = Ok content /\
          parse content = LlmAdapter.ParsedValue (Some category)) /\
    (forall (env : Env) (text : string) (given : list string),
        classifyPrompt env text
        = LlmAdapter.classifyPrompt config postChat parse ->
        In (fst (classifyPhase env text given)) LlmAdapter.categories).
Proof.
  intros config postChat parse.
  assert (Hknown : forall category,
             LlmAdapter.classifyPrompt config postChat parse = Ok category ->
             In category LlmAdapter.categories /\
             LlmAdapter.notConfigured config = false /\
             exists content,
               postChat = Ok content /\
               parse content = LlmAdapter.ParsedValue (Some category)).
  { intros category; unfold LlmAdapter.classifyPrompt.
    destruct (LlmAdapter.notConfigured config); [discriminate|].
    destruct postChat as [content|message]; [|discriminate].
    destruct (parse content) as [| | |[found|]] eqn:Hparse; try discriminate.
    destruct (negb (String.eqb found EmptyString)); cbn [andb]; [|discriminate].
    destruct (LlmAdapter.isCategory found) eqn:Hcat; [|discriminate].
    intros H; injection H as <-.
    split; [|split; [reflexivity|exists content; split; [reflexivity|exact Hparse]]].
    unfold LlmAdapter.isCategory in Hcat; apply existsb_exists in Hcat.
    destruct Hcat as (known & Hin & Heq); apply String.eqb_eq in Heq; subst known.
    exact Hin. }
  split; [exact Hknown|].
  intros env text given Henv; unfold classifyPhase; rewrite Henv.
  destruct (LlmAdapter.classifyPrompt config postChat parse) as [category|message]
    eqn:Hresult; cbn [fst].
  - apply (Hknown category eq_refl).
  - unfold LlmAdapter.categories; cbn; tauto.
Qed.

Lemma collectProposals_origin (env : Env) (text : string)
      (weights : DebateWeights) (category : string) (given : list string)
      (proposal : Proposal) :
  In proposal (fst (collectProposals env text weights category given)) ->
  exists agent draft,
    In agent proposers /\
    generateAgentProposal env agent text weights category = Ok draft /\
    proposal = proposalOf (agent_role agent) draft.
Proof.
  unfold collectProposals, proposers, agents.
  cbn [fold_left filter agent_role AgentRole_eqb negb].
  split_calls env text weights category;
    cbn [fst snd push app In]; intros Hin;
    repeat match type of Hin with
           | _ \/ _ => destruct Hin as [<-|Hin]
           | False => contradiction
           end;
    first [ exists (mkAgent "agent-planner" "Planner" planner
                      "Propose concrete recovery plans for the scenario."), d1;
            split; [cbn; tauto|split; [exact E1|reflexivity]]
          | exists (mkAgent "agent-skeptic" "Skeptic" skeptic
                      "Challenge assumptions and stress-test plans."), d2;
            split; [cbn; tauto|split; [exact E2|reflexivity]]
          | exists (mkAgent "agent-security" "Security" security
                      "Identify security risks and validation gaps."), d3;
            split; [cbn; tauto|split; [exact E3|reflexivity]]
          | exists (mkAgent "agent-cost" "Cost" cost
                      "Estimate effort and operational impact."), d4;
            split; [cbn; tauto|split; [exact E4|reflexivity]] ].
Qed.

(** X28: when the engine's proposal calls are served by the adapter, every
    proposal of a completed run is a validated one: non-empty texts, a
    confidence in [0,1], a risk severity from 1 to 5 and at least as many
    rationale items as the weight of its agent requires, so never an empty
    rationale. *)
Theorem session_proposals_are_validated :
  forall (env : Env) (baseTime : Z) (scenario : option string)
         (options : RunOptions) (session : DebateSession),
    (forall agent text weights category,
        exists config postChat parse,
          generateAgentProposal env agent text weights category
          = fst (LlmAdapter.generateAgentProposal config postChat parse agent
                                                  weights)) ->
    out_result (runDebate env baseTime scenario options) = Ok session ->
    forall proposal,
      In proposal (s_proposals session) ->
      p_proposal proposal <> EmptyString /\
      p_summary proposal <> EmptyString /\
      p_risk proposal <> EmptyString /\
      0 <= p_confidence proposal /\ p_confidence proposal <= 1 /\
      (1 <= p_riskSeverity proposal <= 5)%Z /\
      (LlmAdapter.reasonsTarget (weightOf (s_weights session) (p_agent proposal))
       <= List.length (p_rationale proposal))%nat /\
      p_rationale proposal <> [].
Proof.
  intros env baseTime scenario options session Hadapter Hrun proposal Hin.
  destruct (runDebate_completed _ _ _ _ _ Hrun) as (v & w & _ & _ & -> & _).
  cbn [assembleSession s_proposals s_weights] in *.
  apply collectProposals_origin in Hin.
  destruct Hin as (agent & draft & _ & Hcall & ->).
  destruct (Hadapter agent (orElse scenario defaultScenario)
              (resolveWeights (opt_weights options))
              (fst (classifyPhase env (orElse scenario defaultScenario) [])))
    as (config & postChat & parse & Hserved).
  rewrite Hserved in Hcall.
  destruct (generateAgentProposal_valid config postChat parse agent
              (resolveWeights (opt_weights options)) draft Hcall)
    as ((Hp & Hs & Hr & Hlen & Hsev & Hc0 & Hc1) & Hne).
  unfold proposalOf;
    cbn [p_proposal p_summary p_risk p_confidence p_riskSeverity p_rationale
         p_agent].
  repeat (split; [assumption|]); assumption.
Qed.

Lemma session_proposals_are_validated_witness :
  exists session,
    out_result (runDebate worldThroughAdapter 0 (Some "Fix failing test")
                          (mkOptions None None)) = Ok session /\
    forall proposal,
      In proposal (s_proposals session) -> p_confidence proposal <= 1.
Proof.
  destruct (out_result (runDebate worldThroughAdapter 0 (Some "Fix failing test")
                                  (mkOptions None None)))
    as [session|message] eqn:Hrun; [|vm_compute in Hrun; discriminate].
  exists session; split; [reflexivity|].
  intros proposal Hin.
  apply (session_proposals_are_validated worldThroughAdapter 0
           (Some "Fix failing test") (mkOptions None None) session);
    [|exact Hrun|exact Hin].
  intros agent text weights category.
  exists adapterConfig, (fun _ => Ok "{...}"),
    (fun _ => LlmAdapter.ParsedValue cannedProposal).
  reflexivity.
Defined.

(** * Properties of the transcript *)

Lemma byAgent_some (proposals : list Proposal) (role : AgentRole)
      (proposal : Proposal) :
  byAgent proposals role = Some proposal ->
  In proposal proposals /\ p_agent proposal = role.
Proof.
  unfold byAgent; intros H; apply find_some in H; destruct H as [Hin Hrole].
  split; [apply in_rev; exact Hin|].
  destruct (p_agent proposal), role; (reflexivity || discriminate).
Qed.

Lemma byAgent_none (proposals : list Proposal) (role : AgentRole) :
  byAgent proposals role = None ->
  forall proposal, In proposal proposals -> p_agent proposal <> role.
Proof.
  unfold byAgent; intros H proposal Hin Hrole.
  apply in_rev in Hin.
  pose proof (find_none _ _ H proposal Hin) as Hno; cbn in Hno.
  rewrite Hrole in Hno; destruct role; discriminate.
Qed.

Ltac transcript_cases proposals finalSolution :=
  unfold buildTranscriptFromProposals, agents, mapi;
  cbn [mapiFrom transcriptMessage agent_role List.concat];
  destruct (byAgent proposals planner) as [p1|] eqn:E1;
  destruct (byAgent proposals skeptic) as [p2|] eqn:E2;
  destruct (byAgent proposals security) as [p3|] eqn:E3;
  destruct (byAgent proposals cost) as [p4|] eqn:E4;
  try (apply byAgent_some in E1; destruct E1 as [I1 R1]);
  try (apply byAgent_some in E2; destruct E2 as [I2 R2]);
  try (apply byAgent_some in E3; destruct E3 as [I3 R3]);
  try (apply byAgent_some in E4; destruct E4 as [I4 R4]);
  try (pose proof (byAgent_none _ _ E1) as N1);
  try (pose proof (byAgent_none _ _ E2) as N2);
  try (pose proof (byAgent_none _ _ E3) as N3);
  try (pose proof (byAgent_none _ _ E4) as N4);
  destruct finalSolution as [solution|];
  cbn [app map m_timestamp m_agent In m_preferredPlanId m_confidence m_reasons
       planForRole Z.of_nat Pos.of_succ_nat Pos.succ].

Lemma transcript_timestamps (baseTime : Z) (scenario : string)
      (proposals : list Proposal) (finalSolution : option FinalSolution) :
  StronglySorted Z.lt
    (map m_timestamp
         (buildTranscriptFromProposals baseTime scenario proposals finalSolution)).
Proof.
  transcript_cases proposals finalSolution; repeat constructor; lia.
Qed.

Lemma transcript_agents_distinct (baseTime : Z) (scenario : string)
      (proposals : list Proposal) (finalSolution : option FinalSolution) :
  NoDup (map m_agent
             (buildTranscriptFromProposals baseTime scenario proposals
                                           finalSolution)).
Proof.
  transcript_cases proposals finalSolution; repeat constructor; cbn;
    intuition discriminate.
Qed.

Lemma transcript_plans_and_times (baseTime : Z) (scenario : string)
      (proposals : list Proposal) (finalSolution : option FinalSolution)
      (message : DebateMessage) :
  In message (buildTranscriptFromProposals baseTime scenario proposals
                                           finalSolution) ->
  m_preferredPlanId message = planForRole (m_agent message) /\
  (baseTime <= m_timestamp message <= baseTime + 720000)%Z.
Proof.
  transcript_cases proposals finalSolution; intros Hin;
    repeat destruct Hin as [<-|Hin]; try contradiction;
    cbn [m_preferredPlanId m_agent planForRole m_timestamp];
    (split; [reflexivity|lia]).
Qed.

Lemma transcript_roles (baseTime : Z) (scenario : string)
      (proposals : list Proposal) (finalSolution : option FinalSolution)
      (role : AgentRole) :
  role <> synthesizer ->
  (In role (map m_agent (buildTranscriptFromProposals baseTime scenario proposals
                                                      finalSolution)) <->
   exists proposal, In proposal proposals /\ p_agent proposal = role).
Proof.
  intros Hrole.
  transcript_cases proposals finalSolution;
    (split;
     [intros Hin; repeat destruct Hin as [<-|Hin]; try contradiction;
      try congruence;
      first [ exists p1; split; assumption | exists p2; split; assumption
            | exists p3; split; assumption | exists p4; split; assumption ]
     |intros (proposal & Hin & Hp); destruct role; try congruence;
      first [ now auto 10
            | exfalso; eapply N1; eassumption
            | exfalso; eapply N2; eassumption
            | exfalso; eapply N3; eassumption
            | exfalso; eapply N4; eassumption ]]).
Qed.

Lemma transcript_proposal_messages (baseTime : Z) (scenario : string)
      (proposals : list Proposal) (finalSolution : option FinalSolution)
      (message : DebateMessage) :
  In message (buildTranscriptFromProposals baseTime scenario proposals
                                           finalSolution) ->
  m_agent message <> synthesizer ->
  exists proposal,
    In proposal proposals /\ p_agent proposal = m_agent message /\
    m_confidence message = p_confidence proposal /\
    m_reasons message = p_rationale proposal.
Proof.
  transcript_cases proposals finalSolution; intros Hin Hagent;
    repeat destruct Hin as [<-|Hin]; try contradiction;
    cbn [m_agent m_confidence m_reasons] in *; try congruence; eauto 6.
Qed.

Lemma transcript_synthesizer (baseTime : Z) (scenario : string)
      (proposals : list Proposal) (finalSolution : option FinalSolution) :
  In synthesizer (map m_agent (buildTranscriptFromProposals baseTime scenario
                                 proposals finalSolution)) <->
  finalSolution <> None.
Proof.
  transcript_cases proposals finalSolution;
    (split; [intros Hin; first [discriminate|exfalso; intuition discriminate]
            |intros Hsome; first [tauto|congruence]]).
Qed.

Lemma transcript_synthesizer_message (baseTime : Z) (scenario : string)
      (proposals : list Proposal) (finalSolution : option FinalSolution)
      (message : DebateMessage) :
  In message (buildTranscriptFromProposals baseTime scenario proposals
                                           finalSolution) ->
  m_agent message = synthesizer ->
  m_preferredPlanId message = "plan-b" /\
  m_confidence message = ratio 7 10 /\
  (1 <= List.length (m_reasons message) <= 3)%nat.
Proof.
  transcript_cases proposals finalSolution; intros Hin Hagent;
    repeat destruct Hin as [<-|Hin]; try contradiction;
    cbn [m_agent m_preferredPlanId m_confidence m_reasons] in *;
    try congruence;
    (split; [reflexivity|split; [reflexivity|]]);
    destruct (fs_steps solution) as [|s1 [|s2 [|s3 more]]]; cbn; lia.
Qed.

(** X29: the transcript holds at most one message per agent, in roster order
    and with strictly increasing timestamps, three minutes apart per roster
    position.  An agent other than the synthesizer has a message exactly when
    it has a proposal; the message carries the confidence and the rationale
    of its (last) proposal and prefers the plan of its role.  The synthesizer
    has a message exactly when a final solution is passed: it prefers plan-b,
    has confidence 0.7 and one to three reasons.  A run builds its transcript
    before the final solution exists, so the transcript of a run has no
    synthesizer message, whatever plan wins. *)
Theorem transcript_follows_roster :
  forall (baseTime : Z) (scenario : string) (proposals : list Proposal)
         (finalSolution : option FinalSolution),
    let transcript :=
      buildTranscriptFromProposals baseTime scenario proposals finalSolution in
    StronglySorted Z.lt (map m_timestamp transcript) /\
    NoDup (map m_agent transcript) /\
    (forall message,
        In message transcript ->
        m_preferredPlanId message = planForRole (m_agent message) /\
        (baseTime <= m_timestamp message <= baseTime + 720000)%Z) /\
    (forall role,
        role <> synthesizer ->
        (In role (map m_agent transcript) <->
         exists proposal, In proposal proposals /\ p_agent proposal = role)) /\
    (forall message,
        In message transcript -> m_agent message <> synthesizer ->
        exists proposal,
          In proposal proposals /\ p_agent proposal = m_agent message /\
          m_confidence message = p_confidence proposal /\
          m_reasons message = p_rationale proposal) /\
    (In synthesizer (map m_agent transcript) <-> finalSolution <> None) /\
    (forall message,
        In message transcript -> m_agent message = synthesizer ->
        m_preferredPlanId message = "plan-b" /\
        m_confidence message = ratio 7 10 /\
        (1 <= List.length (m_reasons message) <= 3)%nat) /\
    (forall env options optionalScenario,
        ~ In synthesizer
             (map m_agent (transcriptOfRun env baseTime optionalScenario options))).
Proof.
  intros baseTime scenario proposals finalSolution transcript.
  split; [apply transcript_timestamps|].
  split; [apply transcript_agents_distinct|].
  split; [intros message; apply transcript_plans_and_times|].
  split; [intros role; apply transcript_roles|].
  split; [intros message; apply transcript_proposal_messages|].
  split; [apply transcript_synthesizer|].
  split; [intros message; apply transcript_synthesizer_message|].
  intros env options optionalScenario Hin; unfold transcriptOfRun in Hin.
  apply transcript_synthesizer in Hin; congruence.
Qed.

(** * Properties of the real verification adapter *)

Section RealAdapterProperties.

Import RealAdapter.

Lemma selectOutput_graded (jitter : Z) (plan : DebatePlan) :
  reliability (selectOutput jitter plan)
  = Some (if passed (selectOutput jitter plan) then ratio 9 10 else ratio 75 100).
Proof. reflexivity. Qed.

(** X30: the real adapter always returns a result.  It names itself "real"
    when the tool call returned and "mock", with a warning that carries the
    error, when anything threw (a missing MCP_URL or DAYTONA_API_KEY, the
    request, a status that is not ok, an error in the payload); the verdict is
    then the local mock's.  In both cases the reliability is 0.9 for a pass
    and 0.75 for a failure.  A returned call passes exactly when the exit
    code is 0, a missing exit code counting as 1 when there is error output
    and as 0 otherwise; and when the result carries text content, that text
    replaces the whole result, so the verdict is a pass whatever exit code and
    error output came with it. *)
Theorem realAdapter_verdict :
  forall (env : DaytonaEnv) (fetch : Result HttpReply)
         (startedAt nowAt : string) (startedMs nowMs jitter : Z)
         (plan : DebatePlan),
    let result :=
      runVerification env fetch startedAt nowAt startedMs nowMs jitter plan in
    reliability result
    = Some (if passed result then ratio 9 10 else ratio 75 100) /\
    match callMcpTool env fetch with
    | Err message =>
        adapterName result = Some "mock" /\
        warning result
        = Some ("Real adapter failed; fell back to mock. " ++ message) /\
        passed result = passed (selectOutput jitter plan) /\
        output result = output (selectOutput jitter plan)
    | Ok raw =>
        adapterName result = Some "real" /\ warning result = None /\
        (passed result = true <->
         orElse (exitCode (parseToolResult raw))
                (if LlmAdapter.truthy (stderr (parseToolResult raw)) then 1 else 0)%Z
         = 0%Z) /\
        (forall given items,
            raw = RawObject given -> content given = Some items ->
            contentText items <> EmptyString ->
            passed result = true /\
            parseToolResult raw = onlyStdout (contentText items))
    end /\
    (LlmAdapter.truthy (MCP_URL env) = false ->
     warning result
     = Some "Real adapter failed; fell back to mock. Missing required env var: MCP_URL").
Proof.
  intros env fetch startedAt nowAt startedMs nowMs jitter plan result.
  unfold result, runVerification, runDaytonaVerification; cbv zeta.
  assert (Hurl : LlmAdapter.truthy (MCP_URL env) = false ->
                 callMcpTool env fetch = Err "Missing required env var: MCP_URL").
  { unfold callMcpTool, requireEnv.
    destruct (MCP_URL env) as [text|]; cbn; [|reflexivity].
    destruct (String.eqb text EmptyString); [reflexivity|discriminate]. }
  destruct (callMcpTool env fetch) as [raw|message] eqn:Hcall;
    cbn [reliability passed adapterName warning output].
  - split; [reflexivity|].
    split.
    + split; [reflexivity|]; split; [reflexivity|].
      split; [apply Z.eqb_eq|].
      intros given items -> Hcontent Htext.
      assert (Hparsed : parseToolResult (RawObject given)
                        = onlyStdout (contentText items)).
      { cbn [parseToolResult]; rewrite Hcontent; cbv zeta.
        apply String.eqb_neq in Htext; rewrite Htext; reflexivity. }
      rewrite Hparsed; split; reflexivity.
    + intros Hmissing; discriminate (Hurl Hmissing).
  - split; [apply selectOutput_graded|].
    split; [repeat split|].
    intros Hmissing; pose proof (Hurl Hmissing) as Hmessage.
    injection Hmessage as ->; reflexivity.
Qed.

Lemma realAdapter_verdict_witness :
  passed (runVerification
            (mkDaytonaEnv (Some "http://localhost:8787") (Some "key") None None
                          None)
            (Ok (mkReply true 200 EmptyString None
                   (RawObject (mkCallResult (Some [Some "1 failed"]) None
                                 (Some "boom") (Some 1%Z) None None None None))))
            "2026-01-01T00:00:00.000Z" "2026-01-01T00:00:05.000Z" 0 5000 120
            (mkPlan "plan-a" "t" "s" [] []))
  = true.
Proof.
  pose proof (realAdapter_verdict
                (mkDaytonaEnv (Some "http://localhost:8787") (Some "key") None
                              None None)
                (Ok (mkReply true 200 EmptyString None
                       (RawObject (mkCallResult (Some [Some "1 failed"]) None
                                     (Some "boom") (Some 1%Z) None None None
                                     None))))
                "2026-01-01T00:00:00.000Z" "2026-01-01T00:00:05.000Z" 0 5000 120
                (mkPlan "plan-a" "t" "s" [] [])) as H.
  cbv zeta in H; destruct H as (_ & H & _).
  change (callMcpTool _ _)
    with (@Ok RawResult
            (RawObject (mkCallResult (Some [Some "1 failed"]) None (Some "boom")
                          (Some 1%Z) None None None None))) in H.
  cbv iota beta in H; destruct H as (_ & _ & _ & Hcontent).
  apply (Hcontent _ [Some "1 failed"] eq_refl eq_refl); discriminate.
Defined.

End RealAdapterProperties.
